(** * Payment notification reconciliation and subscription renewal

    A shallow embedding of the PayHere payment server (the unified
    Express application holding the hash functions, the notification
    handlers and the auto-renewal endpoints), and the properties of its
    hash authenticator, notification router, renewal state machine and
    auto-renewal toggle.

    Conventions of the embedding.
    - A JavaScript string is a [string]: the sequence of bytes of its UTF-8
      encoding, which is what both MD5 libraries digest.  Case mapping is
      that of the ASCII letters; the identifiers, currency codes, e-mail
      addresses and hexadecimal digests handled here are ASCII text.
    - A JavaScript number that is only parsed and printed is a [number]
      (sign, integral significand, binary exponent); counters are [Z].
    - A [Date] is its time value, the milliseconds since the epoch, as [Z];
      the host reads a date string to a time value, or finds it
      unreadable: [new Date(s)] is then the Invalid Date, which no stored
      document holds.
    - A field of a request body or of a stored document that may be
      [undefined] is an [option]; the members of a request body are
      strings.
    - The MongoDB collections are lists of documents in insertion order;
      a handler takes the current time and the database, and returns the
      database it leaves.
    - The TypeErrors that the code can raise on these values are those of
      the notification endpoint, which its [catch] turns into the reply
      500.
    - A regular expression reads a string by units: a white-space
      character of ECMAScript, whatever the number of its bytes, or one
      byte.
    - The endpoint that records a subscription checks the validators of
      the schema (a required string is not empty, a Number is not [NaN])
      before it stores the document.  The stored documents satisfy the
      schema, so the [save] of a handler of notifications is rejected
      only for a value that the handler assigns: a date that is the
      Invalid Date, an amount that is [NaN].  The handler then stores
      nothing, and its [catch] ends it before it writes to the log. *)

From Stdlib Require Import ZArith NArith List String Ascii Bool Lia.
From Stdlib Require Import DecimalString.
From Stdlib Require Import Permutation Sorted.
Import ListNotations.
Local Open Scope string_scope.
Local Open Scope list_scope.
Local Open Scope Z_scope.

(** ** MD5 (RFC 1321)

    [crypto.createHash('md5')] and [CryptoJS.MD5] both compute this
    function on the UTF-8 bytes of their argument. *)
Module MD5.

Definition w32 (x : Z) : Z := x mod 2 ^ 32.

Definition add32 (x y : Z) : Z := w32 (x + y).

Definition not32 (x : Z) : Z := 2 ^ 32 - 1 - x.

Definition rotl32 (x : Z) (c : Z) : Z :=
  Z.lor (w32 (Z.shiftl x c)) (Z.shiftr x (32 - c)).

(** floor(2^32 * abs(sin(i + 1))) for i = 0 .. 63 *)
Definition K : list Z :=
[ 0xd76aa478; 0xe8c7b756; 0x242070db; 0xc1bdceee;
  0xf57c0faf; 0x4787c62a; 0xa8304613; 0xfd469501;
  0x698098d8; 0x8b44f7af; 0xffff5bb1; 0x895cd7be;
  0x6b901122; 0xfd987193; 0xa679438e; 0x49b40821;
  0xf61e2562; 0xc040b340; 0x265e5a51; 0xe9b6c7aa;
  0xd62f105d; 0x02441453; 0xd8a1e681; 0xe7d3fbc8;
  0x21e1cde6; 0xc33707d6; 0xf4d50d87; 0x455a14ed;
  0xa9e3e905; 0xfcefa3f8; 0x676f02d9; 0x8d2a4c8a;
  0xfffa3942; 0x8771f681; 0x6d9d6122; 0xfde5380c;
  0xa4beea44; 0x4bdecfa9; 0xf6bb4b60; 0xbebfbc70;
  0x289b7ec6; 0xeaa127fa; 0xd4ef3085; 0x04881d05;
  0xd9d4d039; 0xe6db99e5; 0x1fa27cf8; 0xc4ac5665;
  0xf4292244; 0x432aff97; 0xab9423a7; 0xfc93a039;
  0x655b59c3; 0x8f0ccc92; 0xffeff47d; 0x85845dd1;
  0x6fa87e4f; 0xfe2ce6e0; 0xa3014314; 0x4e0811a1;
  0xf7537e82; 0xbd3af235; 0x2ad7d2bb; 0xeb86d391 ].

(** per-round left rotations *)
Definition S : list Z :=
[ 7; 12; 17; 22; 7; 12; 17; 22; 7; 12; 17; 22; 7; 12; 17; 22;
  5;  9; 14; 20; 5;  9; 14; 20; 5;  9; 14; 20; 5;  9; 14; 20;
  4; 11; 16; 23; 4; 11; 16; 23; 4; 11; 16; 23; 4; 11; 16; 23;
  6; 10; 15; 21; 6; 10; 15; 21; 6; 10; 15; 21; 6; 10; 15; 21 ].

Definition bytes_of_string (s : string) : list Z :=
  map (fun c => Z.of_N (N_of_ascii c)) (list_ascii_of_string s).

(** little-endian bytes of the low [n] bytes of [x] *)
Fixpoint le_bytes (n : nat) (x : Z) : list Z :=
  match n with
  | O => []
  | Datatypes.S n' => x mod 256 :: le_bytes n' (x / 256)
  end.

(** 0x80, then zeros up to 56 modulo 64, then the bit length on 64 bits *)
Definition pad (msg : list Z) : list Z :=
  let len := Z.of_nat (List.length msg) in
  let zeros := Z.to_nat ((55 - len) mod 64) in
  msg ++ 0x80 :: repeat 0 zeros ++ le_bytes 8 ((8 * len) mod 2 ^ 64).

Fixpoint le_words (fuel : nat) (bs : list Z) : list Z :=
  match fuel, bs with
  | Datatypes.S f, b0 :: b1 :: b2 :: b3 :: rest =>
      (b0 + 256 * (b1 + 256 * (b2 + 256 * b3))) :: le_words f rest
  | _, _ => []
  end.

Definition state : Type := (Z * Z * Z * Z)%type.

Definition init : state := (0x67452301, 0xefcdab89, 0x98badcfe, 0x10325476).

Definition round (M : list Z) (st : state) (i : Z) : state :=
  let '(A, B, C, D) := st in
  let '(F, g) :=
    if i <? 16 then (Z.lor (Z.land B C) (Z.land (not32 B) D), i)
    else if i <? 32 then
      (Z.lor (Z.land D B) (Z.land (not32 D) C), (5 * i + 1) mod 16)
    else if i <? 48 then (Z.lxor B (Z.lxor C D), (3 * i + 5) mod 16)
    else (Z.lxor C (Z.lor B (not32 D)), (7 * i) mod 16) in
  let F' := add32 (add32 (add32 F A) (nth (Z.to_nat i) K 0))
                  (nth (Z.to_nat g) M 0) in
  (D, add32 B (rotl32 F' (nth (Z.to_nat i) S 0)), B, C).

Definition rounds : list Z := map Z.of_nat (seq 0 64).

Definition block (st : state) (M : list Z) : state :=
  let '(a0, b0, c0, d0) := st in
  let '(A, B, C, D) := fold_left (round M) rounds st in
  (add32 a0 A, add32 b0 B, add32 c0 C, add32 d0 D).

Fixpoint blocks (fuel : nat) (st : state) (ws : list Z) : state :=
  match fuel, ws with
  | Datatypes.S f, _ :: _ => blocks f (block st (firstn 16 ws)) (skipn 16 ws)
  | _, _ => st
  end.

Definition digest (msg : list Z) : list Z :=
  let bs := pad msg in
  let ws := le_words (List.length bs) bs in
  let '(A, B, C, D) := blocks (List.length ws) init ws in
  le_bytes 4 A ++ le_bytes 4 B ++ le_bytes 4 C ++ le_bytes 4 D.

Definition hex_digit (d : Z) : ascii :=
  ascii_of_N (Z.to_N (if d <? 10 then 48 + d else 87 + d)).

Fixpoint hex_of_bytes (bs : list Z) : string :=
  match bs with
  | [] => EmptyString
  | b :: rest =>
      String (hex_digit (b / 16)) (String (hex_digit (b mod 16))
             (hex_of_bytes rest))
  end.

(** [createHash('md5').update(s).digest('hex')], and
    [CryptoJS.MD5(s).toString()]: 32 lower-case hexadecimal digits *)
Definition hex (s : string) : string :=
  hex_of_bytes (digest (bytes_of_string s)).

End MD5.

(** ** The JavaScript built-ins the server calls *)
Infix "+++" := String.append (right associativity, at level 60).

Module JS.

Definition code (c : ascii) : Z := Z.of_N (N_of_ascii c).

Definition map_string (f : ascii -> ascii) : string -> string :=
  fix go (s : string) : string :=
    match s with
    | EmptyString => EmptyString
    | String c rest => String (f c) (go rest)
    end.

Definition upper_char (c : ascii) : ascii :=
  if (97 <=? code c) && (code c <=? 122)
  then ascii_of_N (N_of_ascii c - 32) else c.

Definition lower_char (c : ascii) : ascii :=
  if (65 <=? code c) && (code c <=? 90)
  then ascii_of_N (N_of_ascii c + 32) else c.

(** [String.prototype.toUpperCase] and [toLowerCase] *)
Definition toUpperCase : string -> string := map_string upper_char.
Definition toLowerCase : string -> string := map_string lower_char.

(** [String.prototype.startsWith] *)
Definition startsWith (s p : string) : bool := String.prefix p s.

Fixpoint drop (n : nat) (s : string) : string :=
  match n, s with
  | Datatypes.S n', String _ rest => drop n' rest
  | _, _ => s
  end.

Fixpoint rev_string (acc s : string) : string :=
  match s with
  | EmptyString => acc
  | String c rest => rev_string (String c acc) rest
  end.

(** The white space and line terminators of ECMAScript, UTF-8 encoded:
    TAB LF VT FF CR SP, U+00A0, U+1680, U+2000 .. U+200A, U+2028, U+2029,
    U+202F, U+205F, U+3000, U+FEFF. *)
Definition white_space_len (s : string) : nat :=
  match map code (list_ascii_of_string s) with
  | 9 :: _ | 10 :: _ | 11 :: _ | 12 :: _ | 13 :: _ | 32 :: _ => 1%nat
  | 0xC2 :: 0xA0 :: _ => 2%nat
  | 0xE1 :: 0x9A :: 0x80 :: _ => 3%nat
  | 0xE2 :: 0x80 :: b :: _ =>
      if ((0x80 <=? b) && (b <=? 0x8A)) || (b =? 0xA8) || (b =? 0xA9)
         || (b =? 0xAF) then 3%nat else 0%nat
  | 0xE2 :: 0x81 :: 0x9F :: _ => 3%nat
  | 0xE3 :: 0x80 :: 0x80 :: _ => 3%nat
  | 0xEF :: 0xBB :: 0xBF :: _ => 3%nat
  | _ => 0%nat
  end.

(** the same test at the end of a string given in reverse *)
Definition white_space_len_rev (r : string) : nat :=
  match map code (list_ascii_of_string r) with
  | 9 :: _ | 10 :: _ | 11 :: _ | 12 :: _ | 13 :: _ | 32 :: _ => 1%nat
  | 0xA0 :: 0xC2 :: _ => 2%nat
  | 0x80 :: 0x9A :: 0xE1 :: _ => 3%nat
  | 0x9F :: 0x81 :: 0xE2 :: _ => 3%nat
  | 0x80 :: 0x80 :: 0xE3 :: _ => 3%nat
  | 0xBF :: 0xBB :: 0xEF :: _ => 3%nat
  | b :: 0x80 :: 0xE2 :: _ =>
      if ((0x80 <=? b) && (b <=? 0x8A)) || (b =? 0xA8) || (b =? 0xA9)
         || (b =? 0xAF) then 3%nat else 0%nat
  | _ => 0%nat
  end.

Fixpoint skip (len : string -> nat) (fuel : nat) (s : string) : string :=
  match fuel with
  | O => s
  | Datatypes.S f =>
      match len s with
      | O => s
      | n => skip len f (drop n s)
      end
  end.

Definition trimStart (s : string) : string :=
  skip white_space_len (String.length s) s.

Definition trimEnd (s : string) : string :=
  rev_string "" (skip white_space_len_rev (String.length s)
                      (rev_string "" s)).

(** [String.prototype.trim] *)
Definition trim (s : string) : string := trimEnd (trimStart s).

(** [s.replace(p, '')] with a string pattern: the first occurrence of
    [p] is removed *)
Fixpoint remove_first (p s : string) : string :=
  if String.prefix p s then drop (String.length p) s
  else match s with
       | EmptyString => EmptyString
       | String c rest => String c (remove_first p rest)
       end.

(** a value in a template literal: [undefined] prints as such *)
Definition template (v : option string) : string :=
  match v with Some s => s | None => "undefined" end.

(** truthiness of a value that is a string or [undefined] *)
Definition truthy (v : option string) : bool :=
  match v with
  | Some (String _ _) => true
  | _ => false
  end.

Definition string_of_Z (n : Z) : string :=
  NilZero.string_of_uint (N.to_uint (Z.to_N n)).

(** *** Numbers

    A Number is [(-1)^neg * m * 2^e]; the finite values built here are
    the binary64 ones, with [2^52 <= m < 2^53], or [e = -1074] and
    [m < 2^52], or [m = 0]. *)
Inductive number : Type :=
| NaN
| Infinity (neg : bool)
| Finite (neg : bool) (m e : Z).

(** the binary64 value nearest to [p / q], ties to even, for [0 <= p]
    and [0 < q] *)
Definition round_binary64 (neg : bool) (p q : Z) : number :=
  if p =? 0 then Finite neg 0 0 else
  let quo e := if 0 <=? e then p / (q * 2 ^ e) else (p * 2 ^ (- e)) / q in
  let e1 := Z.log2 p - Z.log2 q - 53 in
  let e2 := if 2 ^ 53 <=? quo e1 then e1 + 1 else e1 in
  let e := Z.max e2 (-1074) in
  let num := if 0 <=? e then p else p * 2 ^ (- e) in
  let den := if 0 <=? e then q * 2 ^ e else q in
  let m0 := num / den in
  let r := num mod den in
  let m1 := if (den <? 2 * r) || ((den =? 2 * r) && Z.odd m0)
            then m0 + 1 else m0 in
  let '(m, e) := if m1 =? 2 ^ 53 then (2 ^ 52, e + 1) else (m1, e) in
  if m =? 0 then Finite neg 0 0
  else if 971 <? e then Infinity neg
  else Finite neg m e.

Definition is_digit (c : ascii) : bool := (48 <=? code c) && (code c <=? 57).

(** the leading decimal digits of [s]: their value added to [10^k * acc],
    their number added to [n], and the rest of [s] *)
Fixpoint take_digits (s : string) (acc n : Z) : Z * Z * string :=
  match s with
  | String c rest =>
      if is_digit c then take_digits rest (10 * acc + (code c - 48)) (n + 1)
      else (acc, n, s)
  | EmptyString => (acc, n, s)
  end.

(** an ExponentPart at the head of [s], 0 when there is none *)
Definition exponent_part (s : string) : Z :=
  match s with
  | String c rest =>
      if (code c =? 101) || (code c =? 69) then
        let '(neg, ds) :=
          match rest with
          | String "-" r => (true, r)
          | String "+" r => (false, r)
          | _ => (false, rest)
          end in
        let '(v, n, _) := take_digits ds 0 0 in
        if n =? 0 then 0 else if neg then - v else v
      else 0
  | EmptyString => 0
  end.

(** [parseFloat] of a string: the longest prefix of the trimmed string
    that is a StrDecimalLiteral, rounded to binary64 *)
Definition parseFloat (input : string) : number :=
  let s := trimStart input in
  let '(neg, s0) :=
    match s with
    | String "-" r => (true, r)
    | String "+" r => (false, r)
    | _ => (false, s)
    end in
  if String.prefix "Infinity" s0 then Infinity neg else
  let '(i, ni, s1) := take_digits s0 0 0 in
  let '(mant, nf, s2) :=
    match s1 with
    | String "." r => let '(v, n, r') := take_digits r i 0 in (v, n, r')
    | _ => (i, 0, s1)
    end in
  if ni + nf =? 0 then NaN else
  let e10 := exponent_part s2 - nf in
  if 0 <=? e10 then round_binary64 neg (mant * 10 ^ e10) 1
  else round_binary64 neg mant (10 ^ (- e10)).

(** a value that is a Number or a string *)
Inductive value : Type :=
| VNumber (x : number)
| VString (s : string).

(** [parseFloat] of a value that is a string or [undefined] *)
Definition parseFloat_opt (v : option string) : number :=
  match v with Some s => parseFloat s | None => NaN end.

(** [parseFloat] of a Number prints it and parses it back: the same
    Number, but for the sign of zero *)
Definition parseFloat_number (x : number) : number :=
  match x with
  | Finite _ 0 _ => Finite false 0 0
  | _ => x
  end.

(** the Number of an integer literal *)
Definition number_of_Z (z : Z) : number :=
  round_binary64 (z <? 0) (Z.abs z) 1.

Definition parseFloat_value (v : value) : number :=
  match v with
  | VNumber x => parseFloat_number x
  | VString s => parseFloat s
  end.

Fixpoint strip_zeros_rev (r : string) : string :=
  match r with
  | String "0" rest => strip_zeros_rev rest
  | _ => r
  end.

(** the shortest decimal that rounds to [m * 2^e], by increasing number
    [k] of digits: its digits and the power of ten they are scaled by *)
Fixpoint shortest (ks : list Z) (m e D : Z) : Z * Z :=
  let V := m * 2 ^ e in
  match ks with
  | [] => (V, 0)
  | k :: ks' =>
      let lo2 := if m =? 2 ^ 52 then (4 * m - 1) * 2 ^ (e - 1)
                 else (2 * m - 1) * 2 ^ e in
      let hi2 := (2 * m + 1) * 2 ^ e in
      let inside c := if Z.even m then (lo2 <=? 2 * c) && (2 * c <=? hi2)
                      else (lo2 <? 2 * c) && (2 * c <? hi2) in
      let scale := 10 ^ (D - k) in
      let a := V / scale in
      let c1 := a * scale in
      let c2 := (a + 1) * scale in
      match inside c1, inside c2 with
      | true, true =>
          if V - c1 <? c2 - V then (a, D - k)
          else if c2 - V <? V - c1 then (a + 1, D - k)
          else if Z.even a then (a, D - k) else (a + 1, D - k)
      | true, false => (a, D - k)
      | false, true => (a + 1, D - k)
      | false, false => shortest ks' m e D
      end
  end.

(** [Number::toString] of a finite [m * 2^e >= 10^21]: exponent form *)
Definition toString_large (m e : Z) : string :=
  let D := Z.of_nat (String.length (string_of_Z (m * 2 ^ e))) in
  let '(n, j) := shortest (map Z.of_nat (seq 1 17)) m e D in
  let all := string_of_Z n in
  let ds := rev_string "" (strip_zeros_rev (rev_string "" all)) in
  let ex := string_of_Z (Z.of_nat (String.length all) - 1 + j) in
  match ds with
  | String d EmptyString => String d "e+" +++ ex
  | String d rest => String d "." +++ rest +++ "e+" +++ ex
  | EmptyString => "0"
  end.

Definition pad3 (ds : string) : string :=
  match ds with
  | String _ (String _ (String _ _)) => ds
  | String _ (String _ EmptyString) => "0" +++ ds
  | String _ EmptyString => "00" +++ ds
  | EmptyString => "000"
  end.

(** [Number.prototype.toFixed(2)]: the integer [n] nearest to [100 x],
    the larger one of two, printed with a point before its last two
    digits *)
Definition toFixed2 (x : number) : string :=
  match x with
  | NaN => "NaN"
  | Infinity neg => if neg then "-Infinity" else "Infinity"
  | Finite neg m e =>
      let sign := if neg && (0 <? m) then "-" else "" in
      let large := if 0 <=? e then 10 ^ 21 <=? m * 2 ^ e
                   else 10 ^ 21 * 2 ^ (- e) <=? m in
      if large then sign +++ toString_large m e else
      let n := if 0 <=? e then 100 * m * 2 ^ e
               else (200 * m + 2 ^ (- e)) / (2 * 2 ^ (- e)) in
      let ds := pad3 (string_of_Z n) in
      let k := (String.length ds - 2)%nat in
      sign +++ String.substring 0 k ds +++ "." +++ String.substring k 2 ds
  end.

End JS.

(** ** Dates

    The host supplies the local time zone adjustment (ECMAScript's
    [LocalTZA(t, isUTC)]), the parsing of date strings by [new Date(s)]
    ([None] for a string that it does not read: the Invalid Date) and the
    locale's printing of a date. *)
Class Host : Type := {
  LocalTZA : Z -> bool -> Z;
  Date_parse : string -> option Z;
  toLocaleDateString : Z -> string
}.

Module JSDate.

Definition msPerDay : Z := 86400000.

Definition Day (t : Z) : Z := t / msPerDay.

Definition TimeWithinDay (t : Z) : Z := t mod msPerDay.

(** year, month (0 .. 11) and day of the month (1 .. 31) of a day number
    of the proleptic Gregorian calendar, day 0 being 1 January 1970 *)
Definition civil_from_days (z : Z) : Z * Z * Z :=
  let z := z + 719468 in
  let era := z / 146097 in
  let doe := z - era * 146097 in
  let yoe := (doe - doe / 1460 + doe / 36524 - doe / 146096) / 365 in
  let doy := doe - (365 * yoe + yoe / 4 - yoe / 100) in
  let mp := (5 * doy + 2) / 153 in
  let d := doy - (153 * mp + 2) / 5 + 1 in
  let m := if mp <? 10 then mp + 2 else mp - 10 in
  let y := yoe + era * 400 + (if m <=? 1 then 1 else 0) in
  (y, m, d).

(** the day number of the first day of month [m] (0 .. 11) of year [y] *)
Definition days_from_civil (y m : Z) : Z :=
  let y := y - (if m <=? 1 then 1 else 0) in
  let era := y / 400 in
  let yoe := y - era * 400 in
  let doy := (153 * (if 1 <? m then m - 2 else m + 10) + 2) / 5 in
  let doe := yoe * 365 + yoe / 4 - yoe / 100 + doy in
  era * 146097 + doe - 719468.

Definition YearFromTime (t : Z) : Z := fst (fst (civil_from_days (Day t))).
Definition MonthFromTime (t : Z) : Z := snd (fst (civil_from_days (Day t))).
Definition DateFromTime (t : Z) : Z := snd (civil_from_days (Day t)).

(** ECMAScript's MakeDay: months beyond 0 .. 11 carry into the year, days
    beyond the month's length carry into the following months *)
Definition MakeDay (year month date : Z) : Z :=
  days_from_civil (year + month / 12) (month mod 12) + date - 1.

Definition MakeDate (day time : Z) : Z := day * msPerDay + time.

Section Local.
Context `{Host}.

Definition LocalTime (t : Z) : Z := t + LocalTZA t true.

Definition UTC (t : Z) : Z := t - LocalTZA t false.

(** [Date.prototype.getMonth] *)
Definition getMonth (t : Z) : Z := MonthFromTime (LocalTime t).

(** [Date.prototype.setMonth(month)], as the new time value *)
Definition setMonth (t month : Z) : Z :=
  let lt := LocalTime t in
  UTC (MakeDate (MakeDay (YearFromTime lt) month (DateFromTime lt))
                (TimeWithinDay lt)).
End Local.

End JSDate.

(** ** Data model: the Mongoose schemas *)

Module PaymentStatus.
Inductive t : Type := pending | completed | failed | cancelled.
End PaymentStatus.

Module OrderStatus.
Inductive t : Type :=
  pending | confirmed | processing | shipped | delivered | cancelled.
End OrderStatus.

(** the [status] of a subscription *)
Module Status.
Inductive t : Type :=
  active | inactive | cancelled | expired | pending_renewal | payment_failed.

Definition eqb (a b : t) : bool :=
  match a, b with
  | active, active | inactive, inactive | cancelled, cancelled
  | expired, expired | pending_renewal, pending_renewal
  | payment_failed, payment_failed => true
  | _, _ => false
  end.
End Status.

(** the [status] of a renewal history entry *)
Module RenewalStatus.
Inductive t : Type := success | failed | cancelled.
End RenewalStatus.

(** the [action] of a log entry *)
Module Action.
Inductive t : Type :=
  created | renewed | cancelled | failed | auto_renewal_cancelled
| reactivated.
End Action.

Record OrderItem : Type := {
  productId : string;
  productName : string;
  quantity : JS.number;
  price : JS.number;
  totalPrice : JS.number
}.

(** The CartOrder documents (one-time payments).  A field [f] of a
    document [d] is assigned by [set_f v d]. *)
Module CartOrder.

Record t : Type := mk {
  _id : N;
  customerEmail : string;
  customerName : string;
  phoneNumber : string;
  address : string;
  city : string;
  orderId : string;
  items : list OrderItem;
  subtotal : JS.number;
  tax : JS.number;
  shipping : JS.number;
  totalAmount : JS.number;
  currency : string;
  paymentMethod : string;
  paymentStatus : PaymentStatus.t;
  payhereOrderId : option string;
  payherePaymentId : option string;
  orderStatus : OrderStatus.t;
  createdAt : Z;
  updatedAt : Z
}.

Definition set_paymentStatus (v : PaymentStatus.t) (d : t) : t :=
  match d with mk x_id x_customerEmail x_customerName x_phoneNumber
      x_address x_city x_orderId x_items x_subtotal x_tax x_shipping
      x_totalAmount x_currency x_paymentMethod _ x_payhereOrderId
      x_payherePaymentId x_orderStatus x_createdAt x_updatedAt =>
    mk x_id x_customerEmail x_customerName x_phoneNumber x_address x_city
      x_orderId x_items x_subtotal x_tax x_shipping x_totalAmount x_currency
      x_paymentMethod v x_payhereOrderId x_payherePaymentId x_orderStatus
      x_createdAt x_updatedAt
  end.

Definition set_payherePaymentId (v : option string) (d : t) : t :=
  match d with mk x_id x_customerEmail x_customerName x_phoneNumber
      x_address x_city x_orderId x_items x_subtotal x_tax x_shipping
      x_totalAmount x_currency x_paymentMethod x_paymentStatus
      x_payhereOrderId _ x_orderStatus x_createdAt x_updatedAt =>
    mk x_id x_customerEmail x_customerName x_phoneNumber x_address x_city
      x_orderId x_items x_subtotal x_tax x_shipping x_totalAmount x_currency
      x_paymentMethod x_paymentStatus x_payhereOrderId v x_orderStatus
      x_createdAt x_updatedAt
  end.

Definition set_orderStatus (v : OrderStatus.t) (d : t) : t :=
  match d with mk x_id x_customerEmail x_customerName x_phoneNumber
      x_address x_city x_orderId x_items x_subtotal x_tax x_shipping
      x_totalAmount x_currency x_paymentMethod x_paymentStatus
      x_payhereOrderId x_payherePaymentId _ x_createdAt x_updatedAt =>
    mk x_id x_customerEmail x_customerName x_phoneNumber x_address x_city
      x_orderId x_items x_subtotal x_tax x_shipping x_totalAmount x_currency
      x_paymentMethod x_paymentStatus x_payhereOrderId x_payherePaymentId v
      x_createdAt x_updatedAt
  end.

Definition set_updatedAt (v : Z) (d : t) : t :=
  match d with mk x_id x_customerEmail x_customerName x_phoneNumber
      x_address x_city x_orderId x_items x_subtotal x_tax x_shipping
      x_totalAmount x_currency x_paymentMethod x_paymentStatus
      x_payhereOrderId x_payherePaymentId x_orderStatus x_createdAt _ =>
    mk x_id x_customerEmail x_customerName x_phoneNumber x_address x_city
      x_orderId x_items x_subtotal x_tax x_shipping x_totalAmount x_currency
      x_paymentMethod x_paymentStatus x_payhereOrderId x_payherePaymentId
      x_orderStatus x_createdAt v
  end.

End CartOrder.

(** An entry of [renewalHistory]. *)
Record Renewal : Type := {
  renewalDate : Z;
  renewal_amount : JS.number;
  renewal_status : RenewalStatus.t;
  paymentId : option string;
  failureReason : option string;
  attempt : Z;
  payhereToken : option string
}.

(** The FoodSubscription documents (recurring payments).  The four fields
    of a scheduled cancellation, which no code reads or writes, are left
    out.  [endDate] is always present: the pre-save hook of the schema
    fills it in for a new document that lacks it. *)
Module FoodSubscription.

Record t : Type := mk {
  _id : N;
  userEmail : string;
  customerName : string;
  phoneNumber : string;
  address : string;
  planId : string;
  planName : string;
  status : Status.t;
  amount : JS.number;
  currency : string;
  billingCycle : string;
  paymentMethod : string;
  payhereOrderId : option string;
  payherePaymentId : option string;
  payhereRecurringToken : option string;
  autoRenew : bool;
  renewalAttempts : Z;
  maxRenewalAttempts : Z;
  paymentFailure : bool;
  paymentFailureReason : option string;
  lastPaymentFailureDate : option Z;
  autoRenewalCancelledDate : option Z;
  autoRenewalCancelledReason : option string;
  startDate : Z;
  endDate : Z;
  nextBillingDate : option Z;
  renewalHistory : list Renewal;
  createdAt : Z;
  updatedAt : Z
}.

Definition set_status (v : Status.t) (d : t) : t :=
  match d with mk x_id x_userEmail x_customerName x_phoneNumber x_address
      x_planId x_planName _ x_amount x_currency x_billingCycle
      x_paymentMethod x_payhereOrderId x_payherePaymentId
      x_payhereRecurringToken x_autoRenew x_renewalAttempts
      x_maxRenewalAttempts x_paymentFailure x_paymentFailureReason
      x_lastPaymentFailureDate x_autoRenewalCancelledDate
      x_autoRenewalCancelledReason x_startDate x_endDate x_nextBillingDate
      x_renewalHistory x_createdAt x_updatedAt =>
    mk x_id x_userEmail x_customerName x_phoneNumber x_address x_planId
      x_planName v x_amount x_currency x_billingCycle x_paymentMethod
      x_payhereOrderId x_payherePaymentId x_payhereRecurringToken
      x_autoRenew x_renewalAttempts x_maxRenewalAttempts x_paymentFailure
      x_paymentFailureReason x_lastPaymentFailureDate
      x_autoRenewalCancelledDate x_autoRenewalCancelledReason x_startDate
      x_endDate x_nextBillingDate x_renewalHistory x_createdAt x_updatedAt
  end.

Definition set_payherePaymentId (v : option string) (d : t) : t :=
  match d with mk x_id x_userEmail x_customerName x_phoneNumber x_address
      x_planId x_planName x_status x_amount x_currency x_billingCycle
      x_paymentMethod x_payhereOrderId _ x_payhereRecurringToken x_autoRenew
      x_renewalAttempts x_maxRenewalAttempts x_paymentFailure
      x_paymentFailureReason x_lastPaymentFailureDate
      x_autoRenewalCancelledDate x_autoRenewalCancelledReason x_startDate
      x_endDate x_nextBillingDate x_renewalHistory x_createdAt x_updatedAt
      =>
    mk x_id x_userEmail x_customerName x_phoneNumber x_address x_planId
      x_planName x_status x_amount x_currency x_billingCycle x_paymentMethod
      x_payhereOrderId v x_payhereRecurringToken x_autoRenew
      x_renewalAttempts x_maxRenewalAttempts x_paymentFailure
      x_paymentFailureReason x_lastPaymentFailureDate
      x_autoRenewalCancelledDate x_autoRenewalCancelledReason x_startDate
      x_endDate x_nextBillingDate x_renewalHistory x_createdAt x_updatedAt
  end.

Definition set_payhereRecurringToken (v : option string) (d : t) : t :=
  match d with mk x_id x_userEmail x_customerName x_phoneNumber x_address
      x_planId x_planName x_status x_amount x_currency x_billingCycle
      x_paymentMethod x_payhereOrderId x_payherePaymentId _ x_autoRenew
      x_renewalAttempts x_maxRenewalAttempts x_paymentFailure
      x_paymentFailureReason x_lastPaymentFailureDate
      x_autoRenewalCancelledDate x_autoRenewalCancelledReason x_startDate
      x_endDate x_nextBillingDate x_renewalHistory x_createdAt x_updatedAt
      =>
    mk x_id x_userEmail x_customerName x_phoneNumber x_address x_planId
      x_planName x_status x_amount x_currency x_billingCycle x_paymentMethod
      x_payhereOrderId x_payherePaymentId v x_autoRenew x_renewalAttempts
      x_maxRenewalAttempts x_paymentFailure x_paymentFailureReason
      x_lastPaymentFailureDate x_autoRenewalCancelledDate
      x_autoRenewalCancelledReason x_startDate x_endDate x_nextBillingDate
      x_renewalHistory x_createdAt x_updatedAt
  end.

Definition set_autoRenew (v : bool) (d : t) : t :=
  match d with mk x_id x_userEmail x_customerName x_phoneNumber x_address
      x_planId x_planName x_status x_amount x_currency x_billingCycle
      x_paymentMethod x_payhereOrderId x_payherePaymentId
      x_payhereRecurringToken _ x_renewalAttempts x_maxRenewalAttempts
      x_paymentFailure x_paymentFailureReason x_lastPaymentFailureDate
      x_autoRenewalCancelledDate x_autoRenewalCancelledReason x_startDate
      x_endDate x_nextBillingDate x_renewalHistory x_createdAt x_updatedAt
      =>
    mk x_id x_userEmail x_customerName x_phoneNumber x_address x_planId
      x_planName x_status x_amount x_currency x_billingCycle x_paymentMethod
      x_payhereOrderId x_payherePaymentId x_payhereRecurringToken v
      x_renewalAttempts x_maxRenewalAttempts x_paymentFailure
      x_paymentFailureReason x_lastPaymentFailureDate
      x_autoRenewalCancelledDate x_autoRenewalCancelledReason x_startDate
      x_endDate x_nextBillingDate x_renewalHistory x_createdAt x_updatedAt
  end.

Definition set_renewalAttempts (v : Z) (d : t) : t :=
  match d with mk x_id x_userEmail x_customerName x_phoneNumber x_address
      x_planId x_planName x_status x_amount x_currency x_billingCycle
      x_paymentMethod x_payhereOrderId x_payherePaymentId
      x_payhereRecurringToken x_autoRenew _ x_maxRenewalAttempts
      x_paymentFailure x_paymentFailureReason x_lastPaymentFailureDate
      x_autoRenewalCancelledDate x_autoRenewalCancelledReason x_startDate
      x_endDate x_nextBillingDate x_renewalHistory x_createdAt x_updatedAt
      =>
    mk x_id x_userEmail x_customerName x_phoneNumber x_address x_planId
      x_planName x_status x_amount x_currency x_billingCycle x_paymentMethod
      x_payhereOrderId x_payherePaymentId x_payhereRecurringToken
      x_autoRenew v x_maxRenewalAttempts x_paymentFailure
      x_paymentFailureReason x_lastPaymentFailureDate
      x_autoRenewalCancelledDate x_autoRenewalCancelledReason x_startDate
      x_endDate x_nextBillingDate x_renewalHistory x_createdAt x_updatedAt
  end.

Definition set_paymentFailure (v : bool) (d : t) : t :=
  match d with mk x_id x_userEmail x_customerName x_phoneNumber x_address
      x_planId x_planName x_status x_amount x_currency x_billingCycle
      x_paymentMethod x_payhereOrderId x_payherePaymentId
      x_payhereRecurringToken x_autoRenew x_renewalAttempts
      x_maxRenewalAttempts _ x_paymentFailureReason x_lastPaymentFailureDate
      x_autoRenewalCancelledDate x_autoRenewalCancelledReason x_startDate
      x_endDate x_nextBillingDate x_renewalHistory x_createdAt x_updatedAt
      =>
    mk x_id x_userEmail x_customerName x_phoneNumber x_address x_planId
      x_planName x_status x_amount x_currency x_billingCycle x_paymentMethod
      x_payhereOrderId x_payherePaymentId x_payhereRecurringToken
      x_autoRenew x_renewalAttempts x_maxRenewalAttempts v
      x_paymentFailureReason x_lastPaymentFailureDate
      x_autoRenewalCancelledDate x_autoRenewalCancelledReason x_startDate
      x_endDate x_nextBillingDate x_renewalHistory x_createdAt x_updatedAt
  end.

Definition set_lastPaymentFailureDate (v : option Z) (d : t) : t :=
  match d with mk x_id x_userEmail x_customerName x_phoneNumber x_address
      x_planId x_planName x_status x_amount x_currency x_billingCycle
      x_paymentMethod x_payhereOrderId x_payherePaymentId
      x_payhereRecurringToken x_autoRenew x_renewalAttempts
      x_maxRenewalAttempts x_paymentFailure x_paymentFailureReason _
      x_autoRenewalCancelledDate x_autoRenewalCancelledReason x_startDate
      x_endDate x_nextBillingDate x_renewalHistory x_createdAt x_updatedAt
      =>
    mk x_id x_userEmail x_customerName x_phoneNumber x_address x_planId
      x_planName x_status x_amount x_currency x_billingCycle x_paymentMethod
      x_payhereOrderId x_payherePaymentId x_payhereRecurringToken
      x_autoRenew x_renewalAttempts x_maxRenewalAttempts x_paymentFailure
      x_paymentFailureReason v x_autoRenewalCancelledDate
      x_autoRenewalCancelledReason x_startDate x_endDate x_nextBillingDate
      x_renewalHistory x_createdAt x_updatedAt
  end.

Definition set_autoRenewalCancelledDate (v : option Z) (d : t) : t :=
  match d with mk x_id x_userEmail x_customerName x_phoneNumber x_address
      x_planId x_planName x_status x_amount x_currency x_billingCycle
      x_paymentMethod x_payhereOrderId x_payherePaymentId
      x_payhereRecurringToken x_autoRenew x_renewalAttempts
      x_maxRenewalAttempts x_paymentFailure x_paymentFailureReason
      x_lastPaymentFailureDate _ x_autoRenewalCancelledReason x_startDate
      x_endDate x_nextBillingDate x_renewalHistory x_createdAt x_updatedAt
      =>
    mk x_id x_userEmail x_customerName x_phoneNumber x_address x_planId
      x_planName x_status x_amount x_currency x_billingCycle x_paymentMethod
      x_payhereOrderId x_payherePaymentId x_payhereRecurringToken
      x_autoRenew x_renewalAttempts x_maxRenewalAttempts x_paymentFailure
      x_paymentFailureReason x_lastPaymentFailureDate v
      x_autoRenewalCancelledReason x_startDate x_endDate x_nextBillingDate
      x_renewalHistory x_createdAt x_updatedAt
  end.

Definition set_autoRenewalCancelledReason (v : option string) (d : t) : t :=
  match d with mk x_id x_userEmail x_customerName x_phoneNumber x_address
      x_planId x_planName x_status x_amount x_currency x_billingCycle
      x_paymentMethod x_payhereOrderId x_payherePaymentId
      x_payhereRecurringToken x_autoRenew x_renewalAttempts
      x_maxRenewalAttempts x_paymentFailure x_paymentFailureReason
      x_lastPaymentFailureDate x_autoRenewalCancelledDate _ x_startDate
      x_endDate x_nextBillingDate x_renewalHistory x_createdAt x_updatedAt
      =>
    mk x_id x_userEmail x_customerName x_phoneNumber x_address x_planId
      x_planName x_status x_amount x_currency x_billingCycle x_paymentMethod
      x_payhereOrderId x_payherePaymentId x_payhereRecurringToken
      x_autoRenew x_renewalAttempts x_maxRenewalAttempts x_paymentFailure
      x_paymentFailureReason x_lastPaymentFailureDate
      x_autoRenewalCancelledDate v x_startDate x_endDate x_nextBillingDate
      x_renewalHistory x_createdAt x_updatedAt
  end.

Definition set_endDate (v : Z) (d : t) : t :=
  match d with mk x_id x_userEmail x_customerName x_phoneNumber x_address
      x_planId x_planName x_status x_amount x_currency x_billingCycle
      x_paymentMethod x_payhereOrderId x_payherePaymentId
      x_payhereRecurringToken x_autoRenew x_renewalAttempts
      x_maxRenewalAttempts x_paymentFailure x_paymentFailureReason
      x_lastPaymentFailureDate x_autoRenewalCancelledDate
      x_autoRenewalCancelledReason x_startDate _ x_nextBillingDate
      x_renewalHistory x_createdAt x_updatedAt =>
    mk x_id x_userEmail x_customerName x_phoneNumber x_address x_planId
      x_planName x_status x_amount x_currency x_billingCycle x_paymentMethod
      x_payhereOrderId x_payherePaymentId x_payhereRecurringToken
      x_autoRenew x_renewalAttempts x_maxRenewalAttempts x_paymentFailure
      x_paymentFailureReason x_lastPaymentFailureDate
      x_autoRenewalCancelledDate x_autoRenewalCancelledReason x_startDate v
      x_nextBillingDate x_renewalHistory x_createdAt x_updatedAt
  end.

Definition set_nextBillingDate (v : option Z) (d : t) : t :=
  match d with mk x_id x_userEmail x_customerName x_phoneNumber x_address
      x_planId x_planName x_status x_amount x_currency x_billingCycle
      x_paymentMethod x_payhereOrderId x_payherePaymentId
      x_payhereRecurringToken x_autoRenew x_renewalAttempts
      x_maxRenewalAttempts x_paymentFailure x_paymentFailureReason
      x_lastPaymentFailureDate x_autoRenewalCancelledDate
      x_autoRenewalCancelledReason x_startDate x_endDate _ x_renewalHistory
      x_createdAt x_updatedAt =>
    mk x_id x_userEmail x_customerName x_phoneNumber x_address x_planId
      x_planName x_status x_amount x_currency x_billingCycle x_paymentMethod
      x_payhereOrderId x_payherePaymentId x_payhereRecurringToken
      x_autoRenew x_renewalAttempts x_maxRenewalAttempts x_paymentFailure
      x_paymentFailureReason x_lastPaymentFailureDate
      x_autoRenewalCancelledDate x_autoRenewalCancelledReason x_startDate
      x_endDate v x_renewalHistory x_createdAt x_updatedAt
  end.

Definition set_renewalHistory (v : list Renewal) (d : t) : t :=
  match d with mk x_id x_userEmail x_customerName x_phoneNumber x_address
      x_planId x_planName x_status x_amount x_currency x_billingCycle
      x_paymentMethod x_payhereOrderId x_payherePaymentId
      x_payhereRecurringToken x_autoRenew x_renewalAttempts
      x_maxRenewalAttempts x_paymentFailure x_paymentFailureReason
      x_lastPaymentFailureDate x_autoRenewalCancelledDate
      x_autoRenewalCancelledReason x_startDate x_endDate x_nextBillingDate _
      x_createdAt x_updatedAt =>
    mk x_id x_userEmail x_customerName x_phoneNumber x_address x_planId
      x_planName x_status x_amount x_currency x_billingCycle x_paymentMethod
      x_payhereOrderId x_payherePaymentId x_payhereRecurringToken
      x_autoRenew x_renewalAttempts x_maxRenewalAttempts x_paymentFailure
      x_paymentFailureReason x_lastPaymentFailureDate
      x_autoRenewalCancelledDate x_autoRenewalCancelledReason x_startDate
      x_endDate x_nextBillingDate v x_createdAt x_updatedAt
  end.

Definition set_updatedAt (v : Z) (d : t) : t :=
  match d with mk x_id x_userEmail x_customerName x_phoneNumber x_address
      x_planId x_planName x_status x_amount x_currency x_billingCycle
      x_paymentMethod x_payhereOrderId x_payherePaymentId
      x_payhereRecurringToken x_autoRenew x_renewalAttempts
      x_maxRenewalAttempts x_paymentFailure x_paymentFailureReason
      x_lastPaymentFailureDate x_autoRenewalCancelledDate
      x_autoRenewalCancelledReason x_startDate x_endDate x_nextBillingDate
      x_renewalHistory x_createdAt _ =>
    mk x_id x_userEmail x_customerName x_phoneNumber x_address x_planId
      x_planName x_status x_amount x_currency x_billingCycle x_paymentMethod
      x_payhereOrderId x_payherePaymentId x_payhereRecurringToken
      x_autoRenew x_renewalAttempts x_maxRenewalAttempts x_paymentFailure
      x_paymentFailureReason x_lastPaymentFailureDate
      x_autoRenewalCancelledDate x_autoRenewalCancelledReason x_startDate
      x_endDate x_nextBillingDate x_renewalHistory x_createdAt v
  end.

End FoodSubscription.

(** The [details] of a log entry. *)
Record Details : Type := {
  d_paymentId : option string;
  d_amount : option JS.number;
  d_currency : option string;
  d_reason : option string;
  d_payhereToken : option string;
  d_autoRenewal : option bool;
  d_recurringToken : option bool;
  d_payhereCancellationSuccess : option bool;
  d_payhereCancellationError : option string;
  d_requiresManualCancellation : option bool
}.

(** The FoodSubscriptionLog documents. *)
Record FoodSubscriptionLog : Type := {
  subscriptionId : N;
  log_userEmail : string;
  action : Action.t;
  details : Details;
  timestamp : Z
}.

(** The body of a notification: every member is a string or absent. *)
Record Notification : Type := {
  merchant_id : option string;
  order_id : option string;
  payment_id : option string;
  payhere_amount : option string;
  payhere_currency : option string;
  status_code : option string;
  md5sig : option string;
  status_message : option string;
  custom_1 : option string;
  custom_2 : option string;
  email : option string;
  recurring_token : option string;
  subscription_id : option string;
  event_type : option string;
  next_occurrence_date : option string
}.

(** [payhereConfig]: the members read from the environment, absent when
    the variable is not set *)
Record Config : Type := {
  merchantId : option string;
  merchantSecret : option string
}.

(** The database: the three collections, and the next ObjectId to be
    given to a new document. *)
Record State : Type := {
  orders : list CartOrder.t;
  subscriptions : list FoodSubscription.t;
  logs : list FoodSubscriptionLog;
  nextId : N
}.

Definition with_orders (c : list CartOrder.t) (st : State) : State :=
  {| orders := c; subscriptions := subscriptions st; logs := logs st;
     nextId := nextId st |}.

Definition with_subscriptions (c : list FoodSubscription.t) (st : State)
  : State :=
  {| orders := orders st; subscriptions := c; logs := logs st;
     nextId := nextId st |}.

(** [FoodSubscriptionLog.create]: the entry is appended, its timestamp
    defaulting to the current time *)
Definition create_log (now : Z) (id : N) (mail : string) (a : Action.t)
    (d : Details) (st : State) : State :=
  {| orders := orders st; subscriptions := subscriptions st;
     logs := logs st ++ [ {| subscriptionId := id; log_userEmail := mail;
                             action := a; details := d; timestamp := now |} ];
     nextId := nextId st |}.

Notation "x |> f" := (f x) (at level 65, left associativity, only parsing).

(** ** Hash generation functions *)

(** for one-time payments *)
Definition generatePayHereHash (merchantId orderId : string)
    (amount : JS.value) (currency merchantSecret : string) : string :=
  let hashedSecret := JS.toUpperCase (MD5.hex merchantSecret) in
  let amountFormatted := JS.toFixed2 (JS.parseFloat_value amount) in
  let hashString :=
    merchantId +++ orderId +++ amountFormatted +++ currency +++ hashedSecret in
  JS.toUpperCase (MD5.hex hashString).

(** for recurring payments (using CryptoJS) *)
Definition generateRecurringPayHereHash (merchantId orderId : string)
    (amount : JS.value) (currency merchantSecret : string) : string :=
  let cleanMerchantId := JS.trim merchantId in
  let cleanOrderId := JS.trim orderId in
  let cleanAmount := JS.toFixed2 (JS.parseFloat_value amount) in
  let cleanCurrency := JS.trim (JS.toUpperCase currency) in
  let cleanSecret := JS.trim merchantSecret in
  let secretHash := JS.toUpperCase (MD5.hex cleanSecret) in
  let hashString :=
    cleanMerchantId +++ cleanOrderId +++ cleanAmount +++ cleanCurrency
    +++ secretHash in
  let finalHash := JS.toUpperCase (MD5.hex hashString) in
  finalHash.

(** Hash verification for notifications.  [None] is the TypeError of
    [md5sig.toUpperCase()] when the notification has no [md5sig]. *)
Definition verifyPayHereHash (data : Notification) (merchantSecret : string)
  : option bool :=
  let hashedSecret := JS.toUpperCase (MD5.hex merchantSecret) in
  let amountFormatted := JS.toFixed2 (JS.parseFloat_opt (payhere_amount data)) in
  let hashString :=
    JS.template (merchant_id data) +++ JS.template (order_id data)
    +++ amountFormatted +++ JS.template (payhere_currency data)
    +++ JS.template (status_code data) +++ hashedSecret in
  let localHash := JS.toUpperCase (MD5.hex hashString) in
  match md5sig data with
  | Some sig => Some (String.eqb localHash (JS.toUpperCase sig))
  | None => None
  end.

(** ** The store

    A query value that is [undefined] is sent as [null], which matches the
    documents that lack the field.  Writes succeed: the validation of the
    documents and the faults of the database are outside the embedding. *)

Definition opt_eqb (field query : option string) : bool :=
  match field, query with
  | Some a, Some b => String.eqb a b
  | None, None => true
  | _, _ => false
  end.

(** [Model.findOne(q)]: the first matching document in natural order *)
Definition findOne {A : Type} (q : A -> bool) (c : list A) : option A :=
  find q c.

(** [Model.findOne(q).sort({ createdAt: -1 })]: a matching document of
    greatest [createdAt], the first of them in natural order *)
Fixpoint findOne_latest {A : Type} (createdAt : A -> Z) (q : A -> bool)
    (c : list A) : option A :=
  match c with
  | [] => None
  | d :: rest =>
      if q d then
        match findOne_latest createdAt q rest with
        | Some d' => if createdAt d <? createdAt d' then Some d' else Some d
        | None => Some d
        end
      else findOne_latest createdAt q rest
  end.

(** [order.save()], with the pre-save hook that stamps [updatedAt] *)
Definition save_order (now : Z) (o : CartOrder.t) (c : list CartOrder.t)
  : list CartOrder.t :=
  map (fun d => if (CartOrder._id d =? CartOrder._id o)%N
                then CartOrder.set_updatedAt now o else d) c.

(** [subscription.save()] of a stored document, with the pre-save hook *)
Definition save_subscription (now : Z) (s : FoodSubscription.t)
    (c : list FoodSubscription.t) : list FoodSubscription.t :=
  map (fun d => if (FoodSubscription._id d =? FoodSubscription._id s)%N
                then FoodSubscription.set_updatedAt now s else d) c.

(** [subscription.save()] of a new document *)
Definition insert_subscription (s : FoodSubscription.t) (st : State) : State :=
  {| orders := orders st; subscriptions := subscriptions st ++ [s];
     logs := logs st; nextId := N.succ (nextId st) |}.

(** [Model.updateOne({ _id: id }, u)]: the collection and [modifiedCount] *)
Fixpoint updateOne (id : N) (u : FoodSubscription.t -> FoodSubscription.t)
    (c : list FoodSubscription.t) : list FoodSubscription.t * Z :=
  match c with
  | [] => ([], 0)
  | d :: rest =>
      if (FoodSubscription._id d =? id)%N then (u d :: rest, 1)
      else let '(rest', k) := updateOne id u rest in (d :: rest', k)
  end.

(** ** Payment notification handlers *)

(** the reply of the notification endpoint: [res.status(http).send(body)] *)
Record Response : Type := { http : Z; body : string }.

(** the reply of a management endpoint: the status and the [success],
    [message] and [autoRenew] members of its JSON *)
Record Reply : Type := {
  r_http : Z;
  r_success : bool;
  r_message : string;
  r_autoRenew : option bool
}.

(** the body of the two management requests *)
Record RenewalRequest : Type := {
  req_subscriptionId : option N;
  req_userEmail : option string;
  req_reason : option string
}.

Definition push_renewal (r : Renewal) (s : FoodSubscription.t)
  : FoodSubscription.t :=
  FoodSubscription.set_renewalHistory (FoodSubscription.renewalHistory s ++ [r]) s.

(** the cast of a Number by the schema, which refuses [NaN] *)
Definition cast_number (x : JS.number) : option JS.number :=
  match x with
  | JS.NaN => None
  | _ => Some x
  end.

(** [parseFloat(v)] is a number *)
Definition numeric (v : option string) : bool :=
  match cast_number (JS.parseFloat_opt v) with
  | Some _ => true
  | None => false
  end.

Section Server.
Context `{Host}.
Import FoodSubscription.

(** [v ? new Date(v) : otherwise]; [None] is the Invalid Date *)
Definition date_or (v : option string) (otherwise : Z) : option Z :=
  match v with
  | Some (String _ _ as d) => Date_parse d
  | _ => Some otherwise
  end.

(** [v] is absent or empty, or a date that the host reads *)
Definition readable (v : option string) : bool :=
  match date_or v 0 with
  | Some _ => true
  | None => false
  end.

(** Handle cart payment notification *)
Definition handleCartPaymentNotification (now : Z)
    (notificationData : Notification) (st : State) : State :=
  match findOne (fun o => opt_eqb (CartOrder.payhereOrderId o)
                                  (order_id notificationData)) (orders st) with
  | None => st
  | Some order =>
      if opt_eqb (status_code notificationData) (Some "2") then
        let order := order
          |> CartOrder.set_paymentStatus PaymentStatus.completed
          |> CartOrder.set_orderStatus OrderStatus.confirmed
          |> CartOrder.set_payherePaymentId (payment_id notificationData)
          |> CartOrder.set_updatedAt now in
        with_orders (save_order now order (orders st)) st
      else
        let order := order
          |> CartOrder.set_paymentStatus PaymentStatus.failed
          |> CartOrder.set_orderStatus OrderStatus.cancelled
          |> CartOrder.set_updatedAt now in
        with_orders (save_order now order (orders st)) st
  end.

(** Handle initial food subscription payment.  A [save] that the schema
    rejects throws before anything is stored or logged, and the [catch] of
    the handler ends it. *)
Definition handleInitialFoodPaymentWithRecurring (now : Z)
    (n : Notification) (st : State) : State :=
  let planId :=
    match custom_1 n with
    | Some c => match JS.remove_first "plan_" c with
                | EmptyString => "food_premium"
                | p => p
                end
    | None => "food_premium"
    end in
  let isRecurring := opt_eqb (custom_2 n) (Some "food_monthly_recurring") in
  match findOne (fun s => opt_eqb (payhereOrderId s) (order_id n))
                (subscriptions st) with
  | Some existingSubscription =>
      if isRecurring && JS.truthy (recurring_token n) then
        match date_or (next_occurrence_date n)
                      (now + 30 * 24 * 60 * 60 * 1000) with
        | None => st
        | Some nextBillingDate =>
            let existingSubscription := existingSubscription
              |> set_payhereRecurringToken (recurring_token n)
              |> set_payherePaymentId (payment_id n)
              |> set_autoRenew true
              |> set_status Status.active
              |> set_nextBillingDate (Some nextBillingDate)
              |> set_updatedAt now in
            with_subscriptions
              (save_subscription now existingSubscription (subscriptions st))
              st
        end
      else st
  | None =>
      let startDate := now in
      let endDate := JSDate.setMonth startDate (JSDate.getMonth startDate + 1) in
      (* [Some None] is [null]; [None] is the Invalid Date *)
      let nextBillingDate :=
        if isRecurring && JS.truthy (recurring_token n)
        then option_map Some (date_or (next_occurrence_date n) endDate)
        else Some None in
      match nextBillingDate,
            cast_number (JS.parseFloat_opt (payhere_amount n)) with
      | Some nextBillingDate, Some paid =>
          let subscription :=
            {| _id := nextId st;
               userEmail := if JS.truthy (email n) then JS.template (email n)
                            else "customer@example.com";
               customerName := "Food Subscriber";
               phoneNumber := "0771234567";
               address := "Colombo, Sri Lanka";
               planId := planId;
               planName := "Premium Food Subscription";
               status := Status.active;
               amount := paid;
               currency := match payhere_currency n with
                           | Some c => c
                           | None => "LKR"
                           end;
               billingCycle := "monthly";
               paymentMethod := "payhere";
               payhereOrderId := order_id n;
               payherePaymentId := payment_id n;
               payhereRecurringToken := recurring_token n;
               autoRenew := isRecurring && JS.truthy (recurring_token n);
               renewalAttempts := 0;
               maxRenewalAttempts := 3;
               paymentFailure := false;
               paymentFailureReason := None;
               lastPaymentFailureDate := None;
               autoRenewalCancelledDate := None;
               autoRenewalCancelledReason := None;
               startDate := startDate;
               endDate := endDate;
               nextBillingDate := nextBillingDate;
               renewalHistory :=
                 [ {| renewalDate := startDate;
                      renewal_amount := paid;
                      renewal_status := RenewalStatus.success;
                      paymentId := payment_id n;
                      failureReason := None;
                      attempt := 1;
                      payhereToken := recurring_token n |} ];
               createdAt := now;
               updatedAt := now |} in
          st |> insert_subscription subscription
             |> create_log now (_id subscription) (userEmail subscription)
                  Action.created
                  {| d_paymentId := payment_id n;
                     d_amount := Some paid;
                     d_currency := payhere_currency n;
                     d_reason := None;
                     d_payhereToken := recurring_token n;
                     d_autoRenewal := Some (autoRenew subscription);
                     d_recurringToken := Some (JS.truthy (recurring_token n));
                     d_payhereCancellationSuccess := None;
                     d_payhereCancellationError := None;
                     d_requiresManualCancellation := None |}
      | _, _ => st
      end
  end.

(** the query of the recurring handler: the recurring token is the
    notification's [subscription_id], or the e-mail is the notification's,
    lower-cased and trimmed; and auto-renewal is on *)
Definition recurring_query (n : Notification) (s : FoodSubscription.t) : bool :=
  (opt_eqb (payhereRecurringToken s) (subscription_id n)
   || match email n with
      | Some e => String.eqb (userEmail s) (JS.trim (JS.toLowerCase e))
      | None => false
      end)
  && autoRenew s.

Definition find_recurring (n : Notification) (c : list FoodSubscription.t)
  : option FoodSubscription.t :=
  findOne_latest createdAt (recurring_query n) c.

(** the successful branch of the recurring handler, up to [save]: the
    document to store, or [None] when a value that the branch assigns is
    one that the schema rejects *)
Definition recurring_success (now : Z) (n : Notification)
    (subscription : FoodSubscription.t) : option FoodSubscription.t :=
  let currentEndDate := endDate subscription in
  let newEndDate :=
    JSDate.setMonth currentEndDate (JSDate.getMonth currentEndDate + 1) in
  match date_or (next_occurrence_date n) newEndDate,
        cast_number (JS.parseFloat_opt (payhere_amount n)) with
  | Some nextBillingDate, Some paid =>
      let subscription := subscription
        |> set_status Status.active
        |> set_endDate newEndDate
        |> set_nextBillingDate (Some nextBillingDate)
        |> set_renewalAttempts 0
        |> set_paymentFailure false
        |> set_updatedAt now in
      Some (subscription
        |> push_renewal
             {| renewalDate := now;
                renewal_amount := paid;
                renewal_status := RenewalStatus.success;
                paymentId := payment_id n;
                failureReason := None;
                attempt := renewalAttempts subscription + 1;
                payhereToken := payhereRecurringToken subscription |})
  | _, _ => None
  end.

(** the failing branch of the recurring handler, up to [save]: the
    document to store, or [None] when the amount that the branch enters in
    the history is one that the schema rejects *)
Definition recurring_failure (now : Z) (n : Notification)
    (subscription : FoodSubscription.t) : option FoodSubscription.t :=
  match cast_number (JS.parseFloat_opt (payhere_amount n)) with
  | Some paid =>
      let subscription := subscription
        |> set_renewalAttempts (renewalAttempts subscription + 1)
        |> set_paymentFailure true
        |> set_lastPaymentFailureDate (Some now) in
      let subscription := subscription
        |> set_status (if maxRenewalAttempts subscription
                            <=? renewalAttempts subscription
                       then Status.cancelled else Status.pending_renewal) in
      let subscription := subscription
        |> push_renewal
             {| renewalDate := now;
                renewal_amount := paid;
                renewal_status := RenewalStatus.failed;
                paymentId := None;
                failureReason :=
                  Some ("Payment failed with status code: "
                        +++ JS.template (status_code n));
                attempt := renewalAttempts subscription;
                payhereToken := payhereRecurringToken subscription |} in
      Some (if maxRenewalAttempts subscription <=? renewalAttempts subscription
            then set_autoRenew false subscription
            else subscription)
  | None => None
  end.

(** Handle recurring food subscription payment.  A [save] that the schema
    rejects throws before anything is stored or logged, and the [catch] of
    the handler ends it. *)
Definition handleRecurringFoodPayment (now : Z) (n : Notification)
    (st : State) : State :=
  match find_recurring n (subscriptions st) with
  | None => st
  | Some subscription =>
      if opt_eqb (status_code n) (Some "2") then
        match recurring_success now n subscription with
        | None => st
        | Some subscription =>
            st |> with_subscriptions
                    (save_subscription now subscription (subscriptions st))
               |> create_log now (_id subscription) (userEmail subscription)
                    Action.renewed
                    {| d_paymentId := payment_id n;
                       d_amount := Some (JS.parseFloat_opt (payhere_amount n));
                       d_currency := Some "LKR";
                       d_reason := None;
                       d_payhereToken := payhereRecurringToken subscription;
                       d_autoRenewal := None;
                       d_recurringToken := None;
                       d_payhereCancellationSuccess := None;
                       d_payhereCancellationError := None;
                       d_requiresManualCancellation := None |}
        end
      else
        match recurring_failure now n subscription with
        | None => st
        | Some subscription =>
            st |> with_subscriptions
                    (save_subscription now subscription (subscriptions st))
               |> create_log now (_id subscription) (userEmail subscription)
                    Action.failed
                    {| d_paymentId := payment_id n;
                       d_amount := Some (JS.parseFloat_opt (payhere_amount n));
                       d_currency := Some "LKR";
                       d_reason :=
                         Some ("Payment failed with status code: "
                               +++ JS.template (status_code n));
                       d_payhereToken := payhereRecurringToken subscription;
                       d_autoRenewal := None;
                       d_recurringToken := None;
                       d_payhereCancellationSuccess := None;
                       d_payhereCancellationError := None;
                       d_requiresManualCancellation := None |}
        end
  end.

(** the update of the failed-payment handler, up to [save] *)
Definition failed_payment (now : Z) (n : Notification)
    (subscription : FoodSubscription.t) : FoodSubscription.t :=
  let subscription := subscription
    |> set_status Status.payment_failed
    |> set_paymentFailure true
    |> set_lastPaymentFailureDate (Some now) in
  let subscription := subscription
    |> set_renewalAttempts (renewalAttempts subscription + 1) in
  let subscription := subscription
    |> push_renewal
         {| renewalDate := now;
            renewal_amount := amount subscription;
            renewal_status := RenewalStatus.failed;
            paymentId := None;
            failureReason :=
              Some (JS.template (status_code n) +++ " - "
                    +++ JS.template (status_message n));
            attempt := renewalAttempts subscription;
            payhereToken := None |} in
  if maxRenewalAttempts subscription <=? renewalAttempts subscription
  then subscription |> set_status Status.cancelled |> set_autoRenew false
  else subscription.

(** Handle failed food subscription payment *)
Definition handleFailedFoodPayment (now : Z) (n : Notification)
    (st : State) : State :=
  match findOne (fun s => opt_eqb (payhereOrderId s) (order_id n))
                (subscriptions st) with
  | Some subscription =>
      let subscription := failed_payment now n subscription in
      st |> with_subscriptions
              (save_subscription now subscription (subscriptions st))
         |> create_log now (_id subscription) (userEmail subscription)
              Action.failed
              {| d_paymentId := None;
                 d_amount := Some (amount subscription);
                 d_currency := Some (currency subscription);
                 d_reason :=
                   Some (JS.template (status_code n) +++ " - "
                         +++ JS.template (status_message n));
                 d_payhereToken := None;
                 d_autoRenewal := None;
                 d_recurringToken := None;
                 d_payhereCancellationSuccess := None;
                 d_payhereCancellationError := None;
                 d_requiresManualCancellation := None |}
  | None => st
  end.

(** Unified PayHere notification handler.  The reply 500 is that of
    the outer [catch]: the TypeError of reading [trim] on an absent
    merchant id, or of hashing an absent secret. *)
Definition payhere_notify (payhereConfig : Config) (now : Z)
    (req_body : Notification) (st : State) : State * Response :=
  if negb (JS.truthy (merchant_id req_body))
     || negb (JS.truthy (order_id req_body))
     || negb (JS.truthy (payhere_amount req_body))
     || negb (JS.truthy (payhere_currency req_body))
     || negb (JS.truthy (status_code req_body))
     || negb (JS.truthy (md5sig req_body))
  then (st, {| http := 400; body := "Missing required fields" |})
  else
    match merchantId payhereConfig with
    | None => (st, {| http := 500; body := "Server error" |})
    | Some configured =>
        if negb (String.eqb (JS.trim (JS.template (merchant_id req_body)))
                            (JS.trim configured))
        then (st, {| http := 400; body := "Merchant ID mismatch" |})
        else
          match merchantSecret payhereConfig with
          | None => (st, {| http := 500; body := "Server error" |})
          | Some secret =>
              match verifyPayHereHash req_body secret with
              | None => (st, {| http := 500; body := "Server error" |})
              | Some false => (st, {| http := 400; body := "Invalid hash" |})
              | Some true =>
                  let food :=
                    opt_eqb (custom_2 req_body)
                            (Some "food_monthly_recurring")
                    || JS.startsWith (JS.template (order_id req_body))
                                     "FOOD_" in
                  let st' :=
                    if opt_eqb (status_code req_body) (Some "2") then
                      if opt_eqb (custom_1 req_body) (Some "cart_order")
                         || JS.startsWith (JS.template (order_id req_body))
                                          "CART_"
                      then handleCartPaymentNotification now req_body st
                      else if food then
                        if opt_eqb (event_type req_body)
                                   (Some "SUBSCRIPTION_PAYMENT")
                           && JS.truthy (recurring_token req_body)
                        then handleRecurringFoodPayment now req_body st
                        else handleInitialFoodPaymentWithRecurring
                               now req_body st
                      else handleCartPaymentNotification now req_body st
                    else
                      if food then handleFailedFoodPayment now req_body st
                      else handleCartPaymentNotification now req_body st in
                  (st', {| http := 200; body := "OK" |})
              end
          end
    end.

(** ** Subscription management endpoints *)

(** [subscriptionId ? { _id: subscriptionId }
                    : { userEmail: userEmail?.toLowerCase().trim() }] *)
Definition identified_by (req : RenewalRequest) (s : FoodSubscription.t)
  : bool :=
  match req_subscriptionId req with
  | Some id => (_id s =? id)%N
  | None =>
      match req_userEmail req with
      | Some e => String.eqb (userEmail s) (JS.trim (JS.toLowerCase e))
      | None => false
      end
  end.

Definition json (ok : bool) (msg : string) (ar : option bool) : Reply :=
  {| r_http := 200; r_success := ok; r_message := msg; r_autoRenew := ar |}.

(** Cancel food subscription auto-renewal: the body of the transaction.
    An aborted transaction leaves the database as it was. *)
Definition cancel_food_subscription_renewal (now : Z) (req : RenewalRequest)
    (st : State) : State * Reply :=
  if match req_subscriptionId req with Some _ => false | None => true end
     && negb (JS.truthy (req_userEmail req))
  then (st, {| r_http := 400; r_success := false;
               r_message := "Subscription ID or email is required";
               r_autoRenew := None |})
  else
    match findOne (fun s => identified_by req s
                            && Status.eqb (status s) Status.active
                            && Bool.eqb (autoRenew s) true)
                  (subscriptions st) with
    | None =>
        (st, json false "No active food subscription with auto-renewal found"
                  None)
    | Some subscription =>
        if negb (autoRenew subscription) then
          (st, json true "Auto-renewal is already disabled" (Some false))
        else
          let payhereResult_success := true in
          let reason :=
            if JS.truthy (req_reason req) then JS.template (req_reason req)
            else "User requested cancellation" in
          let updateData (d : FoodSubscription.t) :=
            let d := d
              |> set_autoRenew false
              |> set_updatedAt now
              |> set_autoRenewalCancelledDate (Some now)
              |> set_autoRenewalCancelledReason (Some reason) in
            if payhereResult_success
               && JS.truthy (payhereRecurringToken subscription)
            then set_payhereRecurringToken None d else d in
          let '(updated, modifiedCount) :=
            updateOne (_id subscription) updateData (subscriptions st) in
          if 0 <? modifiedCount then
            let st' := st
              |> with_subscriptions updated
              |> create_log now (_id subscription) (userEmail subscription)
                   Action.auto_renewal_cancelled
                   {| d_paymentId := None;
                      d_amount := None;
                      d_currency := None;
                      d_reason := Some reason;
                      d_payhereToken :=
                        if JS.truthy (payhereRecurringToken subscription)
                        then payhereRecurringToken subscription else None;
                      d_autoRenewal := None;
                      d_recurringToken := None;
                      d_payhereCancellationSuccess :=
                        Some payhereResult_success;
                      d_payhereCancellationError := None;
                      d_requiresManualCancellation := Some false |} in
            let message :=
              "Auto-renewal cancelled successfully. Your food subscription will continue until "
              +++ toLocaleDateString (endDate subscription) +++ "."
              +++ (if payhereResult_success then ""
                   else " Note: PayHere recurring payment requires manual cancellation by our team.") in
            (st', json true message (Some false))
          else
            (st, json false
                   "Failed to cancel auto-renewal. Please try again or contact support."
                   None)
    end.

(** Reactivate food subscription auto-renewal *)
Definition reactivate_food_subscription_renewal (now : Z)
    (req : RenewalRequest) (st : State) : State * Reply :=
  if match req_subscriptionId req with Some _ => false | None => true end
     && negb (JS.truthy (req_userEmail req))
  then (st, {| r_http := 400; r_success := false;
               r_message := "Subscription ID or email is required";
               r_autoRenew := None |})
  else
    match findOne (fun s => identified_by req s
                            && (Status.eqb (status s) Status.active
                                || Status.eqb (status s) Status.pending_renewal)
                            && Bool.eqb (autoRenew s) false)
                  (subscriptions st) with
    | None => (st, json false "No eligible subscription found for reactivation"
                        None)
    | Some subscription =>
        if endDate subscription <=? now then
          (st, json false
                 "Subscription has expired. Please create a new subscription."
                 None)
        else
          let subscription := subscription
            |> set_autoRenew true
            |> set_status Status.active
            |> set_renewalAttempts 0
            |> set_paymentFailure false
            |> set_updatedAt now in
          let subscription :=
            match nextBillingDate subscription with
            | None => set_nextBillingDate (Some (endDate subscription))
                                          subscription
            | Some _ => subscription
            end in
          let st' := st
            |> with_subscriptions
                 (save_subscription now subscription (subscriptions st))
            |> create_log now (_id subscription) (userEmail subscription)
                 Action.reactivated
                 {| d_paymentId := None; d_amount := None;
                    d_currency := None; d_reason := None;
                    d_payhereToken := None; d_autoRenewal := Some true;
                    d_recurringToken := None;
                    d_payhereCancellationSuccess := None;
                    d_payhereCancellationError := None;
                    d_requiresManualCancellation := None |} in
          (* the reply describes the subscription in a member of its own,
             and has no [autoRenew] member *)
          (st', json true
                  "Auto-renewal reactivated successfully. Your subscription will automatically renew."
                  None)
    end.

End Server.

(** ** The digests in the words of the specification

    [hash] is the digest function as the server uses it: MD5, printed in
    upper-case hexadecimal. *)
Definition hash (s : string) : string := JS.toUpperCase (MD5.hex s).

Definition amount_2dp (amount : JS.number) : string := JS.toFixed2 amount.

(** hash( hash(secret) || merchantId || orderId || amount_2dp || currency ) *)
Definition spec_sign_digest (merchantId orderId : string) (amount : JS.value)
    (currency secret : string) : string :=
  hash (hash secret +++ merchantId +++ orderId
        +++ amount_2dp (JS.parseFloat_value amount) +++ currency).

(** two strings that differ at most in the case of their letters *)
Definition eq_ignore_case (a b : string) : bool :=
  String.eqb (JS.toUpperCase a) (JS.toUpperCase b).

(** ** A host: a server in the time zone of Colombo (UTC+05:30, no
    daylight saving), reading the dates of the form YYYY-MM-DD (as the
    midnight that begins the day, in UTC) and no other string, and
    printing dates as M/D/YYYY. *)
Definition two_digits (a b : ascii) : Z :=
  10 * (JS.code a - 48) + (JS.code b - 48).

Definition parse_iso_date (s : string) : option Z :=
  match s with
  | String y1 (String y2 (String y3 (String y4 (String "-"
      (String m1 (String m2 (String "-" (String d1 (String d2 EmptyString))))))))) =>
      if forallb JS.is_digit [y1; y2; y3; y4; m1; m2; d1; d2]
         && (1 <=? two_digits m1 m2) && (two_digits m1 m2 <=? 12)
         && (1 <=? two_digits d1 d2) && (two_digits d1 d2 <=? 31)
      then Some (JSDate.MakeDate
                   (JSDate.MakeDay (100 * two_digits y1 y2 + two_digits y3 y4)
                                   (two_digits m1 m2 - 1) (two_digits d1 d2)) 0)
      else None
  | _ => None
  end.

#[local] Instance Colombo : Host := {|
  LocalTZA := fun _ _ => 19800000;
  Date_parse := parse_iso_date;
  toLocaleDateString := fun t =>
    let lt := t + 19800000 in
    JS.string_of_Z (JSDate.MonthFromTime lt + 1) +++ "/"
    +++ JS.string_of_Z (JSDate.DateFromTime lt) +++ "/"
    +++ JS.string_of_Z (JSDate.YearFromTime lt)
|}.

(** ** Sample data *)

(** a notification with the given members, the others absent *)
Definition notification (order status sig : string)
    (payment custom1 custom2 mail token sub event : option string)
  : Notification :=
  {| merchant_id := Some "1211149"; order_id := Some order;
     payment_id := payment; payhere_amount := Some "2500.00";
     payhere_currency := Some "LKR"; status_code := Some status;
     md5sig := Some sig; status_message := None; custom_1 := custom1;
     custom_2 := custom2; email := mail; recurring_token := token;
     subscription_id := sub; event_type := event;
     next_occurrence_date := None |}.

Definition set_payment_id (v : option string) (n : Notification)
  : Notification :=
  {| merchant_id := merchant_id n; order_id := order_id n; payment_id := v;
     payhere_amount := payhere_amount n;
     payhere_currency := payhere_currency n; status_code := status_code n;
     md5sig := md5sig n; status_message := status_message n;
     custom_1 := custom_1 n; custom_2 := custom_2 n; email := email n;
     recurring_token := recurring_token n;
     subscription_id := subscription_id n; event_type := event_type n;
     next_occurrence_date := next_occurrence_date n |}.

Definition set_payhere_amount (v : option string) (n : Notification)
  : Notification :=
  {| merchant_id := merchant_id n; order_id := order_id n;
     payment_id := payment_id n; payhere_amount := v;
     payhere_currency := payhere_currency n; status_code := status_code n;
     md5sig := md5sig n; status_message := status_message n;
     custom_1 := custom_1 n; custom_2 := custom_2 n; email := email n;
     recurring_token := recurring_token n;
     subscription_id := subscription_id n; event_type := event_type n;
     next_occurrence_date := next_occurrence_date n |}.

Definition set_next_occurrence_date (v : option string) (n : Notification)
  : Notification :=
  {| merchant_id := merchant_id n; order_id := order_id n;
     payment_id := payment_id n; payhere_amount := payhere_amount n;
     payhere_currency := payhere_currency n; status_code := status_code n;
     md5sig := md5sig n; status_message := status_message n;
     custom_1 := custom_1 n; custom_2 := custom_2 n; email := email n;
     recurring_token := recurring_token n;
     subscription_id := subscription_id n; event_type := event_type n;
     next_occurrence_date := v |}.

Definition set_md5sig (v : option string) (n : Notification) : Notification :=
  {| merchant_id := merchant_id n; order_id := order_id n;
     payment_id := payment_id n; payhere_amount := payhere_amount n;
     payhere_currency := payhere_currency n; status_code := status_code n;
     md5sig := v; status_message := status_message n;
     custom_1 := custom_1 n; custom_2 := custom_2 n; email := email n;
     recurring_token := recurring_token n;
     subscription_id := subscription_id n; event_type := event_type n;
     next_occurrence_date := next_occurrence_date n |}.

(** the digest the gateway signs a notification with *)
Definition notification_digest (data : Notification) (secret : string)
  : string :=
  hash (JS.template (merchant_id data) +++ JS.template (order_id data)
        +++ amount_2dp (JS.parseFloat_opt (payhere_amount data))
        +++ JS.template (payhere_currency data)
        +++ JS.template (status_code data) +++ hash secret).

Definition sample_config : Config :=
  {| merchantId := Some "1211149"; merchantSecret := Some "secret" |}.

(** a subscription to the monthly plan, as the server creates them *)
Definition sample_subscription (id : N) (mail order : string)
    (token : option string) (st : Status.t) (auto : bool)
    (created ends : Z) : FoodSubscription.t :=
  {| FoodSubscription._id := id;
     FoodSubscription.userEmail := mail;
     FoodSubscription.customerName := "Food Subscriber";
     FoodSubscription.phoneNumber := "0771234567";
     FoodSubscription.address := "Colombo, Sri Lanka";
     FoodSubscription.planId := "food_premium";
     FoodSubscription.planName := "Premium Food Subscription";
     FoodSubscription.status := st;
     FoodSubscription.amount := JS.number_of_Z 2500;
     FoodSubscription.currency := "LKR";
     FoodSubscription.billingCycle := "monthly";
     FoodSubscription.paymentMethod := "payhere";
     FoodSubscription.payhereOrderId := Some order;
     FoodSubscription.payherePaymentId := None;
     FoodSubscription.payhereRecurringToken := token;
     FoodSubscription.autoRenew := auto;
     FoodSubscription.renewalAttempts := 0;
     FoodSubscription.maxRenewalAttempts := 3;
     FoodSubscription.paymentFailure := false;
     FoodSubscription.paymentFailureReason := None;
     FoodSubscription.lastPaymentFailureDate := None;
     FoodSubscription.autoRenewalCancelledDate := None;
     FoodSubscription.autoRenewalCancelledReason := None;
     FoodSubscription.startDate := created;
     FoodSubscription.endDate := ends;
     FoodSubscription.nextBillingDate := if auto then Some ends else None;
     FoodSubscription.renewalHistory := [];
     FoodSubscription.createdAt := created;
     FoodSubscription.updatedAt := created |}.

(** a pending order of the cart *)
Definition sample_order (id : N) (order : string) (created : Z) : CartOrder.t :=
  {| CartOrder._id := id;
     CartOrder.customerEmail := "kamal@example.com";
     CartOrder.customerName := "Kamal Perera";
     CartOrder.phoneNumber := "0771234567";
     CartOrder.address := "12 Galle Road";
     CartOrder.city := "Colombo";
     CartOrder.orderId := order;
     CartOrder.items := [];
     CartOrder.subtotal := JS.number_of_Z 2500;
     CartOrder.tax := JS.number_of_Z 0;
     CartOrder.shipping := JS.number_of_Z 0;
     CartOrder.totalAmount := JS.number_of_Z 2500;
     CartOrder.currency := "LKR";
     CartOrder.paymentMethod := "payhere";
     CartOrder.paymentStatus := PaymentStatus.pending;
     CartOrder.payhereOrderId := Some order;
     CartOrder.payherePaymentId := None;
     CartOrder.orderStatus := OrderStatus.pending;
     CartOrder.createdAt := created;
     CartOrder.updatedAt := created |}.

Definition empty_state : State :=
  {| orders := []; subscriptions := []; logs := []; nextId := 1 |}.

(** ** Sequences of events *)

(** consecutive recurring payments: the notifications that the recurring
    handler receives one after the other, each with the time at which it
    is processed *)
Definition recurring_payments `{Host} (events : list (Z * Notification))
    (st : State) : State :=
  fold_left (fun st e => handleRecurringFoodPayment (fst e) (snd e) st)
            events st.

(** the collection [c] with the document [s] replaced by [s'] *)
Definition replace_subscription (s s' : FoodSubscription.t)
    (c : list FoodSubscription.t) : list FoodSubscription.t :=
  map (fun d => if (FoodSubscription._id d =? FoodSubscription._id s)%N
                then s' else d) c.

(** ** The calendar *)

Definition leap_year (y : Z) : bool :=
  ((y mod 4 =? 0) && negb (y mod 100 =? 0)) || (y mod 400 =? 0).

(** the number of days of the month [m] (0 for January) of the year [y] *)
Definition month_length (y m : Z) : Z :=
  match m with
  | 1 => if leap_year y then 29 else 28
  | 3 | 5 | 8 | 10 => 30
  | _ => 31
  end.

(** the time that is one month after [t] on the calendar of the host: the
    same time of the day, as many days later as the month of [t] has *)
Definition one_month_after `{Host} (t : Z) : Z :=
  let lt := JSDate.LocalTime t in
  JSDate.UTC (lt + JSDate.msPerDay
                   * month_length (JSDate.YearFromTime lt)
                                  (JSDate.MonthFromTime lt)).

(** the notifications delivered to the endpoint one after the other, each
    with the time at which it is processed *)
Definition deliver `{Host} (cfg : Config) (events : list (Z * Notification))
    (st : State) : State :=
  fold_left (fun st e => fst (payhere_notify cfg (fst e) (snd e) st)) events st.

(** what the invariant on the renewal attempts speaks of *)
Definition renewal_view (st : State) : list (Status.t * Z * Z * bool) :=
  map (fun s => (FoodSubscription.status s, FoodSubscription.renewalAttempts s,
                 FoodSubscription.maxRenewalAttempts s,
                 FoodSubscription.autoRenew s))
      (subscriptions st).

Definition is_failed (r : Renewal) : Prop :=
  renewal_status r = RenewalStatus.failed.

(** ** What an operation leaves in place *)

(** [st'] holds what [st] held: its log entries, in order and unchanged,
    followed by the entries added; its subscriptions, by id and in order,
    followed by those created; and its orders, by id. *)
Definition extends (st st' : State) : Prop :=
  (exists added, logs st' = logs st ++ added)
  /\ (exists created,
        map FoodSubscription._id (subscriptions st')
        = map FoodSubscription._id (subscriptions st) ++ created)
  /\ map CartOrder._id (orders st') = map CartOrder._id (orders st).

Definition is_upper_hex (c : ascii) : bool :=
  ((48 <=? JS.code c) && (JS.code c <=? 57))
  || ((65 <=? JS.code c) && (JS.code c <=? 70)).

(** the six members that the notification endpoint requires *)
Definition required_present (n : Notification) : bool :=
  JS.truthy (merchant_id n) && JS.truthy (order_id n)
  && JS.truthy (payhere_amount n) && JS.truthy (payhere_currency n)
  && JS.truthy (status_code n) && JS.truthy (md5sig n).


(** [new] is the subscription [old] at a later time: what identifies it
    and what was agreed at its creation are as they were, and its renewal
    history is the former one followed by the entries added. *)
Definition same_subscription (old new : FoodSubscription.t) : Prop :=
  FoodSubscription._id new = FoodSubscription._id old
  /\ FoodSubscription.userEmail new = FoodSubscription.userEmail old
  /\ FoodSubscription.customerName new = FoodSubscription.customerName old
  /\ FoodSubscription.phoneNumber new = FoodSubscription.phoneNumber old
  /\ FoodSubscription.address new = FoodSubscription.address old
  /\ FoodSubscription.planId new = FoodSubscription.planId old
  /\ FoodSubscription.amount new = FoodSubscription.amount old
  /\ FoodSubscription.currency new = FoodSubscription.currency old
  /\ FoodSubscription.payhereOrderId new = FoodSubscription.payhereOrderId old
  /\ FoodSubscription.maxRenewalAttempts new
     = FoodSubscription.maxRenewalAttempts old
  /\ FoodSubscription.startDate new = FoodSubscription.startDate old
  /\ FoodSubscription.createdAt new = FoodSubscription.createdAt old
  /\ exists added,
       FoodSubscription.renewalHistory new
       = FoodSubscription.renewalHistory old ++ added.

(** the ids of the subscriptions are distinct, and below the next one to
    be given *)
Definition distinct_ids (st : State) : Prop :=
  NoDup (map FoodSubscription._id (subscriptions st))
  /\ forall s, In s (subscriptions st) ->
               (FoodSubscription._id s < nextId st)%N.

Definition keeps_subscriptions (st st' : State) : Prop :=
  exists kept created,
    subscriptions st' = kept ++ created
    /\ Forall2 same_subscription (subscriptions st) kept.

(** ** Telephone numbers *)

(** [s.replace(/\D/g, '')] *)
Fixpoint remove_non_digits (s : string) : string :=
  match s with
  | EmptyString => EmptyString
  | String c rest =>
      if JS.is_digit c then String c (remove_non_digits rest)
      else remove_non_digits rest
  end.

(** the normalisation of the telephone number in the two endpoints that
    create a payment; [phone] is [customerData.phone] or
    [customerData.phoneNumber] *)
Definition cleanPhone (phone : option string) : string :=
  let cleanPhone :=
    match phone with
    | Some p => match JS.trim p with
                | EmptyString => "0771234567"
                | t => t
                end
    | None => "0771234567"
    end in
  let cleanPhone := remove_non_digits cleanPhone in
  if JS.startsWith cleanPhone "94" then "0" +++ JS.drop 2 cleanPhone
  else if negb (JS.startsWith cleanPhone "0") then "0" +++ cleanPhone
  else cleanPhone.

Fixpoint all_chars (p : ascii -> bool) (s : string) : bool :=
  match s with
  | EmptyString => true
  | String c rest => p c && all_chars p rest
  end.

(** ** Regular expressions

    The patterns of the server are matched against the white-space
    characters of ECMAScript, each read at once, and the other bytes of
    the string. *)
Module RegExp.

Inductive unit : Type :=
| White
| Byte (c : ascii).

Fixpoint units (fuel : nat) (s : string) : list unit :=
  match fuel, s with
  | Datatypes.S f, String c rest =>
      match JS.white_space_len s with
      | O => Byte c :: units f rest
      | n => White :: units f (JS.drop n s)
      end
  | _, _ => []
  end.

Inductive t : Type :=
| Never
| Empty
| Char (c : ascii)
| NotSpaceNor (c : ascii)
| Digit
| Seq (r1 r2 : t)
| Alt (r1 r2 : t)
| Star (r : t).

(** [r+] *)
Definition Plus (r : t) : t := Seq r (Star r).

(** the characters of [s], one after the other *)
Fixpoint literal (s : string) : t :=
  match s with
  | EmptyString => Empty
  | String c rest => Seq (Char c) (literal rest)
  end.

(** what one step of a pattern reads: [c], [[^\s c]], or [\d] *)
Definition reads (r : t) (u : unit) : bool :=
  match r, u with
  | Char c, Byte b => Ascii.eqb b c
  | NotSpaceNor c, Byte b => negb (Ascii.eqb b c)
  | Digit, Byte b => JS.is_digit b
  | _, _ => false
  end.

Fixpoint nullable (r : t) : bool :=
  match r with
  | Never | Char _ | NotSpaceNor _ | Digit => false
  | Empty | Star _ => true
  | Seq r1 r2 => nullable r1 && nullable r2
  | Alt r1 r2 => nullable r1 || nullable r2
  end.

(** what is left of [r] to match once [u] is read *)
Fixpoint derive (u : unit) (r : t) : t :=
  match r with
  | Never | Empty => Never
  | Char _ | NotSpaceNor _ | Digit => if reads r u then Empty else Never
  | Seq r1 r2 =>
      if nullable r1 then Alt (Seq (derive u r1) r2) (derive u r2)
      else Seq (derive u r1) r2
  | Alt r1 r2 => Alt (derive u r1) (derive u r2)
  | Star r1 => Seq (derive u r1) (Star r1)
  end.

Definition matches (r : t) (us : list unit) : bool :=
  nullable (fold_left (fun r u => derive u r) us r).

(** [/^r$/.test(s)] *)
Definition test (r : t) (s : string) : bool :=
  matches r (units (String.length s) s).

(** the sequences of units that a pattern matches from end to end *)
Inductive denotes : t -> list unit -> Prop :=
| denotes_Empty : denotes Empty []
| denotes_Char c : denotes (Char c) [Byte c]
| denotes_NotSpaceNor c b : b <> c -> denotes (NotSpaceNor c) [Byte b]
| denotes_Digit b : JS.is_digit b = true -> denotes Digit [Byte b]
| denotes_Seq r1 r2 us1 us2 :
    denotes r1 us1 -> denotes r2 us2 -> denotes (Seq r1 r2) (us1 ++ us2)
| denotes_Alt_l r1 r2 us : denotes r1 us -> denotes (Alt r1 r2) us
| denotes_Alt_r r1 r2 us : denotes r2 us -> denotes (Alt r1 r2) us
| denotes_Star_nil r : denotes (Star r) []
| denotes_Star_cons r us1 us2 :
    denotes r us1 -> denotes (Star r) us2 -> denotes (Star r) (us1 ++ us2).

End RegExp.

(** [/^[^\s@]+@[^\s@]+\.[^\s@]+$/] *)
Definition emailRegex : RegExp.t :=
  RegExp.Seq (RegExp.Plus (RegExp.NotSpaceNor "@"))
    (RegExp.Seq (RegExp.Char "@")
       (RegExp.Seq (RegExp.Plus (RegExp.NotSpaceNor "@"))
          (RegExp.Seq (RegExp.Char ".")
             (RegExp.Plus (RegExp.NotSpaceNor "@"))))).

(** a unit of a part of an address: neither white space nor [@] *)
Definition plain (u : RegExp.unit) : Prop :=
  exists b, u = RegExp.Byte b /\ b <> "@"%char.

(** ** The endpoints that create a payment *)

(** [a === b] on Numbers: the values are compared, [NaN] equals nothing
    and the two zeros are equal *)
Definition strict_equal (a b : JS.number) : bool :=
  match a, b with
  | JS.Infinity n1, JS.Infinity n2 => Bool.eqb n1 n2
  | JS.Finite n1 m1 e1, JS.Finite n2 m2 e2 =>
      let e := Z.min e1 e2 in
      ((m1 =? 0) && (m2 =? 0))
      || (Bool.eqb n1 n2 && (m1 * 2 ^ (e1 - e) =? m2 * 2 ^ (e2 - e)))
  | _, _ => false
  end.

(** [s || otherwise] *)
Definition or_else (s otherwise : string) : string :=
  match s with
  | EmptyString => otherwise
  | _ => s
  end.

(** [s.split(/\s+/)]; [word] is the part being read, in reverse *)
Fixpoint split_spaces (fuel : nat) (word s : string) : list string :=
  match fuel, s with
  | Datatypes.S f, String c rest =>
      match JS.white_space_len s with
      | O => split_spaces f (String c word) rest
      | _ => JS.rev_string "" word :: split_spaces f "" (JS.trimStart s)
      end
  | _, _ => [JS.rev_string "" word]
  end.

(** the members of [payhereConfig] that the payment data copy; they are
    never missing, each having a default *)
Record Site : Type := {
  mode : string;
  returnUrl : string;
  cancelUrl : string;
  notifyUrl : string
}.

(** the data that the client passes on to the gateway; [recurrence],
    [duration] and [startup_fee] are those of a recurring payment *)
Record PaymentData : Type := {
  pd_sandbox : bool;
  pd_merchant_id : string;
  pd_return_url : string;
  pd_cancel_url : string;
  pd_notify_url : string;
  pd_order_id : string;
  pd_items : string;
  pd_currency : string;
  pd_amount : string;
  pd_first_name : string;
  pd_last_name : string;
  pd_email : string;
  pd_phone : string;
  pd_address : string;
  pd_city : string;
  pd_country : string;
  pd_hash : string;
  pd_custom_1 : string;
  pd_custom_2 : string;
  pd_recurrence : option string;
  pd_duration : option string;
  pd_startup_fee : option string
}.

(** the reply of an endpoint that creates a payment:
    [res.status(http).json({ success: false, error })], or
    [res.json({ success: true, orderId, paymentData, amount, currency,
    recurring, message })], where [recurring] is a member of the reply of
    the food subscription only *)
Inductive PaymentReply : Type :=
| Refused (http : Z) (error : string)
| Created (orderId : string) (paymentData : PaymentData)
          (amount : JS.number) (currency : string) (recurring : option bool)
          (message : string).

(** [req.body] of the endpoint of the food subscription, its members
    being strings when they are present, [amount] a string or a Number *)
Record FoodCustomer : Type := {
  fc_name : option string;
  fc_email : option string;
  fc_address : option string;
  fc_phoneNumber : option string
}.

Record FoodPaymentRequest : Type := {
  fp_amount : option JS.value;
  fp_currency : option string;
  fp_planId : option string;
  fp_customerData : option FoodCustomer
}.

(** CREATE FOOD SUBSCRIPTION PAYMENT ENDPOINT (Recurring).  [now] is
    [Date.now()] and [random] is [Math.floor(Math.random() * 1000)],
    neither of them negative.  The endpoint does not touch the
    database. *)
Definition create_food_subscription_payment (payhereConfig : Config)
    (site : Site) (now random : Z) (req : FoodPaymentRequest)
  : PaymentReply :=
  let currency := match fp_currency req with Some c => c | None => "LKR" end in
  if negb (JS.truthy (merchantId payhereConfig))
     || negb (JS.truthy (merchantSecret payhereConfig))
  then Refused 500 "PayHere configuration invalid"
  else
    let fixedAmount := JS.number_of_Z 2500 in
    let numAmount :=
      match fp_amount req with
      | Some amount => JS.parseFloat_value amount
      | None => JS.NaN
      end in
    if negb (strict_equal numAmount fixedAmount)
    then Refused 400 ("Invalid amount. Food subscription is fixed at LKR "
                      +++ "2500" +++ " per month")
    else
      match fp_customerData req with
      | None =>
          Refused 400 "Customer name, email, and delivery address are required"
      | Some customerData =>
          if negb (JS.truthy (fc_name customerData))
             || negb (JS.truthy (fc_email customerData))
             || negb (JS.truthy (fc_address customerData))
          then Refused 400
                 "Customer name, email, and delivery address are required"
          else if negb (RegExp.test emailRegex
                          (JS.trim (JS.template (fc_email customerData))))
          then Refused 400 "Invalid email format"
          else
            let timestamp := now in
            let randomSuffix := random in
            let orderId := "FOOD_RECURRING_" +++ JS.string_of_Z timestamp
                           +++ "_" +++ JS.string_of_Z randomSuffix in
            let trimmed := JS.trim (JS.template (fc_name customerData)) in
            let nameParts := split_spaces (String.length trimmed) "" trimmed in
            let firstName := or_else (hd "" nameParts) "Customer" in
            let lastName := or_else (String.concat " " (tl nameParts)) "User" in
            let cleanPhone := cleanPhone (fc_phoneNumber customerData) in
            let hash :=
              generateRecurringPayHereHash
                (JS.template (merchantId payhereConfig)) orderId
                (JS.VNumber fixedAmount) currency
                (JS.template (merchantSecret payhereConfig)) in
            let paymentData :=
              {| pd_sandbox := String.eqb (mode site) "sandbox";
                 pd_merchant_id := JS.template (merchantId payhereConfig);
                 pd_return_url := returnUrl site +++ "?order_id=" +++ orderId;
                 pd_cancel_url := cancelUrl site;
                 pd_notify_url := notifyUrl site;
                 pd_order_id := orderId;
                 pd_items := "Premium Food Subscription - Monthly Auto-Renewal";
                 pd_currency := JS.toUpperCase currency;
                 pd_amount := JS.toFixed2 fixedAmount;
                 pd_first_name := firstName;
                 pd_last_name := lastName;
                 pd_email := JS.toLowerCase
                               (JS.trim (JS.template (fc_email customerData)));
                 pd_phone := cleanPhone;
                 pd_address := JS.trim (JS.template (fc_address customerData));
                 pd_city := "Colombo";
                 pd_country := "Sri Lanka";
                 pd_hash := hash;
                 pd_custom_1 := "plan_" +++ JS.template (fp_planId req);
                 pd_custom_2 := "food_monthly_recurring";
                 pd_recurrence := Some "1 Month";
                 pd_duration := Some "Forever";
                 pd_startup_fee := Some "0.00" |} in
            Created orderId paymentData fixedAmount (JS.toUpperCase currency)
                    (Some true)
                    "Food subscription recurring payment created successfully"
      end.

(** ** The configuration read from the environment *)

(** the variables that the server reads; [PAYHERE_APP_ID] and
    [PAYHERE_APP_SECRET], which no code reads after loading, are left
    out *)
Record Env : Type := {
  PAYHERE_MERCHANT_ID : option string;
  PAYHERE_MERCHANT_SECRET : option string;
  PAYHERE_MODE : option string;
  PAYHERE_RETURN_URL : option string;
  PAYHERE_CANCEL_URL : option string;
  PAYHERE_NOTIFY_URL : option string
}.

(** [v?.trim() || otherwise] *)
Definition trimmed_or (v : option string) (otherwise : string) : string :=
  match v with
  | Some s => or_else (JS.trim s) otherwise
  | None => otherwise
  end.

(** [payhereConfig]: the merchant id and secret *)
Definition payhereConfig_of (env : Env) : Config :=
  {| merchantId := option_map JS.trim (PAYHERE_MERCHANT_ID env);
     merchantSecret := option_map JS.trim (PAYHERE_MERCHANT_SECRET env) |}.

(** [payhereConfig]: the mode and the addresses *)
Definition site_of (env : Env) : Site :=
  {| mode := trimmed_or (PAYHERE_MODE env) "sandbox";
     returnUrl := trimmed_or (PAYHERE_RETURN_URL env)
                    "http://localhost:5173/payment/status";
     cancelUrl := trimmed_or (PAYHERE_CANCEL_URL env)
                    "http://localhost:5173/payment/cancelled";
     notifyUrl := trimmed_or (PAYHERE_NOTIFY_URL env)
                    "http://localhost:5000/api/payhere-notify" |}.

(** Validate PayHere Configuration *)
Definition validatePayHereConfig (payhereConfig : Config) : bool :=
  let issues :=
    (if negb (JS.truthy (merchantId payhereConfig))
     then ["Missing PAYHERE_MERCHANT_ID"] else [])
    ++ (if negb (JS.truthy (merchantSecret payhereConfig))
        then ["Missing PAYHERE_MERCHANT_SECRET"] else []) in
  if (0 <? List.length issues)%nat then false else true.

(** ** The endpoints that read the database *)

(** what an endpoint shows of an order *)
Record OrderView : Type := {
  ov_id : N;
  ov_orderId : string;
  ov_customerName : string;
  ov_customerEmail : string;
  ov_totalAmount : JS.number;
  ov_currency : string;
  ov_paymentStatus : PaymentStatus.t;
  ov_orderStatus : OrderStatus.t;
  ov_items : list OrderItem;
  ov_createdAt : Z
}.

(** what an endpoint shows of a subscription; the members that an
    endpoint leaves out are absent *)
Record SubscriptionView : Type := {
  sv_id : N;
  sv_planName : string;
  sv_status : option Status.t;
  sv_amount : JS.number;
  sv_currency : string;
  sv_autoRenew : bool;
  sv_startDate : option Z;
  sv_endDate : option Z;
  sv_nextBillingDate : option Z;
  sv_customerName : option string;
  sv_address : option string;
  sv_paymentFailure : option bool;
  sv_renewalAttempts : option Z;
  sv_maxRenewalAttempts : option Z;
  sv_renewalHistory : option (list Renewal)
}.

(** the reply of a status endpoint:
    [{ success: true, status: 'completed', order }] (or [subscription]),
    or [{ success: true, status: 'pending', message }] *)
Inductive StatusReply (A : Type) : Type :=
| Completed (document : A)
| Pending (message : string).
Arguments Completed {A} document.
Arguments Pending {A} message.

Definition reply_status {A : Type} (r : StatusReply A) : string :=
  match r with
  | Completed _ => "completed"
  | Pending _ => "pending"
  end.

(** GET CART ORDER STATUS BY ORDER ID *)
Definition cart_order_status (orderId : string) (st : State)
  : StatusReply OrderView :=
  match findOne (fun o => opt_eqb (CartOrder.payhereOrderId o) (Some orderId))
                (orders st) with
  | Some order =>
      Completed {| ov_id := CartOrder._id order;
                   ov_orderId := CartOrder.orderId order;
                   ov_customerName := CartOrder.customerName order;
                   ov_customerEmail := CartOrder.customerEmail order;
                   ov_totalAmount := CartOrder.totalAmount order;
                   ov_currency := CartOrder.currency order;
                   ov_paymentStatus := CartOrder.paymentStatus order;
                   ov_orderStatus := CartOrder.orderStatus order;
                   ov_items := CartOrder.items order;
                   ov_createdAt := CartOrder.createdAt order |}
  | None => Pending "Payment is being processed"
  end.

(** GET FOOD SUBSCRIPTION STATUS BY ORDER ID *)
Definition food_subscription_status (orderId : string) (st : State)
  : StatusReply SubscriptionView :=
  match findOne (fun s => opt_eqb (FoodSubscription.payhereOrderId s)
                                  (Some orderId)) (subscriptions st) with
  | Some subscription =>
      Completed
        {| sv_id := FoodSubscription._id subscription;
           sv_planName := FoodSubscription.planName subscription;
           sv_status := Some (FoodSubscription.status subscription);
           sv_amount := FoodSubscription.amount subscription;
           sv_currency := FoodSubscription.currency subscription;
           sv_autoRenew := FoodSubscription.autoRenew subscription;
           sv_startDate := None;
           sv_endDate := Some (FoodSubscription.endDate subscription);
           sv_nextBillingDate := FoodSubscription.nextBillingDate subscription;
           sv_customerName := Some (FoodSubscription.customerName subscription);
           sv_address := Some (FoodSubscription.address subscription);
           sv_paymentFailure := None;
           sv_renewalAttempts := None;
           sv_maxRenewalAttempts := None;
           sv_renewalHistory := None |}
  | None => Pending "Payment is being processed"
  end.

(** [Model.find(q).sort({ createdAt: -1 })]: the matching documents by
    decreasing [createdAt], those of one date in natural order *)
Fixpoint insert_latest {A : Type} (createdAt : A -> Z) (d : A) (l : list A)
  : list A :=
  match l with
  | [] => [d]
  | d' :: rest =>
      if createdAt d <? createdAt d' then d' :: insert_latest createdAt d rest
      else d :: l
  end.

Definition find_latest {A : Type} (createdAt : A -> Z) (q : A -> bool)
    (c : list A) : list A :=
  fold_right (insert_latest createdAt) [] (filter q c).

(** [l.slice(-n)] *)
Definition slice_last {A : Type} (n : nat) (l : list A) : list A :=
  skipn (List.length l - n) l.

(** GET USER FOOD SUBSCRIPTIONS *)
Definition user_food_subscriptions (email : string) (st : State)
  : list SubscriptionView :=
  let subscriptions :=
    find_latest FoodSubscription.createdAt
      (fun s => String.eqb (FoodSubscription.userEmail s)
                           (JS.trim (JS.toLowerCase email)))
      (subscriptions st) in
  map (fun sub =>
         {| sv_id := FoodSubscription._id sub;
            sv_planName := FoodSubscription.planName sub;
            sv_status := Some (FoodSubscription.status sub);
            sv_amount := FoodSubscription.amount sub;
            sv_currency := FoodSubscription.currency sub;
            sv_autoRenew := FoodSubscription.autoRenew sub;
            sv_startDate := Some (FoodSubscription.startDate sub);
            sv_endDate := Some (FoodSubscription.endDate sub);
            sv_nextBillingDate := FoodSubscription.nextBillingDate sub;
            sv_customerName := Some (FoodSubscription.customerName sub);
            sv_address := Some (FoodSubscription.address sub);
            sv_paymentFailure := Some (FoodSubscription.paymentFailure sub);
            sv_renewalAttempts := Some (FoodSubscription.renewalAttempts sub);
            sv_maxRenewalAttempts := None;
            sv_renewalHistory :=
              Some (slice_last 5 (FoodSubscription.renewalHistory sub)) |})
      subscriptions.

(** the body of the request that checks a subscription; the id, when it
    is present and not empty, is that of a document *)
Record CheckRequest : Type := {
  ck_email : option string;
  ck_subscriptionId : option N
}.

(** the reply of the check: [res.status(400).json(...)], or
    [{ success: true, hasSubscription, hasActiveSubscription,
    subscription }] *)
Inductive CheckReply : Type :=
| CheckRefused (message : string)
| Checked (hasSubscription hasActiveSubscription : bool)
          (subscription : option SubscriptionView).

(** CHECK FOOD SUBSCRIPTION STATUS *)
Definition check_food_subscription (now : Z) (req : CheckRequest)
    (st : State) : CheckReply :=
  if negb (JS.truthy (ck_email req))
     && match ck_subscriptionId req with Some _ => false | None => true end
  then CheckRefused "Email or subscription ID is required"
  else
    let by_email s :=
      if JS.truthy (ck_email req)
      then String.eqb (FoodSubscription.userEmail s)
                      (JS.trim (JS.toLowerCase (JS.template (ck_email req))))
      else false in
    let by_id s :=
      match ck_subscriptionId req with
      | Some subscriptionId => (FoodSubscription._id s =? subscriptionId)%N
      | None => false
      end in
    match findOne_latest FoodSubscription.createdAt
            (fun s => by_email s || by_id s) (subscriptions st) with
    | None => Checked false false None
    | Some subscription =>
        let isActive :=
          Status.eqb (FoodSubscription.status subscription) Status.active
          && (now <? FoodSubscription.endDate subscription) in
        Checked true isActive
          (Some
             {| sv_id := FoodSubscription._id subscription;
                sv_planName := FoodSubscription.planName subscription;
                sv_status := Some (FoodSubscription.status subscription);
                sv_amount := FoodSubscription.amount subscription;
                sv_currency := FoodSubscription.currency subscription;
                sv_autoRenew := FoodSubscription.autoRenew subscription;
                sv_startDate := Some (FoodSubscription.startDate subscription);
                sv_endDate := Some (FoodSubscription.endDate subscription);
                sv_nextBillingDate :=
                  FoodSubscription.nextBillingDate subscription;
                sv_customerName :=
                  Some (FoodSubscription.customerName subscription);
                sv_address := Some (FoodSubscription.address subscription);
                sv_paymentFailure :=
                  Some (FoodSubscription.paymentFailure subscription);
                sv_renewalAttempts :=
                  Some (FoodSubscription.renewalAttempts subscription);
                sv_maxRenewalAttempts :=
                  Some (FoodSubscription.maxRenewalAttempts subscription);
                sv_renewalHistory := None |})
    end.

(** ** The endpoint that records a subscription *)

(** [req.body]: its members are strings when they are present, [amount]
    a string or a Number, [enableAutoRenew] a boolean *)
Record RecordRequest : Type := {
  rr_userEmail : option string;
  rr_customerName : option string;
  rr_phoneNumber : option string;
  rr_address : option string;
  rr_amount : option JS.value;
  rr_currency : option string;
  rr_paymentMethod : option string;
  rr_payhereOrderId : option string;
  rr_payhereRecurringToken : option string;
  rr_enableAutoRenew : option bool
}.

(** [res.status(http).json({ success, subscriptionId, message,
    subscription })] *)
Record RecordReply : Type := {
  rc_http : Z;
  rc_success : bool;
  rc_subscriptionId : option N;
  rc_message : string;
  rc_subscription : option SubscriptionView
}.

(** what the reply shows of the subscription *)
Definition recorded (s : FoodSubscription.t) : SubscriptionView :=
  {| sv_id := FoodSubscription._id s;
     sv_planName := FoodSubscription.planName s;
     sv_status := None;
     sv_amount := FoodSubscription.amount s;
     sv_currency := FoodSubscription.currency s;
     sv_autoRenew := FoodSubscription.autoRenew s;
     sv_startDate := None;
     sv_endDate := None;
     sv_nextBillingDate := FoodSubscription.nextBillingDate s;
     sv_customerName := None;
     sv_address := None;
     sv_paymentFailure := None;
     sv_renewalAttempts := None;
     sv_maxRenewalAttempts := None;
     sv_renewalHistory := None |}.

(** the validators of the schema that a new subscription can fail: a
    required string is not empty, and a Number is not [NaN] *)
Definition valid_subscription (s : FoodSubscription.t) : bool :=
  negb (String.eqb (FoodSubscription.userEmail s) "")
  && negb (String.eqb (FoodSubscription.customerName s) "")
  && negb (String.eqb (FoodSubscription.phoneNumber s) "")
  && negb (String.eqb (FoodSubscription.address s) "")
  && match FoodSubscription.amount s with JS.NaN => false | _ => true end.

Section Record.
Context `{Host}.

(** CREATE FOOD SUBSCRIPTION RECORD ENDPOINT.  The reply 500 is that of
    the [catch], reached when [save] rejects the document. *)
Definition create_food_subscription_record (now : Z) (req : RecordRequest)
    (st : State) : State * RecordReply :=
  let amount :=
    match rr_amount req with
    | Some a => a
    | None => JS.VNumber (JS.number_of_Z 2500)
    end in
  let currency := match rr_currency req with Some c => c | None => "LKR" end in
  let paymentMethod :=
    match rr_paymentMethod req with Some m => m | None => "payhere" end in
  let enableAutoRenew :=
    match rr_enableAutoRenew req with Some b => b | None => true end in
  if negb (JS.truthy (rr_userEmail req))
     || negb (JS.truthy (rr_customerName req))
     || negb (JS.truthy (rr_address req))
  then (st, {| rc_http := 400; rc_success := false; rc_subscriptionId := None;
               rc_message :=
                 "User email, customer name, and address are required";
               rc_subscription := None |})
  else
    match findOne (fun s => opt_eqb (FoodSubscription.payhereOrderId s)
                                    (rr_payhereOrderId req))
                  (subscriptions st) with
    | Some existingSubscription =>
        (st, {| rc_http := 200; rc_success := true;
                rc_subscriptionId :=
                  Some (FoodSubscription._id existingSubscription);
                rc_message := "Subscription record already exists";
                rc_subscription := Some (recorded existingSubscription) |})
    | None =>
        let startDate := now in
        let endDate :=
          JSDate.setMonth startDate (JSDate.getMonth startDate + 1) in
        let nextBillingDate := if enableAutoRenew then Some endDate else None in
        let subscription :=
          {| FoodSubscription._id := nextId st;
             FoodSubscription.userEmail :=
               JS.trim (JS.toLowerCase (JS.template (rr_userEmail req)));
             FoodSubscription.customerName :=
               JS.trim (JS.template (rr_customerName req));
             FoodSubscription.phoneNumber :=
               match rr_phoneNumber req with
               | Some p => or_else (JS.trim p) "0771234567"
               | None => "0771234567"
               end;
             FoodSubscription.address :=
               JS.trim (JS.template (rr_address req));
             FoodSubscription.planId := "food_premium";
             FoodSubscription.planName := "Premium Food Subscription";
             FoodSubscription.status := Status.active;
             FoodSubscription.amount := JS.parseFloat_value amount;
             FoodSubscription.currency := JS.toUpperCase currency;
             FoodSubscription.billingCycle := "monthly";
             FoodSubscription.paymentMethod := paymentMethod;
             FoodSubscription.payhereOrderId := rr_payhereOrderId req;
             FoodSubscription.payherePaymentId := None;
             FoodSubscription.payhereRecurringToken :=
               rr_payhereRecurringToken req;
             FoodSubscription.autoRenew := enableAutoRenew;
             FoodSubscription.renewalAttempts := 0;
             FoodSubscription.maxRenewalAttempts := 3;
             FoodSubscription.paymentFailure := false;
             FoodSubscription.paymentFailureReason := None;
             FoodSubscription.lastPaymentFailureDate := None;
             FoodSubscription.autoRenewalCancelledDate := None;
             FoodSubscription.autoRenewalCancelledReason := None;
             FoodSubscription.startDate := startDate;
             FoodSubscription.endDate := endDate;
             FoodSubscription.nextBillingDate := nextBillingDate;
             FoodSubscription.renewalHistory :=
               [ {| renewalDate := startDate;
                    renewal_amount := JS.parseFloat_value amount;
                    renewal_status := RenewalStatus.success;
                    paymentId := rr_payhereOrderId req;
                    failureReason := None;
                    attempt := 1;
                    payhereToken :=
                      if JS.truthy (rr_payhereRecurringToken req)
                      then rr_payhereRecurringToken req else None |} ];
             FoodSubscription.createdAt := now;
             FoodSubscription.updatedAt := now |} in
        if negb (valid_subscription subscription)
        then (st, {| rc_http := 500; rc_success := false;
                     rc_subscriptionId := None;
                     rc_message := "Failed to create subscription record";
                     rc_subscription := None |})
        else
          (st |> insert_subscription subscription
              |> create_log now (FoodSubscription._id subscription)
                   (FoodSubscription.userEmail subscription) Action.created
                   {| d_paymentId := rr_payhereOrderId req;
                      d_amount := Some (JS.parseFloat_value amount);
                      d_currency := Some (JS.toUpperCase currency);
                      d_reason := None;
                      d_payhereToken := rr_payhereRecurringToken req;
                      d_autoRenewal := Some enableAutoRenew;
                      d_recurringToken :=
                        Some (JS.truthy (rr_payhereRecurringToken req));
                      d_payhereCancellationSuccess := None;
                      d_payhereCancellationError := None;
                      d_requiresManualCancellation := None |},
           {| rc_http := 200; rc_success := true;
              rc_subscriptionId := Some (FoodSubscription._id subscription);
              rc_message := "Food subscription record created successfully";
              rc_subscription := Some (recorded subscription) |})
    end.

End Record.

(** ** Sample data of the payment endpoints *)

Definition sample_env : Env :=
  {| PAYHERE_MERCHANT_ID := Some " 1211149 ";
     PAYHERE_MERCHANT_SECRET := Some "secret ";
     PAYHERE_MODE := None;
     PAYHERE_RETURN_URL := None;
     PAYHERE_CANCEL_URL := None;
     PAYHERE_NOTIFY_URL := None |}.

Definition sample_food_request : FoodPaymentRequest :=
  {| fp_amount := Some (JS.VString "2500");
     fp_currency := Some "lkr";
     fp_planId := Some "2";
     fp_customerData :=
       Some {| fc_name := Some "Nimal Perera";
               fc_email := Some " Nimal@Example.com ";
               fc_address := Some "12 Galle Road";
               fc_phoneNumber := Some "+94 77 123 4567" |} |}.


Definition sample_record_request : RecordRequest :=
  {| rr_userEmail := Some " Nimal@Example.com";
     rr_customerName := Some "Nimal Perera";
     rr_phoneNumber := None;
     rr_address := Some "12 Galle Road";
     rr_amount := None;
     rr_currency := None;
     rr_paymentMethod := None;
     rr_payhereOrderId := Some "FOOD_RECURRING_1";
     rr_payhereRecurringToken := None;
     rr_enableAutoRenew := None |}.

(** ** The origins that may call the server *)

Definition allowedOrigins : list string :=
  ["http://localhost:5173"; "http://localhost:5176"; "http://localhost:3000";
   "http://localhost:5555"].

(** [/^http:\/\/localhost:\d+$/] *)
Definition localhostRegex : RegExp.t :=
  RegExp.Seq (RegExp.literal "http://localhost:") (RegExp.Plus RegExp.Digit).

(** the [origin] function of the CORS configuration: [true] is
    [callback(null, true)], and [false] is
    [callback(new Error('Not allowed by CORS'))]; a request without
    [Origin] header has no origin *)
Definition origin_allowed (origin : option string) : bool :=
  if negb (JS.truthy origin) then true
  else if existsb (String.eqb (JS.template origin)) allowedOrigins
          || RegExp.test localhostRegex (JS.template origin)
  then true
  else false.

(** a byte that starts no white-space character *)
Definition starts_no_space (c : ascii) : Prop :=
  forall r, JS.white_space_len (String c r) = 0%nat.

(** * Properties *)

(* the built-ins are computed on closed values only *)
Arguments MD5.hex : simpl never.
Arguments JS.parseFloat : simpl never.
Arguments JS.parseFloat_opt : simpl never.
Arguments JS.toFixed2 : simpl never.
Arguments JS.trim : simpl never.
Arguments JS.toUpperCase : simpl never.
Arguments JS.toLowerCase : simpl never.
Arguments JSDate.setMonth : simpl never.
Arguments JSDate.getMonth : simpl never.


(** ** The built-ins on known values *)

Example md5_empty : MD5.hex "" = "d41d8cd98f00b204e9800998ecf8427e".
Proof. vm_compute. reflexivity. Qed.

Example md5_abc : MD5.hex "abc" = "900150983cd24fb0d6963f7d28e17f72".
Proof. vm_compute. reflexivity. Qed.

Example md5_two_blocks :
  MD5.hex "12345678901234567890123456789012345678901234567890123456789012345678901234567890"
  = "57edf4a22be3c955ac49da2e2107b67a".
Proof. vm_compute. reflexivity. Qed.

Example toFixed2_values :
  map (fun s => JS.toFixed2 (JS.parseFloat s))
      ["2500"; " 2500.00"; "1.005"; "0.125"; "-0.001"; "1234.5678abc";
       "1e21"; "abc"]
  = ["2500.00"; "2500.00"; "1.00"; "0.13"; "-0.00"; "1234.57"; "1e+21"; "NaN"].
Proof. vm_compute. reflexivity. Qed.

Example trim_values :
  map JS.trim ["  LKR "; "a b"; String (ascii_of_nat 194) (String (ascii_of_nat 160) "x")]
  = ["LKR"; "a b"; "x"].
Proof. vm_compute. reflexivity. Qed.

(** 31 January 2024 10:00 UTC, one month on: 2 March 2024, and
    15 January 2024 one month on: 15 February 2024 *)
Example setMonth_values :
  map (fun t => JSDate.setMonth t (JSDate.getMonth t + 1))
      [1706695200000; 1705312800000; 1703980800000]
  = [1709373600000; 1707991200000; 1706659200000].
Proof. vm_compute. reflexivity. Qed.

Example parse_iso_date_value :
  Date_parse "2024-02-15" = Some 1707955200000
  /\ Date_parse "next month" = None
  /\ Date_parse "2024-13-01" = None
  /\ toLocaleDateString 1707955200000 = "2/15/2024".
Proof. vm_compute. repeat split; reflexivity. Qed.

(** an amount that is not a number, and one that is *)
Example numeric_values :
  numeric (Some "LKR 2500") = false /\ numeric None = false
  /\ numeric (Some "2500.00") = true.
Proof. vm_compute. repeat split; reflexivity. Qed.

(** ** The assignments of fields *)

Lemma CartOrder_assignments (d : CartOrder.t) (v1 : PaymentStatus.t)
    (v2 v3 : option string) (v4 : OrderStatus.t) (v5 : Z) :
  CartOrder.paymentStatus (CartOrder.set_paymentStatus v1 d) = v1
  /\ CartOrder.payherePaymentId (CartOrder.set_payherePaymentId v2 d) = v2
  /\ CartOrder.orderStatus (CartOrder.set_orderStatus v4 d) = v4
  /\ CartOrder.updatedAt (CartOrder.set_updatedAt v5 d) = v5
  /\ CartOrder.set_paymentStatus (CartOrder.paymentStatus d) d = d
  /\ CartOrder.set_payherePaymentId (CartOrder.payherePaymentId d) d = d
  /\ CartOrder.set_orderStatus (CartOrder.orderStatus d) d = d
  /\ CartOrder.set_updatedAt (CartOrder.updatedAt d) d = d.
Proof. destruct d. now repeat split. Qed.

Lemma FoodSubscription_assignments (d : FoodSubscription.t)
    (st : Status.t) (os : option string) (b : bool) (z : Z) (oz : option Z)
    (h : list Renewal) :
  FoodSubscription.status (FoodSubscription.set_status st d) = st
  /\ FoodSubscription.payherePaymentId
       (FoodSubscription.set_payherePaymentId os d) = os
  /\ FoodSubscription.payhereRecurringToken
       (FoodSubscription.set_payhereRecurringToken os d) = os
  /\ FoodSubscription.autoRenew (FoodSubscription.set_autoRenew b d) = b
  /\ FoodSubscription.renewalAttempts
       (FoodSubscription.set_renewalAttempts z d) = z
  /\ FoodSubscription.paymentFailure
       (FoodSubscription.set_paymentFailure b d) = b
  /\ FoodSubscription.lastPaymentFailureDate
       (FoodSubscription.set_lastPaymentFailureDate oz d) = oz
  /\ FoodSubscription.autoRenewalCancelledDate
       (FoodSubscription.set_autoRenewalCancelledDate oz d) = oz
  /\ FoodSubscription.autoRenewalCancelledReason
       (FoodSubscription.set_autoRenewalCancelledReason os d) = os
  /\ FoodSubscription.endDate (FoodSubscription.set_endDate z d) = z
  /\ FoodSubscription.nextBillingDate
       (FoodSubscription.set_nextBillingDate oz d) = oz
  /\ FoodSubscription.renewalHistory
       (FoodSubscription.set_renewalHistory h d) = h
  /\ FoodSubscription.updatedAt (FoodSubscription.set_updatedAt z d) = z.
Proof. destruct d. now repeat split. Qed.

(** an assignment of the value a field has changes nothing: the other
    fields are left as they are *)
Lemma FoodSubscription_assignments_frame (d : FoodSubscription.t) :
  FoodSubscription.set_status (FoodSubscription.status d) d = d
  /\ FoodSubscription.set_payherePaymentId
       (FoodSubscription.payherePaymentId d) d = d
  /\ FoodSubscription.set_payhereRecurringToken
       (FoodSubscription.payhereRecurringToken d) d = d
  /\ FoodSubscription.set_autoRenew (FoodSubscription.autoRenew d) d = d
  /\ FoodSubscription.set_renewalAttempts
       (FoodSubscription.renewalAttempts d) d = d
  /\ FoodSubscription.set_paymentFailure
       (FoodSubscription.paymentFailure d) d = d
  /\ FoodSubscription.set_lastPaymentFailureDate
       (FoodSubscription.lastPaymentFailureDate d) d = d
  /\ FoodSubscription.set_autoRenewalCancelledDate
       (FoodSubscription.autoRenewalCancelledDate d) d = d
  /\ FoodSubscription.set_autoRenewalCancelledReason
       (FoodSubscription.autoRenewalCancelledReason d) d = d
  /\ FoodSubscription.set_endDate (FoodSubscription.endDate d) d = d
  /\ FoodSubscription.set_nextBillingDate
       (FoodSubscription.nextBillingDate d) d = d
  /\ FoodSubscription.set_renewalHistory
       (FoodSubscription.renewalHistory d) d = d
  /\ FoodSubscription.set_updatedAt (FoodSubscription.updatedAt d) d = d.
Proof. destruct d. now repeat split. Qed.

(** ** Hash authenticator *)

Lemma upper_char_idem (c : ascii) :
  JS.upper_char (JS.upper_char c) = JS.upper_char c.
Proof. destruct c as [[] [] [] [] [] [] [] []]; reflexivity. Qed.

Lemma toUpperCase_idem (s : string) :
  JS.toUpperCase (JS.toUpperCase s) = JS.toUpperCase s.
Proof.
  unfold JS.toUpperCase. induction s as [| c s IH]; simpl.
  - reflexivity.
  - now rewrite upper_char_idem, IH.
Qed.

Lemma upper_lower_char (c : ascii) :
  JS.upper_char (JS.lower_char c) = JS.upper_char c.
Proof. destruct c as [[] [] [] [] [] [] [] []]; reflexivity. Qed.

Lemma toUpperCase_toLowerCase (s : string) :
  JS.toUpperCase (JS.toLowerCase s) = JS.toUpperCase s.
Proof.
  unfold JS.toUpperCase, JS.toLowerCase. induction s as [| c s IH]; simpl.
  - reflexivity.
  - now rewrite upper_lower_char, IH.
Qed.

Lemma hash_upper (s : string) : JS.toUpperCase (hash s) = hash s.
Proof. unfold hash. apply toUpperCase_idem. Qed.

(** C1, as the code has it: the signing digest is
    hash(merchantId || orderId || amount with two decimals || currency ||
    hash(secret)), the hashed secret being the last component of what is
    hashed, and the verification digest is the same construction with the
    status code between the currency and the hashed secret; the supplied
    signature is compared with it without regard to case, and a
    notification without signature is not verified at all. *)
Theorem digest_construction_secret_last
    (merchantId orderId : string) (amount : JS.value)
    (currency secret : string) (data : Notification) :
  generatePayHereHash merchantId orderId amount currency secret
  = hash (merchantId +++ orderId +++ amount_2dp (JS.parseFloat_value amount)
          +++ currency +++ hash secret)
  /\ verifyPayHereHash data secret
     = option_map
         (eq_ignore_case
            (hash (JS.template (merchant_id data) +++ JS.template (order_id data)
                   +++ amount_2dp (JS.parseFloat_opt (payhere_amount data))
                   +++ JS.template (payhere_currency data)
                   +++ JS.template (status_code data) +++ hash secret)))
         (md5sig data).
Proof.
  split.
  - reflexivity.
  - unfold verifyPayHereHash, eq_ignore_case.
    destruct (md5sig data) as [sig |]; simpl; [| reflexivity].
    now rewrite hash_upper.
Qed.

(** A notification signed with the digest of its own fields is accepted,
    in upper case as in lower case; and the case of a signature never
    matters. *)
Lemma verifyPayHereHash_own_digest (data : Notification) (secret : string) :
  verifyPayHereHash (set_md5sig (Some (notification_digest data secret)) data)
                    secret = Some true
  /\ verifyPayHereHash
       (set_md5sig (Some (JS.toLowerCase (notification_digest data secret)))
                   data) secret = Some true.
Proof.
  unfold verifyPayHereHash, notification_digest, amount_2dp, hash.
  cbn [set_md5sig md5sig merchant_id order_id payhere_amount
       payhere_currency status_code].
  rewrite toUpperCase_toLowerCase, !toUpperCase_idem, String.eqb_refl.
  now split.
Qed.

Lemma verifyPayHereHash_ignores_case (data : Notification)
    (secret sig : string) :
  verifyPayHereHash (set_md5sig (Some (JS.toLowerCase sig)) data) secret
  = verifyPayHereHash (set_md5sig (Some sig) data) secret.
Proof.
  unfold verifyPayHereHash.
  cbn [set_md5sig md5sig merchant_id order_id payhere_amount
       payhere_currency status_code].
  now rewrite toUpperCase_toLowerCase.
Qed.

(** An altered status code is refused: the notification of a declined
    payment, passed off as paid with the signature it came with. *)
Example verifyPayHereHash_tampered_status :
  let declined := notification "CART_1" "-2" "" None (Some "cart_order")
                    None None None None None in
  verifyPayHereHash
    (set_md5sig (Some (notification_digest declined "secret")) declined)
    "secret" = Some true
  /\ verifyPayHereHash
       (set_md5sig (Some (notification_digest declined "secret"))
          (notification "CART_1" "2" "" None (Some "cart_order") None None
                        None None None))
       "secret" = Some false.
Proof. split; vm_compute; reflexivity. Qed.

(** C1, as stated, fails: with the hashed secret first the digest of
    merchant 1211149, order CART_1, amount 2500, currency LKR and secret
    [secret] would be another one than the digest the server computes. *)
Lemma digest_secret_first_counterexample :
  generatePayHereHash "1211149" "CART_1" (JS.VNumber (JS.number_of_Z 2500))
                      "LKR" "secret"
  = "0BEE759A91EAA78306E69695605105AE"
  /\ spec_sign_digest "1211149" "CART_1" (JS.VNumber (JS.number_of_Z 2500))
                      "LKR" "secret"
     = "6C90328A64835F9CF7756E8E414C83F4"
  /\ generatePayHereHash "1211149" "CART_1" (JS.VNumber (JS.number_of_Z 2500))
                         "LKR" "secret"
     <> spec_sign_digest "1211149" "CART_1" (JS.VNumber (JS.number_of_Z 2500))
                         "LKR" "secret".
Proof.
  repeat split; try (vm_compute; reflexivity).
  vm_compute. discriminate.
Qed.

(** C10: on a merchant id, an order id, a currency and a secret that
    [trim] leaves as they are, the currency being also left as it is by
    [toUpperCase], the generator of the recurring payments computes the
    digest of the generator of the one-time payments, for every amount. *)
Theorem generators_agree_on_clean_input
    (merchantId orderId : string) (amount : JS.value)
    (currency merchantSecret : string) :
  JS.trim merchantId = merchantId ->
  JS.trim orderId = orderId ->
  JS.trim currency = currency ->
  JS.toUpperCase currency = currency ->
  JS.trim merchantSecret = merchantSecret ->
  generateRecurringPayHereHash merchantId orderId amount currency merchantSecret
  = generatePayHereHash merchantId orderId amount currency merchantSecret.
Proof.
  intros Hm Ho Hc Hu Hs.
  unfold generateRecurringPayHereHash, generatePayHereHash.
  now rewrite Hm, Ho, Hu, Hc, Hs.
Qed.

Lemma generators_agree_on_clean_input_witness :
  JS.trim "1211149" = "1211149"
  /\ JS.trim "FOOD_RECURRING_1700000000000_42" = "FOOD_RECURRING_1700000000000_42"
  /\ JS.trim "LKR" = "LKR"
  /\ JS.toUpperCase "LKR" = "LKR"
  /\ JS.trim "secret" = "secret"
  /\ generateRecurringPayHereHash "1211149" "FOOD_RECURRING_1700000000000_42"
       (JS.VNumber (JS.number_of_Z 2500)) "LKR" "secret"
     = generatePayHereHash "1211149" "FOOD_RECURRING_1700000000000_42"
         (JS.VNumber (JS.number_of_Z 2500)) "LKR" "secret".
Proof.
  do 5 (split; [vm_compute; reflexivity |]).
  apply generators_agree_on_clean_input; vm_compute; reflexivity.
Defined.

(** The two generators part on a currency in lower case, which only the
    recurring one puts in upper case. *)
Example generators_differ_on_lower_case_currency :
  generateRecurringPayHereHash "1211149" "CART_1"
    (JS.VNumber (JS.number_of_Z 2500)) "lkr" "secret"
  <> generatePayHereHash "1211149" "CART_1"
       (JS.VNumber (JS.number_of_Z 2500)) "lkr" "secret".
Proof. vm_compute. discriminate. Qed.

(** ** The lookup of the recurring handler *)

Section FindLatest.
Context {A : Type} (created : A -> Z) (q : A -> bool).

Lemma findOne_latest_None (c : list A) :
  findOne_latest created q c = None ->
  forall d, In d c -> q d = false.
Proof.
  induction c as [| x c IH]; simpl; intros Hnone d Hin.
  - contradiction.
  - destruct (q x) eqn:Hqx.
    + destruct (findOne_latest created q c) as [d' |];
        [destruct (created x <? created d') |]; discriminate.
    + destruct Hin as [<- | Hin]; auto.
Qed.

Lemma findOne_latest_Some (c : list A) (s : A) :
  findOne_latest created q c = Some s ->
  In s c /\ q s = true
  /\ forall d, In d c -> q d = true -> created d <= created s.
Proof.
  revert s. induction c as [| x c IH]; simpl; intros s Hs.
  - discriminate.
  - destruct (q x) eqn:Hqx.
    + destruct (findOne_latest created q c) as [d' |] eqn:Hrest.
      * destruct (IH d' eq_refl) as (Hin & Hq & Hmax).
        destruct (created x <? created d') eqn:Hlt; inversion Hs; subst s.
        -- apply Z.ltb_lt in Hlt. repeat split; auto.
           intros d [<- | Hd] Hqd; [lia | auto].
        -- apply Z.ltb_ge in Hlt. repeat split; auto.
           intros d [<- | Hd] Hqd; [lia |].
           specialize (Hmax d Hd Hqd). lia.
      * inversion Hs; subst s. repeat split; auto.
        intros d [<- | Hd] Hqd; [lia |].
        rewrite (findOne_latest_None c Hrest d Hd) in Hqd. discriminate.
    + destruct (IH s Hs) as (Hin & Hq & Hmax). repeat split; auto.
      intros d [<- | Hd] Hqd; [congruence | auto].
Qed.
End FindLatest.

(** C2, as the code has it: the subscription the recurring handler selects
    is one with auto-renewal on whose recurring token is the
    notification's [subscription_id] or whose e-mail is the notification's,
    and none of the subscriptions that match in either way was created
    after it; when none matches, none is selected.  A match by token has
    no precedence over a match by e-mail. *)
Theorem recurring_lookup_most_recent_match
    (n : Notification) (c : list FoodSubscription.t) :
  match find_recurring n c with
  | Some s =>
      In s c
      /\ FoodSubscription.autoRenew s = true
      /\ (opt_eqb (FoodSubscription.payhereRecurringToken s) (subscription_id n)
          = true
          \/ exists e, email n = Some e
                       /\ FoodSubscription.userEmail s
                          = JS.trim (JS.toLowerCase e))
      /\ forall s', In s' c -> recurring_query n s' = true ->
                    FoodSubscription.createdAt s' <= FoodSubscription.createdAt s
  | None => forall s', In s' c -> recurring_query n s' = false
  end.
Proof.
  unfold find_recurring.
  destruct (findOne_latest FoodSubscription.createdAt (recurring_query n) c)
    as [s |] eqn:Hfind.
  - apply findOne_latest_Some in Hfind. destruct Hfind as (Hin & Hq & Hmax).
    repeat split; auto.
    + unfold recurring_query in Hq. apply andb_true_iff in Hq. tauto.
    + unfold recurring_query in Hq. apply andb_true_iff in Hq.
      destruct Hq as [Hq _]. apply orb_true_iff in Hq.
      destruct Hq as [Ht | He]; [now left | right].
      destruct (email n) as [e |]; [| discriminate].
      exists e. split; [reflexivity | now apply String.eqb_eq].
  - exact (findOne_latest_None _ _ _ Hfind).
Qed.

Lemma recurring_lookup_most_recent_match_witness :
  let older := sample_subscription 1 "nimal@example.com" "FOOD_RECURRING_1"
                 (Some "TOKEN_A") Status.active true
                 1700000000000 1702592000000 in
  let newer := sample_subscription 2 "nimal@example.com" "FOOD_RECURRING_2"
                 (Some "TOKEN_B") Status.active true
                 1702000000000 1704678400000 in
  let n := notification "FOOD_RECURRING_2" "2" "" (Some "320027150502")
             None None None (Some "TOKEN_B") (Some "TOKEN_B")
             (Some "SUBSCRIPTION_PAYMENT") in
  find_recurring n [older; newer] = Some newer
  /\ forall s', In s' [older; newer] -> recurring_query n s' = true ->
                FoodSubscription.createdAt s'
                <= FoodSubscription.createdAt newer.
Proof.
  intros older newer n.
  assert (Hfind : find_recurring n [older; newer] = Some newer)
    by (vm_compute; reflexivity).
  split; [exact Hfind |].
  pose proof (recurring_lookup_most_recent_match n [older; newer]) as Hsel.
  rewrite Hfind in Hsel. exact (proj2 (proj2 (proj2 Hsel))).
Defined.

(** C2, as stated, fails.  A customer has two subscriptions with
    auto-renewal: the older one holds the token TOKEN_A, the one created a
    month later the token TOKEN_B.  The notification of a payment on
    TOKEN_A carries the customer's e-mail: the older subscription matches
    by token, the newer one by e-mail only, and the newer one is
    selected. *)
Lemma recurring_lookup_token_not_preferred_counterexample :
  let older := sample_subscription 1 "nimal@example.com" "FOOD_RECURRING_1"
                 (Some "TOKEN_A") Status.active true
                 1700000000000 1702592000000 in
  let newer := sample_subscription 2 "nimal@example.com" "FOOD_RECURRING_2"
                 (Some "TOKEN_B") Status.active true
                 1702000000000 1704678400000 in
  let n := notification "FOOD_RECURRING_1" "2" "" (Some "320027150501")
             None None (Some "nimal@example.com") (Some "TOKEN_A")
             (Some "TOKEN_A") (Some "SUBSCRIPTION_PAYMENT") in
  opt_eqb (FoodSubscription.payhereRecurringToken older) (subscription_id n)
  = true
  /\ opt_eqb (FoodSubscription.payhereRecurringToken newer) (subscription_id n)
     = false
  /\ recurring_query n newer = true
  /\ FoodSubscription.createdAt older < FoodSubscription.createdAt newer
  /\ find_recurring n [older; newer] = Some newer
  /\ find_recurring n [older; newer] <> Some older.
Proof.
  repeat split; try (vm_compute; reflexivity).
  vm_compute. discriminate.
Qed.

(** ** Notification router *)

Lemma truthy_None_false (v : option string) : v = None -> JS.truthy v = false.
Proof. now intros ->. Qed.

(** The reply of the notification endpoint does not depend on the
    payment id. *)
Lemma notify_reply_ignores_payment_id `{Host}
    (cfg : Config) (now : Z) (n : Notification) (st : State)
    (v : option string) :
  snd (payhere_notify cfg now (set_payment_id v n) st)
  = snd (payhere_notify cfg now n st).
Proof.
  unfold payhere_notify.
  change (verifyPayHereHash (set_payment_id v n))
    with (verifyPayHereHash n).
  cbn [set_payment_id merchant_id order_id payhere_amount payhere_currency
       status_code md5sig].
  match goal with
  | |- snd (if ?g then _ else _) = _ => destruct g; [reflexivity |]
  end.
  destruct (merchantId cfg) as [configured |]; [| reflexivity].
  match goal with
  | |- snd (if ?g then _ else _) = _ => destruct g; [reflexivity |]
  end.
  destruct (merchantSecret cfg) as [secret |]; [| reflexivity].
  destruct (verifyPayHereHash n secret) as [[] |]; reflexivity.
Qed.

(** C3, as the code has it: a notification that lacks one of merchant_id,
    order_id, payhere_amount, payhere_currency, status_code and md5sig is
    answered 400 and the database is left as it was; payment_id is not
    among the members that are required, and the reply is the same with
    and without it. *)
Theorem notify_rejects_missing_required_field `{Host}
    (cfg : Config) (now : Z) (n : Notification) (st : State) :
  (merchant_id n = None \/ order_id n = None \/ payhere_amount n = None
   \/ payhere_currency n = None \/ status_code n = None \/ md5sig n = None ->
   payhere_notify cfg now n st
   = (st, {| http := 400; body := "Missing required fields" |}))
  /\ forall v, snd (payhere_notify cfg now (set_payment_id v n) st)
               = snd (payhere_notify cfg now n st).
Proof.
  split; [| intro v; apply notify_reply_ignores_payment_id].
  intros Hmissing. unfold payhere_notify.
  assert (Hguard :
    negb (JS.truthy (merchant_id n)) || negb (JS.truthy (order_id n))
    || negb (JS.truthy (payhere_amount n))
    || negb (JS.truthy (payhere_currency n))
    || negb (JS.truthy (status_code n)) || negb (JS.truthy (md5sig n)) = true).
  { destruct Hmissing as [E | [E | [E | [E | [E | E]]]]];
      rewrite (truthy_None_false _ E); simpl;
      rewrite ?orb_true_r; reflexivity. }
  now rewrite Hguard.
Qed.

Lemma notify_rejects_missing_required_field_witness :
  let n := {| merchant_id := Some "1211149"; order_id := Some "CART_1";
              payment_id := Some "320027150501";
              payhere_amount := Some "2500.00";
              payhere_currency := Some "LKR"; status_code := None;
              md5sig := Some "B483F545654C940E589825682C3CB0FF";
              status_message := None; custom_1 := Some "cart_order";
              custom_2 := None; email := None; recurring_token := None;
              subscription_id := None; event_type := None;
              next_occurrence_date := None |} in
  let st := with_orders [sample_order 1 "CART_1" 1700000000000] empty_state in
  status_code n = None
  /\ payhere_notify sample_config 1700000600000 n st
     = (st, {| http := 400; body := "Missing required fields" |}).
Proof.
  intros n st. split; [reflexivity |].
  apply (proj1 (notify_rejects_missing_required_field
                  sample_config 1700000600000 n st)).
  right; right; right; right; left. reflexivity.
Defined.

(** C3, as stated, fails for payment_id: the notification of a paid cart
    order that carries the six members above with a valid signature, and no
    payment_id, is answered 200 and the order is marked as paid. *)
Lemma notify_accepts_missing_payment_id_counterexample :
  let n := notification "CART_1" "2" "B483F545654C940E589825682C3CB0FF"
             None (Some "cart_order") None None None None None in
  let st := with_orders [sample_order 1 "CART_1" 1700000000000] empty_state in
  let result := payhere_notify sample_config 1700000600000 n st in
  payment_id n = None
  /\ snd result = {| http := 200; body := "OK" |}
  /\ map CartOrder.paymentStatus (orders (fst result))
     = [PaymentStatus.completed]
  /\ map CartOrder.orderStatus (orders (fst result)) = [OrderStatus.confirmed]
  /\ fst result <> st.
Proof.
  repeat split; try (vm_compute; reflexivity).
  vm_compute. discriminate.
Qed.

(** ** Cart orders *)

Lemma find_save_order (now : Z) (q : CartOrder.t -> bool)
    (o o' : CartOrder.t) (c : list CartOrder.t) :
  find q c = Some o ->
  CartOrder._id o' = CartOrder._id o ->
  q (CartOrder.set_updatedAt now o') = true ->
  find q (save_order now o' c) = Some (CartOrder.set_updatedAt now o').
Proof.
  intros Hfind Hid Hq. induction c as [| d c IH]; simpl in *.
  - discriminate.
  - destruct (q d) eqn:Hqd.
    + inversion Hfind; subst d. rewrite Hid, N.eqb_refl. now rewrite Hq.
    + destruct (CartOrder._id d =? CartOrder._id o')%N.
      * now rewrite Hq.
      * rewrite Hqd. auto.
Qed.

Lemma save_order_others (now : Z) (o' d : CartOrder.t) (c : list CartOrder.t) :
  CartOrder._id d <> CartOrder._id o' ->
  In d (save_order now o' c) <-> In d c.
Proof.
  intros Hne. unfold save_order. rewrite in_map_iff. split.
  - intros (x & Hx & Hin).
    destruct (CartOrder._id x =? CartOrder._id o')%N eqn:E.
    + subst d. destruct o'. now destruct Hne.
    + now subst x.
  - intros Hin. exists d. split; [| assumption].
    apply N.eqb_neq in Hne. now rewrite Hne.
Qed.

(** C9: a cart notification for which no order has the gateway order id
    changes nothing; otherwise the order found is stored again, with the
    payment status completed, the order status confirmed and the payment
    id of the notification when the status code is 2, and with the
    payment status failed and the order status cancelled when it is not.
    No order is created, the orders with another id are left as they
    were, and so are the subscriptions and the log. *)
Theorem cart_notification_updates_order
    (now : Z) (n : Notification) (st : State) :
  let q := fun o => opt_eqb (CartOrder.payhereOrderId o) (order_id n) in
  let st' := handleCartPaymentNotification now n st in
  subscriptions st' = subscriptions st
  /\ logs st' = logs st
  /\ List.length (orders st') = List.length (orders st)
  /\ match findOne q (orders st) with
     | None => st' = st
     | Some order =>
         (exists order',
             findOne q (orders st') = Some order'
             /\ CartOrder._id order' = CartOrder._id order
             /\ CartOrder.orderId order' = CartOrder.orderId order
             /\ CartOrder.totalAmount order' = CartOrder.totalAmount order
             /\ if opt_eqb (status_code n) (Some "2")
                then CartOrder.paymentStatus order' = PaymentStatus.completed
                     /\ CartOrder.orderStatus order' = OrderStatus.confirmed
                     /\ CartOrder.payherePaymentId order' = payment_id n
                else CartOrder.paymentStatus order' = PaymentStatus.failed
                     /\ CartOrder.orderStatus order' = OrderStatus.cancelled)
         /\ forall d, CartOrder._id d <> CartOrder._id order ->
                      In d (orders st') <-> In d (orders st)
     end.
Proof.
  intros q st'. subst st'. unfold handleCartPaymentNotification, findOne.
  fold q.
  destruct (find q (orders st)) as [order |] eqn:Hfind; [| now repeat split].
  assert (Hq : q order = true) by (apply (find_some _ _ Hfind)).
  destruct order as [].
  destruct (opt_eqb (status_code n) (Some "2"));
    cbn [subscriptions logs orders with_orders].
  all: split; [reflexivity |]; split; [reflexivity |].
  all: split; [unfold save_order; apply length_map |].
  all: split; [| intros d Hd; apply save_order_others; exact Hd].
  all: eexists; split;
    [eapply find_save_order; [exact Hfind | reflexivity | exact Hq] |].
  all: repeat split.
Qed.

Lemma cart_notification_updates_order_witness :
  let n := notification "CART_1" "2" "B483F545654C940E589825682C3CB0FF"
             (Some "320027150501") (Some "cart_order") None None None None
             None in
  let st := with_orders [sample_order 1 "CART_1" 1700000000000;
                         sample_order 2 "CART_2" 1700000300000] empty_state in
  let st' := handleCartPaymentNotification 1700000600000 n st in
  findOne (fun o => opt_eqb (CartOrder.payhereOrderId o) (order_id n))
          (orders st)
  = Some (sample_order 1 "CART_1" 1700000000000)
  /\ map (fun o => (CartOrder.paymentStatus o, CartOrder.orderStatus o,
                    CartOrder.payherePaymentId o)) (orders st')
     = [(PaymentStatus.completed, OrderStatus.confirmed, Some "320027150501");
        (PaymentStatus.pending, OrderStatus.pending, None)]
  /\ subscriptions st' = subscriptions st
  /\ logs st' = logs st.
Proof.
  intros n st st'.
  split; [vm_compute; reflexivity |]. split; [vm_compute; reflexivity |].
  destruct (cart_notification_updates_order 1700000600000 n st)
    as (Hsubs & Hlogs & _).
  split; [exact Hsubs | exact Hlogs].
Defined.

(** ** Auto-renewal toggle *)

(** The cancellation endpoint never replies that auto-renewal is already
    disabled: the branch that would is behind a query that only returns
    subscriptions with auto-renewal on. *)
Lemma cancel_never_already_disabled `{Host}
    (now : Z) (req : RenewalRequest) (st : State) :
  r_message (snd (cancel_food_subscription_renewal now req st))
  <> "Auto-renewal is already disabled".
Proof.
  unfold cancel_food_subscription_renewal.
  match goal with
  | |- r_message (snd (if ?g then _ else _)) <> _ =>
      destruct g; [discriminate |]
  end.
  destruct (findOne _ (subscriptions st)) as [s |] eqn:Hfind;
    [| discriminate].
  apply find_some in Hfind. destruct Hfind as [_ Hq].
  apply andb_true_iff in Hq. destruct Hq as [_ Hauto].
  apply Bool.eqb_prop in Hauto. rewrite Hauto. cbn [negb].
  destruct (updateOne _ _ _) as [updated k].
  destruct (0 <? k); cbn [snd r_message json]; [| discriminate].
  cbn [andb]. simpl String.append. discriminate.
Qed.

(** A request that designates only subscriptions with auto-renewal off is
    answered that no subscription was found, and nothing is written. *)
Lemma cancel_disabled_not_found `{Host}
    (now : Z) (req : RenewalRequest) (st : State) :
  (forall s, In s (subscriptions st) -> identified_by req s = true ->
             FoodSubscription.autoRenew s = false) ->
  fst (cancel_food_subscription_renewal now req st) = st
  /\ r_success (snd (cancel_food_subscription_renewal now req st)) = false.
Proof.
  intros Hoff. unfold cancel_food_subscription_renewal.
  match goal with
  | |- fst (if ?g then _ else _) = _ /\ _ => destruct g; [now split |]
  end.
  destruct (findOne _ (subscriptions st)) as [s |] eqn:Hfind; [| now split].
  apply find_some in Hfind. destruct Hfind as [Hin Hq].
  apply andb_true_iff in Hq. destruct Hq as [Hq Hauto].
  apply andb_true_iff in Hq. destruct Hq as [Hid _].
  apply Bool.eqb_prop in Hauto. rewrite (Hoff s Hin Hid) in Hauto.
  discriminate.
Qed.

(** C4 at the failing input: the only subscription is active with
    auto-renewal off, and its cancellation is requested by id.  The reply
    is the failure "No active food subscription with auto-renewal found",
    not the success "Auto-renewal is already disabled"; nothing is
    written. *)
Theorem cancel_on_disabled_subscription_replies_not_found :
  let s := sample_subscription 1 "nimal@example.com" "FOOD_RECURRING_1"
             None Status.active false 1700000000000 1702592000000 in
  let st := with_subscriptions [s] empty_state in
  let req := {| req_subscriptionId := Some 1%N; req_userEmail := None;
                req_reason := None |} in
  FoodSubscription.autoRenew s = false
  /\ cancel_food_subscription_renewal 1700000600000 req st
     = (st, {| r_http := 200; r_success := false;
               r_message := "No active food subscription with auto-renewal found";
               r_autoRenew := None |}).
Proof. split; vm_compute; reflexivity. Qed.

(** C7: when every subscription that the request designates, by id or by
    e-mail, has its end date at or before the time of the call, the
    reactivation fails and writes nothing: the subscriptions, with their
    autoRenew, status, renewalAttempts, paymentFailure and
    nextBillingDate, and the log are as before. *)
Theorem reactivate_expired_fails_without_mutation
    (now : Z) (req : RenewalRequest) (st : State) :
  (forall s, In s (subscriptions st) -> identified_by req s = true ->
             FoodSubscription.endDate s <= now) ->
  fst (reactivate_food_subscription_renewal now req st) = st
  /\ r_success (snd (reactivate_food_subscription_renewal now req st)) = false.
Proof.
  intros Hpast. unfold reactivate_food_subscription_renewal.
  match goal with
  | |- fst (if ?g then _ else _) = _ /\ _ => destruct g; [now split |]
  end.
  destruct (findOne _ (subscriptions st)) as [s |] eqn:Hfind; [| now split].
  apply find_some in Hfind. destruct Hfind as [Hin Hq].
  apply andb_true_iff in Hq. destruct Hq as [Hq _].
  apply andb_true_iff in Hq. destruct Hq as [Hid _].
  pose proof (Hpast s Hin Hid) as Hle. apply Z.leb_le in Hle.
  rewrite Hle. now split.
Qed.

Lemma reactivate_expired_fails_without_mutation_witness :
  let s := sample_subscription 1 "nimal@example.com" "FOOD_RECURRING_1"
             None Status.active false 1700000000000 1702592000000 in
  let st := with_subscriptions [s] empty_state in
  let req := {| req_subscriptionId := Some 1%N; req_userEmail := None;
                req_reason := None |} in
  let now := 1702600000000 in
  (forall s', In s' (subscriptions st) -> identified_by req s' = true ->
              FoodSubscription.endDate s' <= now)
  /\ fst (reactivate_food_subscription_renewal now req st) = st
  /\ r_success (snd (reactivate_food_subscription_renewal now req st)) = false.
Proof.
  intros s st req now.
  assert (Hpast : forall s', In s' (subscriptions st) ->
                             identified_by req s' = true ->
                             FoodSubscription.endDate s' <= now).
  { intros s' [<- | []] _. vm_compute. discriminate. }
  split; [exact Hpast |].
  exact (reactivate_expired_fails_without_mutation now req st Hpast).
Defined.

(** Before the end date the same request succeeds: the precondition of
    the theorem is not void. *)
Example reactivate_before_end_date :
  let s := sample_subscription 1 "nimal@example.com" "FOOD_RECURRING_1"
             None Status.active false 1700000000000 1702592000000 in
  let st := with_subscriptions [s] empty_state in
  let req := {| req_subscriptionId := Some 1%N; req_userEmail := None;
                req_reason := None |} in
  let result := reactivate_food_subscription_renewal 1700000600000 req st in
  r_success (snd result) = true
  /\ map FoodSubscription.autoRenew (subscriptions (fst result)) = [true]
  /\ map action (logs (fst result)) = [Action.reactivated].
Proof. repeat split; vm_compute; reflexivity. Qed.

(** ** Renewal state machine: failed recurring payments *)

Lemma cast_number_numeric (v : option string) :
  numeric v = true ->
  cast_number (JS.parseFloat_opt v) = Some (JS.parseFloat_opt v).
Proof.
  unfold numeric.
  destruct (JS.parseFloat_opt v); cbn; intros Hv;
    try reflexivity; discriminate.
Qed.

Lemma cast_number_not_numeric (v : option string) :
  numeric v = false -> cast_number (JS.parseFloat_opt v) = None.
Proof.
  unfold numeric.
  destruct (cast_number (JS.parseFloat_opt v)); [discriminate | reflexivity].
Qed.

Lemma opt_eqb_Some_false (v : option string) (s : string) :
  v <> Some s -> opt_eqb v (Some s) = false.
Proof.
  intros Hne. destruct v as [a |]; [| reflexivity]. cbn [opt_eqb].
  apply String.eqb_neq. intros ->. now apply Hne.
Qed.

(** [save] stamps [updatedAt] and nothing else *)
Lemma set_updatedAt_keeps (z : Z) (d : FoodSubscription.t) :
  let d' := FoodSubscription.set_updatedAt z d in
  FoodSubscription._id d' = FoodSubscription._id d
  /\ FoodSubscription.userEmail d' = FoodSubscription.userEmail d
  /\ FoodSubscription.status d' = FoodSubscription.status d
  /\ FoodSubscription.payhereRecurringToken d'
     = FoodSubscription.payhereRecurringToken d
  /\ FoodSubscription.autoRenew d' = FoodSubscription.autoRenew d
  /\ FoodSubscription.renewalAttempts d' = FoodSubscription.renewalAttempts d
  /\ FoodSubscription.maxRenewalAttempts d'
     = FoodSubscription.maxRenewalAttempts d
  /\ FoodSubscription.paymentFailure d' = FoodSubscription.paymentFailure d
  /\ FoodSubscription.endDate d' = FoodSubscription.endDate d
  /\ FoodSubscription.nextBillingDate d' = FoodSubscription.nextBillingDate d
  /\ FoodSubscription.renewalHistory d' = FoodSubscription.renewalHistory d
  /\ FoodSubscription.createdAt d' = FoodSubscription.createdAt d.
Proof. destruct d. now repeat split. Qed.

(** ** The stored collection, with one document replaced *)

Lemma NoDup_map_In_eq {A B : Type} (f : A -> B) (l : list A) (a b : A) :
  NoDup (map f l) -> In a l -> In b l -> f a = f b -> a = b.
Proof.
  induction l as [| x l IH]; cbn [map In]; intros Hnd Ha Hb Hab;
    [contradiction |].
  inversion Hnd as [| ? ? Hnotin Hnd']; subst.
  destruct Ha as [-> | Ha], Hb as [-> | Hb]; auto.
  - destruct Hnotin. rewrite Hab. now apply in_map.
  - destruct Hnotin. rewrite <- Hab. now apply in_map.
Qed.

Lemma save_subscription_replaces (now : Z) (s s1 : FoodSubscription.t)
    (c : list FoodSubscription.t) :
  FoodSubscription._id s1 = FoodSubscription._id s ->
  save_subscription now s1 c
  = replace_subscription s (FoodSubscription.set_updatedAt now s1) c.
Proof.
  intros Hid. unfold save_subscription, replace_subscription.
  now rewrite Hid.
Qed.

Lemma replace_subscription_ids (s s' : FoodSubscription.t)
    (c : list FoodSubscription.t) :
  FoodSubscription._id s' = FoodSubscription._id s ->
  map FoodSubscription._id (replace_subscription s s' c)
  = map FoodSubscription._id c.
Proof.
  intros Hid. unfold replace_subscription. rewrite map_map.
  apply map_ext. intros d.
  destruct (N.eqb_spec (FoodSubscription._id d) (FoodSubscription._id s));
    congruence.
Qed.

Lemma replace_subscription_twice (s s1 s2 : FoodSubscription.t)
    (c : list FoodSubscription.t) :
  FoodSubscription._id s1 = FoodSubscription._id s ->
  replace_subscription s1 s2 (replace_subscription s s1 c)
  = replace_subscription s s2 c.
Proof.
  intros Hid. unfold replace_subscription. rewrite map_map.
  apply map_ext. intros d. rewrite Hid.
  destruct (N.eqb_spec (FoodSubscription._id d) (FoodSubscription._id s))
    as [E | E].
  - now rewrite Hid, N.eqb_refl.
  - now apply N.eqb_neq in E as ->.
Qed.

Lemma replace_subscription_self (s : FoodSubscription.t)
    (c : list FoodSubscription.t) :
  NoDup (map FoodSubscription._id c) -> In s c ->
  replace_subscription s s c = c.
Proof.
  intros Hnd Hin. unfold replace_subscription.
  rewrite <- (map_id c) at 2. apply map_ext_in. intros d Hd.
  destruct (N.eqb_spec (FoodSubscription._id d) (FoodSubscription._id s))
    as [E | E]; [| reflexivity].
  symmetry. now apply (NoDup_map_In_eq FoodSubscription._id c).
Qed.

Lemma In_replace_subscription (s s' : FoodSubscription.t)
    (c : list FoodSubscription.t) :
  In s c -> In s' (replace_subscription s s' c).
Proof.
  intros Hin. unfold replace_subscription. apply in_map_iff.
  exists s. now rewrite N.eqb_refl.
Qed.

Lemma findOne_latest_map {A : Type} (created : A -> Z) (q : A -> bool)
    (f : A -> A) (c : list A) :
  (forall d, In d c -> q (f d) = q d /\ created (f d) = created d) ->
  findOne_latest created q (map f c)
  = option_map f (findOne_latest created q c).
Proof.
  induction c as [| x c IH]; intros Hf; [reflexivity |].
  cbn [map findOne_latest].
  destruct (Hf x (or_introl eq_refl)) as [Hq Hc]. rewrite Hq, Hc.
  rewrite IH by (intros d Hd; apply Hf; now right).
  destruct (q x); [| reflexivity].
  destruct (findOne_latest created q c) as [d' |] eqn:Hrest;
    cbn [option_map]; [| reflexivity].
  destruct (findOne_latest_Some created q c d' Hrest) as (Hin & _).
  destruct (Hf d' (or_intror Hin)) as [_ Hc']. rewrite Hc'.
  now destruct (created x <? created d').
Qed.

Lemma recurring_query_same (n : Notification) (s s' : FoodSubscription.t) :
  FoodSubscription.payhereRecurringToken s'
  = FoodSubscription.payhereRecurringToken s ->
  FoodSubscription.userEmail s' = FoodSubscription.userEmail s ->
  FoodSubscription.autoRenew s' = FoodSubscription.autoRenew s ->
  recurring_query n s' = recurring_query n s.
Proof. unfold recurring_query. now intros -> -> ->. Qed.

(** The lookup still selects a subscription after it has been stored
    again, when what the lookup reads of it is as it was. *)
Lemma find_recurring_replace (n : Notification) (s s' : FoodSubscription.t)
    (c : list FoodSubscription.t) :
  NoDup (map FoodSubscription._id c) ->
  find_recurring n c = Some s ->
  FoodSubscription._id s' = FoodSubscription._id s ->
  FoodSubscription.createdAt s' = FoodSubscription.createdAt s ->
  recurring_query n s' = recurring_query n s ->
  find_recurring n (replace_subscription s s' c) = Some s'.
Proof.
  intros Hnd Hfind Hid Hcr Hq. unfold find_recurring in *.
  destruct (findOne_latest_Some _ _ _ _ Hfind) as (Hin & _).
  unfold replace_subscription. rewrite findOne_latest_map.
  - rewrite Hfind. cbn [option_map]. now rewrite N.eqb_refl.
  - intros d Hd.
    destruct (N.eqb_spec (FoodSubscription._id d) (FoodSubscription._id s))
      as [E | E]; [| now split].
    assert (d = s) as -> by now apply (NoDup_map_In_eq FoodSubscription._id c).
    now split.
Qed.

Section RecurringFailures.
Context `{Host}.
Import FoodSubscription.

(** the failing transition, for an amount that is a number *)
Lemma recurring_failure_step (now : Z) (n : Notification) (s : t) :
  numeric (payhere_amount n) = true ->
  let reached := maxRenewalAttempts s <=? renewalAttempts s + 1 in
  exists s', recurring_failure now n s = Some s'
    /\ renewalAttempts s' = renewalAttempts s + 1
    /\ maxRenewalAttempts s' = maxRenewalAttempts s
    /\ status s' = (if reached then Status.cancelled
                    else Status.pending_renewal)
    /\ autoRenew s' = (if reached then false else autoRenew s)
    /\ (exists r, renewalHistory s' = renewalHistory s ++ [r]
                  /\ is_failed r
                  /\ attempt r = renewalAttempts s + 1)
    /\ _id s' = _id s
    /\ createdAt s' = createdAt s
    /\ userEmail s' = userEmail s
    /\ payhereRecurringToken s' = payhereRecurringToken s.
Proof.
  intros Hnum reached. subst reached. unfold recurring_failure.
  rewrite (cast_number_numeric _ Hnum).
  eexists. split; [reflexivity |].
  destruct s as [].
  cbn -[JS.parseFloat_opt String.append JS.template Z.add Z.leb].
  match goal with
  | |- context [?a <=? ?b] => destruct (a <=? b)
  end; cbn -[JS.parseFloat_opt String.append JS.template Z.add Z.leb];
    repeat split; eexists; repeat split.
Qed.

Lemma recurring_failure_rejected (now : Z) (n : Notification) (s : t) :
  numeric (payhere_amount n) = false -> recurring_failure now n s = None.
Proof.
  intros Hnum. unfold recurring_failure.
  now rewrite (cast_number_not_numeric _ Hnum).
Qed.

(** The handler applies the failing transition to the subscription its
    lookup selects, stores it, and appends a [failed] entry to the log. *)
Lemma handleRecurringFoodPayment_failure (now : Z) (n : Notification)
    (st : State) (s s1 : t) :
  find_recurring n (subscriptions st) = Some s ->
  opt_eqb (status_code n) (Some "2") = false ->
  recurring_failure now n s = Some s1 ->
  exists entry,
    handleRecurringFoodPayment now n st
    = {| orders := orders st;
         subscriptions := save_subscription now s1 (subscriptions st);
         logs := logs st ++ [entry];
         nextId := nextId st |}
    /\ action entry = Action.failed
    /\ subscriptionId entry = _id s1.
Proof.
  intros Hfind Hcode Hs1. unfold handleRecurringFoodPayment.
  rewrite Hfind, Hcode, Hs1.
  cbn [subscriptions orders logs nextId with_subscriptions create_log].
  eexists. split; [reflexivity |]. now split.
Qed.

(** one failed recurring payment, on the stored subscription *)
Lemma recurring_failure_handled (now : Z) (n : Notification)
    (st : State) (s : t) :
  find_recurring n (subscriptions st) = Some s ->
  status_code n <> Some "2" ->
  numeric (payhere_amount n) = true ->
  let reached := maxRenewalAttempts s <=? renewalAttempts s + 1 in
  exists s' entry,
    handleRecurringFoodPayment now n st
    = {| orders := orders st;
         subscriptions := replace_subscription s s' (subscriptions st);
         logs := logs st ++ [entry];
         nextId := nextId st |}
    /\ action entry = Action.failed
    /\ subscriptionId entry = _id s
    /\ renewalAttempts s' = renewalAttempts s + 1
    /\ maxRenewalAttempts s' = maxRenewalAttempts s
    /\ status s' = (if reached then Status.cancelled
                    else Status.pending_renewal)
    /\ autoRenew s' = (if reached then false else autoRenew s)
    /\ (exists r, renewalHistory s' = renewalHistory s ++ [r]
                  /\ is_failed r)
    /\ _id s' = _id s
    /\ createdAt s' = createdAt s
    /\ userEmail s' = userEmail s
    /\ payhereRecurringToken s' = payhereRecurringToken s.
Proof.
  intros Hfind Hcode Hnum reached. subst reached.
  destruct (recurring_failure_step now n s Hnum)
    as (s1 & Hs1 & Ha & Hm & Hst & Hauto & (r & Hr & Hf & _)
        & Hid & Hcr & Hmail & Htok).
  destruct (handleRecurringFoodPayment_failure now n st s s1 Hfind
              (opt_eqb_Some_false _ _ Hcode) Hs1) as (entry & Hst' & Hact & Hsub).
  destruct (set_updatedAt_keeps now s1)
    as (Kid & Kmail & Kst & Ktok & Kauto & Ka & Km & _ & _ & _ & Kh & Kcr).
  exists (set_updatedAt now s1), entry.
  rewrite Hst', (save_subscription_replaces now s s1 _ Hid).
  split; [reflexivity |]. split; [exact Hact |]. split; [congruence |].
  split; [congruence |]. split; [congruence |]. split; [congruence |].
  split; [congruence |].
  split; [exists r; split; [congruence | exact Hf] |].
  repeat split; congruence.
Qed.

(** consecutive failed recurring payments on a stored subscription, up to
    the threshold *)
Lemma recurring_failures_handled (events : list (Z * Notification)) :
  forall (st : State) (s : t),
    NoDup (map _id (subscriptions st)) ->
    In s (subscriptions st) ->
    Forall (fun e => find_recurring (snd e) (subscriptions st) = Some s
                     /\ status_code (snd e) <> Some "2"
                     /\ numeric (payhere_amount (snd e)) = true) events ->
    renewalAttempts s + Z.of_nat (List.length events)
    <= maxRenewalAttempts s ->
    exists s' added entries,
      recurring_payments events st
      = {| orders := orders st;
           subscriptions := replace_subscription s s' (subscriptions st);
           logs := logs st ++ entries;
           nextId := nextId st |}
      /\ (events = [] -> s' = s)
      /\ renewalAttempts s'
         = renewalAttempts s + Z.of_nat (List.length events)
      /\ maxRenewalAttempts s' = maxRenewalAttempts s
      /\ renewalHistory s' = renewalHistory s ++ added
      /\ List.length added = List.length events
      /\ Forall is_failed added
      /\ List.length entries = List.length events
      /\ Forall (fun entry => action entry = Action.failed
                              /\ subscriptionId entry = _id s) entries
      /\ (events <> [] ->
          status s' = (if maxRenewalAttempts s' <=? renewalAttempts s'
                       then Status.cancelled else Status.pending_renewal))
      /\ (events <> [] -> maxRenewalAttempts s' <= renewalAttempts s' ->
          autoRenew s' = false)
      /\ (renewalAttempts s' < maxRenewalAttempts s' ->
          autoRenew s' = autoRenew s)
      /\ _id s' = _id s.
Proof.
  induction events as [| [now n] events IH]; intros st s Hnd Hin Hev Hlen.
  - exists s, [], [].
    cbn [recurring_payments fold_left List.length Z.of_nat].
    rewrite replace_subscription_self, !app_nil_r by assumption.
    split; [now destruct st |].
    repeat split; try reflexivity; try lia; try constructor; congruence.
  - inversion Hev as [| ? ? (Hfind & Hcode & Hnum) Hrest]; subst.
    cbn [fst snd] in *.
    destruct (recurring_failure_handled now n st s Hfind Hcode Hnum)
      as (s1 & entry & Hst1 & Hact & Hsub & Ha & Hm & Hstat & Hauto
          & (r & Hr & Hf) & Hid & Hcr & Hmail & Htok).
    cbn [List.length] in Hlen.
    set (st1 := handleRecurringFoodPayment now n st) in *.
    assert (Hsubs1 : subscriptions st1
                     = replace_subscription s s1 (subscriptions st))
      by now rewrite Hst1.
    assert (Hlogs1 : logs st1 = logs st ++ [entry]) by now rewrite Hst1.
    assert (Hord1 : orders st1 = orders st) by now rewrite Hst1.
    assert (Hnext1 : nextId st1 = nextId st) by now rewrite Hst1.
    assert (Hbelow : events <> [] ->
                     (maxRenewalAttempts s <=? renewalAttempts s + 1) = false).
    { intros Hne. apply Z.leb_gt. destruct events; [congruence |].
      cbn [List.length] in Hlen. lia. }
    destruct (IH st1 s1) as (s2 & added & entries & Hst2 & Hnil & Ha2 & Hm2
                             & Hh2 & Hla & Hfa & Hle & Hfe & Hstat2
                             & Hoff2 & Hkeep2 & Hid2).
    + now rewrite Hsubs1, replace_subscription_ids.
    + rewrite Hsubs1. now apply In_replace_subscription.
    + rewrite Hsubs1. apply Forall_forall. intros e He.
      rewrite Forall_forall in Hrest.
      destruct (Hrest e He) as (Hfe & Hce & Hne).
      assert (Hne' : events <> []) by (intros ->; contradiction).
      split; [| now split].
      apply find_recurring_replace; auto.
      apply recurring_query_same; auto.
      now rewrite Hauto, (Hbelow Hne').
    + lia.
    + exists s2, (r :: added), (entry :: entries).
      change (recurring_payments ((now, n) :: events) st)
        with (recurring_payments events st1).
      rewrite Hst2, Hsubs1, Hlogs1, Hord1, Hnext1,
        replace_subscription_twice, <- app_assoc by assumption.
      split; [reflexivity |]. split; [discriminate |].
      split; [cbn [List.length]; lia |]. split; [congruence |].
      split; [rewrite Hh2, Hr, <- app_assoc; reflexivity |].
      split; [cbn [List.length]; congruence |].
      split; [now constructor |].
      split; [cbn [List.length]; congruence |].
      split.
      { constructor; [split; congruence |].
        eapply Forall_impl; [| exact Hfe].
        intros e [He1 He2]. split; congruence. }
      destruct events as [| e events].
      * specialize (Hnil eq_refl). subst s2.
        split; [intros _; rewrite Hstat, Hm, Ha; reflexivity |].
        split.
        -- intros _ Hreach. rewrite Hauto.
           replace (maxRenewalAttempts s <=? renewalAttempts s + 1)
             with true by (symmetry; apply Z.leb_le; lia).
           reflexivity.
        -- split; [| exact Hid].
           intros Hlow. rewrite Hauto.
           replace (maxRenewalAttempts s <=? renewalAttempts s + 1)
             with false by (symmetry; apply Z.leb_gt; lia).
           reflexivity.
      * assert (Hne : e :: events <> []) by discriminate.
        split; [intros _; exact (Hstat2 Hne) |].
        split; [intros _; exact (Hoff2 Hne) |].
        split; [| congruence].
        intros Hlow. rewrite (Hkeep2 Hlow), Hauto, (Hbelow Hne).
        reflexivity.
Qed.

(** C5: the recurring handler, on a notification of a failed payment whose
    amount is a number and whose lookup selects the subscription [s],
    stores [s] with renewalAttempts one more and one failed entry appended
    to its history, and appends one failed entry to the log; when the new
    count reaches maxRenewalAttempts the status becomes cancelled and
    autoRenew false, otherwise the status becomes pending_renewal and
    autoRenew is left as it is.  From zero attempts, as many consecutive
    such notifications as maxRenewalAttempts (a positive number) leave the
    stored subscription cancelled with autoRenew false, one failed entry
    appended to the history and one to the log for each failure; fewer
    leave it in pending_renewal with autoRenew as it was.  When the amount
    is not a number the schema rejects the history entry, and the handler
    leaves the database and the log as they were. *)
Theorem recurring_failures_cancel_at_threshold :
  (forall (now : Z) (n : Notification) (st : State) (s : t),
      find_recurring n (subscriptions st) = Some s ->
      status_code n <> Some "2" ->
      numeric (payhere_amount n) = true ->
      let st' := handleRecurringFoodPayment now n st in
      exists s' entry,
        subscriptions st' = replace_subscription s s' (subscriptions st)
        /\ In s' (subscriptions st')
        /\ orders st' = orders st
        /\ logs st' = logs st ++ [entry]
        /\ action entry = Action.failed
        /\ subscriptionId entry = _id s
        /\ renewalAttempts s' = renewalAttempts s + 1
        /\ (maxRenewalAttempts s <= renewalAttempts s + 1 ->
            status s' = Status.cancelled /\ autoRenew s' = false)
        /\ (renewalAttempts s + 1 < maxRenewalAttempts s ->
            status s' = Status.pending_renewal
            /\ autoRenew s' = autoRenew s)
        /\ exists r, renewalHistory s' = renewalHistory s ++ [r]
                     /\ is_failed r)
  /\ (forall (events : list (Z * Notification)) (st : State) (s : t),
         NoDup (map _id (subscriptions st)) ->
         In s (subscriptions st) ->
         Forall (fun e => find_recurring (snd e) (subscriptions st) = Some s
                          /\ status_code (snd e) <> Some "2"
                          /\ numeric (payhere_amount (snd e)) = true)
                events ->
         renewalAttempts s = 0 ->
         0 < maxRenewalAttempts s ->
         Z.of_nat (List.length events) <= maxRenewalAttempts s ->
         let st' := recurring_payments events st in
         exists s' added entries,
           subscriptions st' = replace_subscription s s' (subscriptions st)
           /\ In s' (subscriptions st')
           /\ orders st' = orders st
           /\ renewalAttempts s' = Z.of_nat (List.length events)
           /\ renewalHistory s' = renewalHistory s ++ added
           /\ List.length added = List.length events
           /\ Forall is_failed added
           /\ logs st' = logs st ++ entries
           /\ List.length entries = List.length events
           /\ Forall (fun entry => action entry = Action.failed
                                   /\ subscriptionId entry = _id s) entries
           /\ (Z.of_nat (List.length events) = maxRenewalAttempts s ->
               status s' = Status.cancelled /\ autoRenew s' = false)
           /\ (0 < Z.of_nat (List.length events) ->
               Z.of_nat (List.length events) < maxRenewalAttempts s ->
               status s' = Status.pending_renewal
               /\ autoRenew s' = autoRenew s))
  /\ (forall (now : Z) (n : Notification) (st : State),
         status_code n <> Some "2" ->
         numeric (payhere_amount n) = false ->
         handleRecurringFoodPayment now n st = st).
Proof.
  split; [| split].
  - intros now n st s Hfind Hcode Hnum st'.
    destruct (recurring_failure_handled now n st s Hfind Hcode Hnum)
      as (s' & entry & Hst' & Hact & Hsub & Ha & Hm & Hstat & Hauto
          & Hr & _).
    destruct (findOne_latest_Some _ _ _ _ Hfind) as (Hin & _).
    subst st'. exists s', entry. rewrite Hst'.
    cbn [subscriptions orders logs].
    split; [reflexivity |].
    split; [now apply In_replace_subscription |].
    split; [reflexivity |]. split; [reflexivity |].
    split; [exact Hact |]. split; [exact Hsub |]. split; [exact Ha |].
    split; [| split; [| exact Hr]].
    + intros Hreach. apply Z.leb_le in Hreach.
      rewrite Hreach in Hstat, Hauto. now split.
    + intros Hbelow. apply Z.leb_gt in Hbelow.
      rewrite Hbelow in Hstat, Hauto. now split.
  - intros events st s Hnd Hin Hev Hzero Hpos Hlen st'.
    destruct (recurring_failures_handled events st s Hnd Hin Hev)
      as (s' & added & entries & Hst' & _ & Ha & Hm & Hh & Hla & Hfa
          & Hle & Hfe & Hstat & Hoff & Hkeep & _); [lia |].
    subst st'. exists s', added, entries. rewrite Hst'.
    cbn [subscriptions orders logs].
    split; [reflexivity |].
    split; [now apply In_replace_subscription |].
    split; [reflexivity |]. split; [lia |]. split; [exact Hh |].
    split; [exact Hla |]. split; [exact Hfa |]. split; [reflexivity |].
    split; [exact Hle |]. split; [exact Hfe |]. split.
    + intros Hfull.
      assert (Hne : events <> []) by (intros ->; cbn in Hfull; lia).
      rewrite (Hstat Hne), (Hoff Hne) by lia.
      replace (maxRenewalAttempts s' <=? renewalAttempts s')
        with true by (symmetry; apply Z.leb_le; lia).
      now split.
    + intros Hlo Hhi.
      assert (Hne : events <> []) by (intros ->; cbn in Hlo; lia).
      rewrite (Hstat Hne), Hkeep by lia.
      replace (maxRenewalAttempts s' <=? renewalAttempts s')
        with false by (symmetry; apply Z.leb_gt; lia).
      now split.
  - intros now n st Hcode Hnum. unfold handleRecurringFoodPayment.
    destruct (find_recurring n (subscriptions st)) as [s |]; [| reflexivity].
    now rewrite (opt_eqb_Some_false _ _ Hcode),
      (recurring_failure_rejected now n s Hnum).
Qed.

End RecurringFailures.

Lemma recurring_failures_cancel_at_threshold_witness :
  let s := sample_subscription 1 "nimal@example.com" "FOOD_RECURRING_1"
             (Some "TOKEN_A") Status.active true
             1700000000000 1702592000000 in
  let other := sample_subscription 2 "sunil@example.com" "FOOD_RECURRING_2"
                 (Some "TOKEN_B") Status.active true
                 1700000000000 1702592000000 in
  let declined := notification "FOOD_RECURRING_1" "-2" "" None None None
                    (Some "nimal@example.com") (Some "TOKEN_A")
                    (Some "TOKEN_A") (Some "SUBSCRIPTION_PAYMENT") in
  let events := [(1702592000000, declined); (1702678400000, declined);
                 (1702764800000, declined)] in
  let st := with_subscriptions [s; other] empty_state in
  exists s',
    subscriptions (recurring_payments events st) = [s'; other]
    /\ FoodSubscription.renewalAttempts s' = 3
    /\ FoodSubscription.status s' = Status.cancelled
    /\ FoodSubscription.autoRenew s' = false
    /\ List.length (FoodSubscription.renewalHistory s') = 3%nat
    /\ List.length (logs (recurring_payments events st)) = 3%nat.
Proof.
  intros s other declined events st.
  assert (Hnd : NoDup (map FoodSubscription._id (subscriptions st))).
  { repeat constructor; cbn; intuition discriminate. }
  assert (Hin : In s (subscriptions st)) by now left.
  assert (Hev : Forall (fun e =>
                  find_recurring (snd e) (subscriptions st) = Some s
                  /\ status_code (snd e) <> Some "2"
                  /\ numeric (payhere_amount (snd e)) = true) events).
  { repeat constructor; try (vm_compute; reflexivity); discriminate. }
  destruct (proj1 (proj2 recurring_failures_cancel_at_threshold)
              events st s Hnd Hin Hev eq_refl eq_refl)
    as (s' & added & entries & Hsubs & _ & _ & Ha & Hh & Hla & _
        & Hlogs & Hle & _ & Hfull & _); [vm_compute; discriminate |].
  exists s'. destruct (Hfull eq_refl) as [Hstat Hauto].
  split; [exact Hsubs |]. split; [exact Ha |]. split; [exact Hstat |].
  split; [exact Hauto |].
  split; [rewrite Hh, length_app, Hla; reflexivity |].
  rewrite Hlogs, length_app, Hle. reflexivity.
Defined.

(** Three declined payments on a subscription, through the handler: the
    subscription is found each time, and is cancelled by the third.  A
    declined payment whose amount is not a number changes nothing. *)
Example three_recurring_failures :
  let s := sample_subscription 1 "nimal@example.com" "FOOD_RECURRING_1"
             (Some "TOKEN_A") Status.active true
             1700000000000 1702592000000 in
  let declined := notification "FOOD_RECURRING_1" "-2" "" None None None
                    (Some "nimal@example.com") (Some "TOKEN_A")
                    (Some "TOKEN_A") (Some "SUBSCRIPTION_PAYMENT") in
  let st := with_subscriptions [s] empty_state in
  let run := fold_left (fun st now => handleRecurringFoodPayment now declined st)
                       [1702592000000; 1702678400000; 1702764800000] st in
  (map (fun d => (FoodSubscription.status d, FoodSubscription.renewalAttempts d,
                  FoodSubscription.autoRenew d,
                  map renewal_status (FoodSubscription.renewalHistory d)))
       (subscriptions run)
   = [(Status.cancelled, 3, false,
       [RenewalStatus.failed; RenewalStatus.failed; RenewalStatus.failed])]
   /\ map action (logs run) = [Action.failed; Action.failed; Action.failed])
  /\ handleRecurringFoodPayment 1702592000000
       (set_payhere_amount (Some "LKR 2500") declined) st = st.
Proof. split; [split |]; vm_compute; reflexivity. Qed.
(** ** The calendar *)

(** the year and the day of the year of a day of an era of 400 years *)
Lemma civil_from_days_bounds (doe : Z) :
  0 <= doe < 146097 ->
  let yoe := (doe - doe / 1460 + doe / 36524 - doe / 146096) / 365 in
  let doy := doe - (365 * yoe + yoe / 4 - yoe / 100) in
  0 <= yoe <= 399 /\ 0 <= doy <= 365.
Proof.
  intros Hd yoe doy. subst yoe doy.
  Z.to_euclidean_division_equations; lia.
Qed.

(** the day number of a year, a month and a day of the month is the one
    they were read from *)
Lemma days_from_civil_from_days (z : Z) :
  let '(y, m, d) := JSDate.civil_from_days z in
  0 <= m <= 11 /\ JSDate.days_from_civil y m + d - 1 = z.
Proof.
  unfold JSDate.civil_from_days. cbv zeta.
  set (era := (z + 719468) / 146097).
  set (doe := z + 719468 - era * 146097).
  assert (Hdoe : 0 <= doe < 146097).
  { subst doe era. Z.to_euclidean_division_equations; lia. }
  destruct (civil_from_days_bounds doe Hdoe) as [Hyoe Hdoy].
  cbv zeta in Hyoe, Hdoy.
  set (yoe := (doe - doe / 1460 + doe / 36524 - doe / 146096) / 365) in *.
  set (doy := doe - (365 * yoe + yoe / 4 - yoe / 100)) in *.
  set (mp := (5 * doy + 2) / 153).
  assert (Hmp : 0 <= mp <= 11).
  { subst mp. Z.to_euclidean_division_equations; lia. }
  unfold JSDate.days_from_civil.
  destruct (Z.ltb_spec mp 10) as [Hlt | Hge].
  - destruct (Z.leb_spec (mp + 2) 1) as [| _]; [lia |].
    destruct (Z.ltb_spec 1 (mp + 2)) as [_ |]; [| lia].
    split; [lia |]. cbv zeta.
    replace (yoe + era * 400 + 0 - 0) with (yoe + era * 400) by lia.
    replace ((yoe + era * 400) / 400) with era
      by (Z.to_euclidean_division_equations; lia).
    replace (mp + 2 - 2) with mp by lia.
    replace (yoe + era * 400 - era * 400) with yoe by lia.
    subst doy doe. lia.
  - destruct (Z.leb_spec (mp - 10) 1) as [_ |]; [| lia].
    destruct (Z.ltb_spec 1 (mp - 10)) as [| _]; [lia |].
    split; [lia |]. cbv zeta.
    replace (yoe + era * 400 + 1 - 1) with (yoe + era * 400) by lia.
    replace ((yoe + era * 400) / 400) with era
      by (Z.to_euclidean_division_equations; lia).
    replace (mp - 10 + 10) with mp by lia.
    replace (yoe + era * 400 - era * 400) with yoe by lia.
    subst doy doe. lia.
Qed.

(** the first day of the following month is as many days later as the
    month has *)
Lemma days_from_civil_next_month (y m : Z) :
  0 <= m <= 11 ->
  JSDate.days_from_civil (y + (m + 1) / 12) ((m + 1) mod 12)
  = JSDate.days_from_civil y m + month_length y m.
Proof.
  intros Hm.
  assert (Hcases : m = 0 \/ m = 1 \/ m = 2 \/ m = 3 \/ m = 4 \/ m = 5
                   \/ m = 6 \/ m = 7 \/ m = 8 \/ m = 9 \/ m = 10 \/ m = 11)
    by lia.
  unfold JSDate.days_from_civil, month_length, leap_year.
  repeat (destruct Hcases as [-> | Hcases]); try subst m;
    cbn [Z.add Z.div Z.modulo Z.leb Z.ltb Z.compare Z.mul Z.sub Z.opp
         Z.div_eucl Z.pos_div_eucl Pos.add Pos.mul Pos.compare Z.pos_sub
         Pos.compare_cont Pos.succ Z.succ_double Z.pred_double Z.double
         Pos.pred_double Pos.add_carry Z.eqb Z.geb negb fst snd];
    cbv zeta.
  all: try (Z.to_euclidean_division_equations; lia).
  destruct (Z.eqb_spec (y mod 4) 0), (Z.eqb_spec (y mod 100) 0),
    (Z.eqb_spec (y mod 400) 0); cbn [andb orb negb];
    Z.to_euclidean_division_equations; lia.
Qed.

Section NextMonth.
Context `{Host}.

(** [setMonth(getMonth() + 1)] moves a date one month on *)
Lemma setMonth_next_month (t : Z) :
  JSDate.setMonth t (JSDate.getMonth t + 1) = one_month_after t.
Proof.
  unfold JSDate.setMonth, JSDate.getMonth, one_month_after.
  set (lt := JSDate.LocalTime t). f_equal.
  unfold JSDate.MakeDate, JSDate.MakeDay, JSDate.TimeWithinDay,
    JSDate.YearFromTime, JSDate.MonthFromTime, JSDate.DateFromTime.
  pose proof (days_from_civil_from_days (JSDate.Day lt)) as Hday.
  destruct (JSDate.civil_from_days (JSDate.Day lt)) as [[y m] d].
  cbn [fst snd]. destruct Hday as [Hm Hday].
  rewrite (days_from_civil_next_month y m Hm).
  unfold JSDate.Day, JSDate.msPerDay in *.
  Z.to_euclidean_division_equations; lia.
Qed.

(** on a host whose offset from UTC is fixed, one month after [t] is as
    many days after [t] as its month has *)
Lemma one_month_after_fixed_offset (offset t : Z) :
  (forall u b, LocalTZA u b = offset) ->
  one_month_after t
  = t + JSDate.msPerDay * month_length (JSDate.YearFromTime (t + offset))
                                       (JSDate.MonthFromTime (t + offset)).
Proof.
  intros Hfix. unfold one_month_after, JSDate.UTC, JSDate.LocalTime.
  rewrite !Hfix. lia.
Qed.

End NextMonth.

(** on a host without daylight saving, one month after a date is as many
    days after it as the month of the date has: 31 days after the
    31 January, the 15 January and the 31 December, 29 days after the
    15 February 2024 *)
Example one_month_after_values :
  map one_month_after
      [1706695200000; 1705312800000; 1703980800000; 1707991200000]
  = [1706695200000 + 31 * 86400000; 1705312800000 + 31 * 86400000;
     1703980800000 + 31 * 86400000; 1707991200000 + 29 * 86400000].
Proof. vm_compute. reflexivity. Qed.

(** ** Renewal state machine: successful recurring payments *)

Section RecurringSuccess.
Context `{Host}.
Import FoodSubscription.

Lemma date_or_readable (v : option string) (otherwise : Z) :
  readable v = true ->
  exists d, date_or v otherwise = Some d.
Proof.
  unfold readable, date_or. destruct v as [[| c r] |]; eauto.
  destruct (Date_parse (String c r)); [eauto | discriminate].
Qed.

Lemma date_or_not_readable (v : option string) (otherwise : Z) :
  readable v = false -> date_or v otherwise = None.
Proof.
  unfold readable, date_or. destruct v as [[| c r] |]; try discriminate.
  now destruct (Date_parse (String c r)).
Qed.

(** the successful transition, for a next occurrence date that is absent
    or read and an amount that is a number *)
Lemma recurring_success_step (now : Z) (n : Notification) (s : t) :
  readable (next_occurrence_date n) = true ->
  numeric (payhere_amount n) = true ->
  let newEndDate := JSDate.setMonth (endDate s)
                                    (JSDate.getMonth (endDate s) + 1) in
  exists s', recurring_success now n s = Some s'
    /\ endDate s' = newEndDate
    /\ nextBillingDate s' = date_or (next_occurrence_date n) newEndDate
    /\ nextBillingDate s' <> None
    /\ renewalAttempts s' = 0
    /\ paymentFailure s' = false
    /\ status s' = Status.active
    /\ (exists r, renewalHistory s' = renewalHistory s ++ [r]
                  /\ renewal_status r = RenewalStatus.success
                  /\ attempt r = 1)
    /\ _id s' = _id s.
Proof.
  intros Hdate Hnum newEndDate.
  destruct (date_or_readable _ newEndDate Hdate) as [d Hd].
  unfold recurring_success. fold newEndDate.
  rewrite Hd, (cast_number_numeric _ Hnum).
  eexists. split; [reflexivity |].
  destruct s as [].
  cbn -[JS.parseFloat_opt JSDate.setMonth JSDate.getMonth Z.add].
  repeat split; try discriminate. eexists. now repeat split.
Qed.

Lemma recurring_success_rejected (now : Z) (n : Notification) (s : t) :
  readable (next_occurrence_date n) = false
  \/ numeric (payhere_amount n) = false ->
  recurring_success now n s = None.
Proof.
  intros [Hdate | Hnum]; unfold recurring_success.
  - now rewrite (date_or_not_readable _ _ Hdate).
  - rewrite (cast_number_not_numeric _ Hnum).
    now destruct (date_or _ _).
Qed.

(** The handler applies the successful transition to the subscription its
    lookup selects, stores it, and appends a [renewed] entry to the log. *)
Lemma handleRecurringFoodPayment_success (now : Z) (n : Notification)
    (st : State) (s s1 : t) :
  find_recurring n (subscriptions st) = Some s ->
  opt_eqb (status_code n) (Some "2") = true ->
  recurring_success now n s = Some s1 ->
  exists entry,
    handleRecurringFoodPayment now n st
    = {| orders := orders st;
         subscriptions := save_subscription now s1 (subscriptions st);
         logs := logs st ++ [entry];
         nextId := nextId st |}
    /\ action entry = Action.renewed
    /\ subscriptionId entry = _id s1.
Proof.
  intros Hfind Hcode Hs1. unfold handleRecurringFoodPayment.
  rewrite Hfind, Hcode, Hs1.
  cbn [subscriptions orders logs nextId with_subscriptions create_log].
  eexists. split; [reflexivity |]. now split.
Qed.

(** one successful recurring payment, on the stored subscription *)
Lemma recurring_success_handled (now : Z) (n : Notification)
    (st : State) (s : t) :
  find_recurring n (subscriptions st) = Some s ->
  status_code n = Some "2" ->
  readable (next_occurrence_date n) = true ->
  numeric (payhere_amount n) = true ->
  let newEndDate := JSDate.setMonth (endDate s)
                                    (JSDate.getMonth (endDate s) + 1) in
  exists s' entry,
    handleRecurringFoodPayment now n st
    = {| orders := orders st;
         subscriptions := replace_subscription s s' (subscriptions st);
         logs := logs st ++ [entry];
         nextId := nextId st |}
    /\ action entry = Action.renewed
    /\ subscriptionId entry = _id s
    /\ endDate s' = newEndDate
    /\ nextBillingDate s' = date_or (next_occurrence_date n) newEndDate
    /\ nextBillingDate s' <> None
    /\ renewalAttempts s' = 0
    /\ paymentFailure s' = false
    /\ status s' = Status.active
    /\ (exists r, renewalHistory s' = renewalHistory s ++ [r]
                  /\ renewal_status r = RenewalStatus.success
                  /\ attempt r = 1)
    /\ _id s' = _id s.
Proof.
  intros Hfind Hcode Hdate Hnum newEndDate.
  destruct (recurring_success_step now n s Hdate Hnum)
    as (s1 & Hs1 & He & Hnb & Hnn & Ha & Hf & Hst & (r & Hr & Hrs & Hra)
        & Hid).
  fold newEndDate in He, Hnb.
  assert (Hcode' : opt_eqb (status_code n) (Some "2") = true)
    by (rewrite Hcode; reflexivity).
  destruct (handleRecurringFoodPayment_success now n st s s1 Hfind Hcode' Hs1)
    as (entry & Hst' & Hact & Hsub).
  destruct (set_updatedAt_keeps now s1)
    as (Kid & _ & Kst & _ & _ & Ka & _ & Kf & Ke & Knb & Kh & _).
  exists (set_updatedAt now s1), entry.
  rewrite Hst', (save_subscription_replaces now s s1 _ Hid).
  split; [reflexivity |]. split; [exact Hact |]. split; [congruence |].
  split; [congruence |]. split; [congruence |]. split; [congruence |].
  split; [congruence |]. split; [congruence |]. split; [congruence |].
  split; [exists r; repeat split; congruence |].
  congruence.
Qed.

(** C6: the recurring handler, on a notification of a successful payment
    whose amount is a number, whose next occurrence date is absent or one
    that the host reads, and whose lookup selects the subscription [s],
    stores [s] with its end date moved one month on by [setMonth], that
    is one month after the end date it had on the calendar of the host,
    whatever the time at which the notification is processed; the next
    billing date is the next occurrence date of the notification when it
    has one, and the new end date otherwise; renewalAttempts becomes 0,
    the failure flag false and the status active, one success entry is
    appended to the history and one [renewed] entry to the log.  When the
    amount is not a number or the next occurrence date is not read, the
    schema rejects the subscription, and the handler leaves the database
    and the log as they were. *)
Theorem recurring_success_advances_end_date :
  (forall (now : Z) (n : Notification) (st : State) (s : t),
      find_recurring n (subscriptions st) = Some s ->
      status_code n = Some "2" ->
      readable (next_occurrence_date n) = true ->
      numeric (payhere_amount n) = true ->
      let st' := handleRecurringFoodPayment now n st in
      let newEndDate := JSDate.setMonth (endDate s)
                                        (JSDate.getMonth (endDate s) + 1) in
      exists s' entry,
        subscriptions st' = replace_subscription s s' (subscriptions st)
        /\ In s' (subscriptions st')
        /\ orders st' = orders st
        /\ logs st' = logs st ++ [entry]
        /\ action entry = Action.renewed
        /\ subscriptionId entry = _id s
        /\ endDate s' = newEndDate
        /\ newEndDate = one_month_after (endDate s)
        /\ nextBillingDate s'
           = match next_occurrence_date n with
             | Some (String _ _ as d) => Date_parse d
             | _ => Some newEndDate
             end
        /\ nextBillingDate s' <> None
        /\ renewalAttempts s' = 0
        /\ paymentFailure s' = false
        /\ status s' = Status.active
        /\ (exists r, renewalHistory s' = renewalHistory s ++ [r]
                      /\ renewal_status r = RenewalStatus.success
                      /\ attempt r = 1)
        /\ forall later : Z,
             exists s'',
               subscriptions (handleRecurringFoodPayment later n st)
               = replace_subscription s s'' (subscriptions st)
               /\ endDate s'' = endDate s'
               /\ nextBillingDate s'' = nextBillingDate s'
               /\ renewalAttempts s'' = renewalAttempts s'
               /\ paymentFailure s'' = paymentFailure s'
               /\ status s'' = status s')
  /\ (forall (now : Z) (n : Notification) (st : State),
         status_code n = Some "2" ->
         readable (next_occurrence_date n) = false
         \/ numeric (payhere_amount n) = false ->
         handleRecurringFoodPayment now n st = st).
Proof.
  split.
  - intros now n st s Hfind Hcode Hdate Hnum st' newEndDate.
    destruct (recurring_success_handled now n st s Hfind Hcode Hdate Hnum)
      as (s' & entry & Hst' & Hact & Hsub & He & Hnb & Hnn & Ha & Hf & Hs
          & Hr & _).
    fold newEndDate in He, Hnb.
    destruct (findOne_latest_Some _ _ _ _ Hfind) as (Hin & _).
    subst st'. exists s', entry. rewrite Hst'.
    cbn [subscriptions orders logs].
    split; [reflexivity |].
    split; [now apply In_replace_subscription |].
    split; [reflexivity |]. split; [reflexivity |].
    split; [exact Hact |]. split; [exact Hsub |]. split; [exact He |].
    split; [apply setMonth_next_month |].
    split; [exact Hnb |]. split; [exact Hnn |]. split; [exact Ha |].
    split; [exact Hf |]. split; [exact Hs |]. split; [exact Hr |].
    intros later.
    destruct (recurring_success_handled later n st s Hfind Hcode Hdate Hnum)
      as (s'' & entry' & Hst'' & _ & _ & He' & Hnb' & _ & Ha' & Hf' & Hs'
          & _).
    fold newEndDate in He', Hnb'.
    exists s''. rewrite Hst''. cbn [subscriptions].
    repeat split; congruence.
  - intros now n st Hcode Hbad. unfold handleRecurringFoodPayment.
    destruct (find_recurring n (subscriptions st)) as [s |]; [| reflexivity].
    rewrite Hcode. change (opt_eqb (Some "2") (Some "2")) with true.
    now rewrite (recurring_success_rejected now n s Hbad).
Qed.

End RecurringSuccess.

Lemma recurring_success_advances_end_date_witness :
  let s := sample_subscription 1 "nimal@example.com" "FOOD_RECURRING_1"
             (Some "TOKEN_A") Status.active true
             1700000000000 1702592000000 in
  let n := notification "FOOD_RECURRING_1" "2" "" (Some "320027150501")
             None None (Some "nimal@example.com") (Some "TOKEN_A")
             (Some "TOKEN_A") (Some "SUBSCRIPTION_PAYMENT") in
  let st := with_subscriptions [s] empty_state in
  let now := 1703000000000 in
  exists s',
    subscriptions (handleRecurringFoodPayment now n st) = [s']
    /\ FoodSubscription.endDate s' = 1702592000000 + 31 * 86400000
    /\ FoodSubscription.nextBillingDate s'
       = Some (1702592000000 + 31 * 86400000)
    /\ FoodSubscription.renewalAttempts s' = 0
    /\ FoodSubscription.status s' = Status.active.
Proof.
  intros s n st now.
  assert (Hfind : find_recurring n (subscriptions st) = Some s)
    by (vm_compute; reflexivity).
  destruct (proj1 recurring_success_advances_end_date now n st s Hfind
              eq_refl eq_refl eq_refl)
    as (s' & entry & Hsubs & _ & _ & _ & _ & _ & Hend & Hmonth & Hnext & _
        & Ha & _ & Hs & _).
  exists s'. split; [exact Hsubs |].
  split; [rewrite Hend, Hmonth; vm_compute; reflexivity |].
  split; [rewrite Hnext, Hmonth; vm_compute; reflexivity |].
  split; [exact Ha | exact Hs].
Defined.

(** The end date 14 December 2023 22:13:20 UTC becomes 14 January 2024
    22:13:20 UTC, be the notification processed five days or forty days
    after it.  A notification whose next occurrence date is not a date, or
    whose amount is not a number, changes nothing. *)
Example recurring_success_late_delivery :
  let s := sample_subscription 1 "nimal@example.com" "FOOD_RECURRING_1"
             (Some "TOKEN_A") Status.active true
             1700000000000 1702592000000 in
  let n := notification "FOOD_RECURRING_1" "2" "" (Some "320027150501")
             None None (Some "nimal@example.com") (Some "TOKEN_A")
             (Some "TOKEN_A") (Some "SUBSCRIPTION_PAYMENT") in
  let st := with_subscriptions [s] empty_state in
  (map FoodSubscription.endDate
       (subscriptions (handleRecurringFoodPayment 1703024000000 n st))
   = [1705270400000]
   /\ map FoodSubscription.endDate
          (subscriptions (handleRecurringFoodPayment 1706048000000 n st))
      = [1705270400000])
  /\ handleRecurringFoodPayment 1703024000000
       (set_next_occurrence_date (Some "next month") n) st = st
  /\ handleRecurringFoodPayment 1703024000000
       (set_payhere_amount (Some "LKR 2500") n) st = st
  /\ map FoodSubscription.nextBillingDate
         (subscriptions
            (handleRecurringFoodPayment 1703024000000
               (set_next_occurrence_date (Some "2024-01-15") n) st))
     = [Some 1705276800000].
Proof. repeat split; vm_compute; reflexivity. Qed.
(** ** The invariant on the renewal attempts *)

(** C8 at the failing input.  The first payment of a subscription is
    notified (the subscription is created, active, with no failed
    attempt); the gateway then notifies three declined payments for the
    same order (the third one cancels the subscription and turns
    auto-renewal off, the counter being at the threshold 3); the
    notification of the first payment is then delivered again.  The
    subscription is active again, with auto-renewal, and its counter
    still at 3: the initial-payment handler sets the status of an
    existing subscription to active without resetting renewalAttempts,
    which the recurring success and the reactivation both do. *)
Theorem active_with_exhausted_attempts_reached :
  let order := "FOOD_RECURRING_1700000000000_42" in
  let paid := notification order "2" "5D80AE751BC94EF26AADB32531F89D13"
                (Some "320027150501") (Some "plan_food_premium")
                (Some "food_monthly_recurring") (Some "nimal@example.com")
                (Some "TOKEN_A") None None in
  let declined := notification order "-2" "565BF7B255C870297A63E3AB1C6F2CEA"
                    None (Some "plan_food_premium")
                    (Some "food_monthly_recurring")
                    (Some "nimal@example.com") None None None in
  let first := [(1700000000000, paid)] in
  let failures := [(1700000060000, declined); (1700000120000, declined);
                   (1700000180000, declined)] in
  let again := [(1700000240000, paid)] in
  renewal_view (deliver sample_config first empty_state)
  = [(Status.active, 0, 3, true)]
  /\ renewal_view (deliver sample_config (first ++ failures) empty_state)
     = [(Status.cancelled, 3, 3, false)]
  /\ renewal_view (deliver sample_config (first ++ failures ++ again)
                           empty_state)
     = [(Status.active, 3, 3, true)].
Proof. repeat split; vm_compute; reflexivity. Qed.

(** Both failure transitions respect the threshold: once the counter has
    reached it, the status is cancelled and auto-renewal is off, and
    below it the status is pending_renewal, or payment_failed. *)
Lemma failures_respect_threshold (now : Z) (n : Notification)
    (s : FoodSubscription.t) :
  (forall s', recurring_failure now n s = Some s'
              \/ s' = failed_payment now n s ->
      FoodSubscription.renewalAttempts s'
      = FoodSubscription.renewalAttempts s + 1
      /\ FoodSubscription.maxRenewalAttempts s'
         = FoodSubscription.maxRenewalAttempts s
      /\ (FoodSubscription.maxRenewalAttempts s'
          <= FoodSubscription.renewalAttempts s' ->
          FoodSubscription.status s' = Status.cancelled
          /\ FoodSubscription.autoRenew s' = false)
      /\ (FoodSubscription.renewalAttempts s'
          < FoodSubscription.maxRenewalAttempts s' ->
          FoodSubscription.status s' = Status.pending_renewal
          \/ FoodSubscription.status s' = Status.payment_failed)).
Proof.
  intros s' [Hs' | ->].
  - unfold recurring_failure in Hs'.
    destruct (cast_number (JS.parseFloat_opt (payhere_amount n)));
      [| discriminate].
    injection Hs' as <-. destruct s as [].
    cbn -[JS.parseFloat_opt String.append JS.template Z.add Z.leb].
    match goal with
    | |- context [?a <=? ?b] => destruct (Z.leb_spec a b)
    end;
    cbn -[JS.parseFloat_opt String.append JS.template Z.add Z.leb];
    repeat split; intros; try lia; auto.
  - destruct s as []. unfold failed_payment.
    cbn -[JS.parseFloat_opt String.append JS.template Z.add Z.leb].
    match goal with
    | |- context [?a <=? ?b] => destruct (Z.leb_spec a b)
    end;
    cbn -[JS.parseFloat_opt String.append JS.template Z.add Z.leb];
    repeat split; intros; try lia; auto.
Qed.

(** The initial-payment handler, on a subscription that exists, leaves
    the counter as it is while it sets the status to active. *)
Lemma initial_payment_keeps_attempts `{Host} (now : Z) (n : Notification)
    (st : State) (s : FoodSubscription.t) :
  subscriptions st = [s] ->
  opt_eqb (FoodSubscription.payhereOrderId s) (order_id n) = true ->
  custom_2 n = Some "food_monthly_recurring" ->
  JS.truthy (recurring_token n) = true ->
  readable (next_occurrence_date n) = true ->
  renewal_view (handleInitialFoodPaymentWithRecurring now n st)
  = [(Status.active, FoodSubscription.renewalAttempts s,
      FoodSubscription.maxRenewalAttempts s, true)].
Proof.
  intros Hsubs Hq Hc Ht Hdate.
  unfold handleInitialFoodPaymentWithRecurring.
  rewrite Hsubs, Hc, Ht. unfold findOne. cbn [find]. rewrite Hq.
  change (opt_eqb (Some "food_monthly_recurring")
                  (Some "food_monthly_recurring")) with true.
  cbn [andb].
  destruct (date_or_readable _ (now + 30 * 24 * 60 * 60 * 1000) Hdate)
    as [d ->].
  unfold renewal_view, save_subscription.
  destruct s as []. cbn. rewrite N.eqb_refl. reflexivity.
Qed.
(** ** Notification endpoint: authenticity *)

(** X1: the notification endpoint answers 200 exactly when the six required
    members are present, the merchant id is the configured one (both
    trimmed) and the signature verifies; with any other answer (400 or 500)
    the database is left as it was. *)
Theorem notify_acknowledges_iff_authentic `{Host}
    (cfg : Config) (now : Z) (n : Notification) (st : State) :
  let r := payhere_notify cfg now n st in
  (http (snd r) = 200 <->
   exists mid secret,
     merchantId cfg = Some mid /\ merchantSecret cfg = Some secret
     /\ required_present n = true
     /\ JS.trim (JS.template (merchant_id n)) = JS.trim mid
     /\ verifyPayHereHash n secret = Some true)
  /\ (http (snd r) <> 200 -> fst r = st)
  /\ (http (snd r) = 200 \/ http (snd r) = 400 \/ http (snd r) = 500).
Proof.
  unfold payhere_notify, required_present.
  destruct (JS.truthy (merchant_id n)), (JS.truthy (order_id n)),
    (JS.truthy (payhere_amount n)), (JS.truthy (payhere_currency n)),
    (JS.truthy (status_code n)), (JS.truthy (md5sig n));
    cbn [negb orb andb fst snd http];
    try (split; [split; [discriminate | intros (? & ? & _ & _ & ? & _); discriminate]
                | split; [reflexivity | auto]]).
  destruct (merchantId cfg) as [mid |]; cbn [fst snd http];
    [| split; [split; [discriminate | intros (? & ? & ? & _); discriminate]
              | split; [reflexivity | auto]]].
  destruct (String.eqb_spec (JS.trim (JS.template (merchant_id n))) (JS.trim mid))
    as [Hm | Hm]; cbn [negb fst snd http];
    [| split; [split; [discriminate
                      | intros (? & ? & E & _ & _ & E' & _); congruence]
              | split; [reflexivity | auto]]].
  destruct (merchantSecret cfg) as [secret |]; cbn [fst snd http];
    [| split; [split; [discriminate | intros (? & ? & _ & ? & _); discriminate]
              | split; [reflexivity | auto]]].
  destruct (verifyPayHereHash n secret) as [[] |] eqn:Hv; cbn [fst snd http].
  - split; [| split; [congruence | auto]].
    split; [| reflexivity]. intros _. exists mid, secret. now repeat split.
  - split; [| split; [reflexivity | auto]].
    split; [discriminate |].
    intros (? & secret' & _ & E & _ & _ & Hv'). congruence.
  - split; [| split; [reflexivity | auto]].
    split; [discriminate |].
    intros (? & secret' & _ & E & _ & _ & Hv'). congruence.
Qed.


(** ** The form of a digest *)

Lemma le_bytes_range (n : nat) (x b : Z) :
  In b (MD5.le_bytes n x) -> 0 <= b < 256.
Proof.
  revert x. induction n as [| n IH]; intros x; cbn [MD5.le_bytes In].
  - contradiction.
  - intros [<- | Hin]; [apply Z.mod_pos_bound; lia | eauto].
Qed.

Lemma le_bytes_length (n : nat) (x : Z) : List.length (MD5.le_bytes n x) = n.
Proof.
  revert x. induction n as [| n IH]; intros x; cbn [MD5.le_bytes List.length];
    [reflexivity | now rewrite IH].
Qed.

Lemma digest_bytes (msg : list Z) :
  List.length (MD5.digest msg) = 16%nat
  /\ forall b, In b (MD5.digest msg) -> 0 <= b < 256.
Proof.
  unfold MD5.digest.
  destruct (MD5.blocks _ MD5.init _) as [[[A B] C] D].
  split.
  - rewrite !length_app, !le_bytes_length. reflexivity.
  - intros b Hin. repeat (apply in_app_or in Hin; destruct Hin as [Hin | Hin]);
      eapply le_bytes_range; eassumption.
Qed.

Lemma upper_hex_digit (d : Z) :
  0 <= d < 16 -> is_upper_hex (JS.upper_char (MD5.hex_digit d)) = true.
Proof.
  intros Hd.
  assert (E : d = 0 \/ d = 1 \/ d = 2 \/ d = 3 \/ d = 4 \/ d = 5 \/ d = 6
              \/ d = 7 \/ d = 8 \/ d = 9 \/ d = 10 \/ d = 11 \/ d = 12
              \/ d = 13 \/ d = 14 \/ d = 15) by lia.
  repeat (destruct E as [-> | E]; [reflexivity |]). subst d. reflexivity.
Qed.

Lemma hex_of_bytes_form (bs : list Z) :
  (forall b, In b bs -> 0 <= b < 256) ->
  String.length (JS.toUpperCase (MD5.hex_of_bytes bs))
  = (2 * List.length bs)%nat
  /\ forallb is_upper_hex
       (list_ascii_of_string (JS.toUpperCase (MD5.hex_of_bytes bs))) = true.
Proof.
  unfold JS.toUpperCase. induction bs as [| b bs IH]; intros Hrange.
  - now split.
  - destruct IH as [Hlen Hhex]; [intros; apply Hrange; now right |].
    assert (Hb : 0 <= b < 256) by (apply Hrange; now left).
    cbn [MD5.hex_of_bytes JS.map_string String.length list_ascii_of_string
         forallb List.length].
    rewrite Hlen, Hhex, !upper_hex_digit.
    + split; [lia | reflexivity].
    + apply Z.mod_pos_bound. lia.
    + split; [apply Z.div_pos; lia | apply Z.div_lt_upper_bound; lia].
Qed.


(** X2: every digest the server computes or compares with, from the one-time
    generator, the recurring generator or the verification, is a string
    of 32 characters among 0-9 and A-F. *)
Theorem digests_are_32_upper_hex
    (merchantId orderId : string) (amount : JS.value)
    (currency secret : string) (data : Notification) :
  let well_formed (d : string) :=
    String.length d = 32%nat
    /\ forallb is_upper_hex (list_ascii_of_string d) = true in
  well_formed (generatePayHereHash merchantId orderId amount currency secret)
  /\ well_formed
       (generateRecurringPayHereHash merchantId orderId amount currency secret)
  /\ well_formed (notification_digest data secret).
Proof.
  assert (Hhash : forall s, String.length (hash s) = 32%nat
                            /\ forallb is_upper_hex
                                 (list_ascii_of_string (hash s)) = true).
  { intros s. unfold hash, MD5.hex.
    destruct (digest_bytes (MD5.bytes_of_string s)) as [Hlen Hrange].
    destruct (hex_of_bytes_form _ Hrange) as [Hl Hh].
    rewrite Hlen in Hl. now split. }
  cbv zeta. repeat split; apply Hhash.
Qed.


(** ** Nothing stored is removed *)

Lemma extends_refl (st : State) : extends st st.
Proof.
  repeat split; try (exists []; now rewrite app_nil_r).
Qed.

Lemma extends_trans (a b c : State) : extends a b -> extends b c -> extends a c.
Proof.
  intros ((l1 & Hl1) & (s1 & Hs1) & Ho1) ((l2 & Hl2) & (s2 & Hs2) & Ho2).
  repeat split.
  - exists (l1 ++ l2). now rewrite Hl2, Hl1, app_assoc.
  - exists (s1 ++ s2). now rewrite Hs2, Hs1, app_assoc.
  - congruence.
Qed.

Lemma save_subscription_ids (now : Z) (s : FoodSubscription.t)
    (c : list FoodSubscription.t) :
  map FoodSubscription._id (save_subscription now s c)
  = map FoodSubscription._id c.
Proof.
  unfold save_subscription. rewrite map_map. apply map_ext_in.
  intros d _. destruct (N.eqb_spec (FoodSubscription._id d)
                                   (FoodSubscription._id s)) as [E | _];
    [| reflexivity].
  rewrite E. now destruct s.
Qed.

Lemma save_order_ids (now : Z) (o : CartOrder.t) (c : list CartOrder.t) :
  map CartOrder._id (save_order now o c) = map CartOrder._id c.
Proof.
  unfold save_order. rewrite map_map. apply map_ext_in.
  intros d _. destruct (N.eqb_spec (CartOrder._id d) (CartOrder._id o))
    as [E | _]; [| reflexivity].
  rewrite E. now destruct o.
Qed.

Lemma updateOne_ids (id : N) (u : FoodSubscription.t -> FoodSubscription.t)
    (c : list FoodSubscription.t) :
  (forall d, FoodSubscription._id (u d) = FoodSubscription._id d) ->
  map FoodSubscription._id (fst (updateOne id u c))
  = map FoodSubscription._id c.
Proof.
  intros Hu. induction c as [| d c IH]; cbn [updateOne]; [reflexivity |].
  destruct (FoodSubscription._id d =? id)%N.
  - cbn. now rewrite Hu.
  - destruct (updateOne id u c) as [rest k]. cbn in *. now rewrite IH.
Qed.

Lemma extends_subscriptions_log (st : State) (c : list FoodSubscription.t)
    (added : list FoodSubscriptionLog) (st' : State) :
  map FoodSubscription._id c = map FoodSubscription._id (subscriptions st) ->
  orders st' = orders st -> subscriptions st' = c ->
  logs st' = logs st ++ added ->
  extends st st'.
Proof.
  intros Hc Ho Hs Hl. repeat split.
  - now exists added.
  - exists []. now rewrite Hs, Hc, app_nil_r.
  - now rewrite Ho.
Qed.

Lemma handleCartPaymentNotification_extends (now : Z) (n : Notification)
    (st : State) : extends st (handleCartPaymentNotification now n st).
Proof.
  unfold handleCartPaymentNotification.
  destruct (findOne _ (orders st)) as [order |]; [| apply extends_refl].
  destruct (opt_eqb (status_code n) (Some "2"));
    (repeat split; cbn [logs subscriptions orders with_orders];
     [exists []; now rewrite app_nil_r | exists []; now rewrite app_nil_r
     | apply save_order_ids]).
Qed.

Lemma handleInitialFoodPaymentWithRecurring_extends `{Host} (now : Z)
    (n : Notification) (st : State) :
  extends st (handleInitialFoodPaymentWithRecurring now n st).
Proof.
  unfold handleInitialFoodPaymentWithRecurring.
  destruct (findOne _ (subscriptions st)) as [existing |].
  - destruct (_ && _); [| apply extends_refl].
    destruct (date_or _ _); [| apply extends_refl].
    eapply extends_subscriptions_log with (added := []);
      [apply save_subscription_ids | reflexivity | reflexivity
      | cbn; now rewrite app_nil_r].
  - cbv zeta.
    repeat match goal with
           | |- extends st (match ?a with _ => _ end) => destruct a
           end; try apply extends_refl.
    repeat split; cbn [logs subscriptions orders create_log insert_subscription].
    + eexists. reflexivity.
    + eexists. rewrite map_app. reflexivity.
Qed.

Lemma handleRecurringFoodPayment_extends `{Host} (now : Z)
    (n : Notification) (st : State) :
  extends st (handleRecurringFoodPayment now n st).
Proof.
  unfold handleRecurringFoodPayment.
  destruct (find_recurring n (subscriptions st)) as [s |];
    [| apply extends_refl].
  destruct (opt_eqb (status_code n) (Some "2"));
    [destruct (recurring_success now n s) | destruct (recurring_failure now n s)];
    try apply extends_refl;
    (eapply extends_subscriptions_log;
     [apply save_subscription_ids | reflexivity | reflexivity | reflexivity]).
Qed.

Lemma handleFailedFoodPayment_extends (now : Z) (n : Notification)
    (st : State) : extends st (handleFailedFoodPayment now n st).
Proof.
  unfold handleFailedFoodPayment.
  destruct (findOne _ (subscriptions st)) as [s |]; [| apply extends_refl].
  eapply extends_subscriptions_log;
    [apply save_subscription_ids | reflexivity | reflexivity | reflexivity].
Qed.

Lemma payhere_notify_extends `{Host} (cfg : Config) (now : Z)
    (n : Notification) (st : State) :
  extends st (fst (payhere_notify cfg now n st)).
Proof.
  unfold payhere_notify.
  match goal with
  | |- extends st (fst (if ?g then _ else _)) =>
      destruct g; [apply extends_refl |]
  end.
  destruct (merchantId cfg) as [configured |]; [| apply extends_refl].
  match goal with
  | |- extends st (fst (if ?g then _ else _)) =>
      destruct g; [apply extends_refl |]
  end.
  destruct (merchantSecret cfg) as [secret |]; [| apply extends_refl].
  destruct (verifyPayHereHash n secret) as [[] |]; try apply extends_refl.
  cbn [fst].
  repeat match goal with
         | |- extends st (if ?g then _ else _) => destruct g
         end.
  all: first [ apply handleCartPaymentNotification_extends
             | apply handleInitialFoodPaymentWithRecurring_extends
             | apply handleRecurringFoodPayment_extends
             | apply handleFailedFoodPayment_extends ].
Qed.

Lemma deliver_extends `{Host} (cfg : Config)
    (events : list (Z * Notification)) :
  forall st, extends st (deliver cfg events st).
Proof.
  unfold deliver.
  induction events as [| e events IH]; intros st; cbn [fold_left].
  - apply extends_refl.
  - eapply extends_trans; [apply payhere_notify_extends | apply IH].
Qed.

Lemma cancel_extends `{Host} (now : Z) (req : RenewalRequest) (st : State) :
  extends st (fst (cancel_food_subscription_renewal now req st)).
Proof.
  unfold cancel_food_subscription_renewal.
  match goal with
  | |- extends st (fst (if ?g then _ else _)) =>
      destruct g; [apply extends_refl |]
  end.
  destruct (findOne _ (subscriptions st)) as [s |]; [| apply extends_refl].
  destruct (negb (FoodSubscription.autoRenew s)); [apply extends_refl |].
  match goal with
  | |- context [updateOne ?id ?u ?c] =>
      pose proof (updateOne_ids id u c) as Hids;
      destruct (updateOne id u c) as [updated k]
  end.
  destruct (0 <? k); [| apply extends_refl].
  cbn [fst]. eapply extends_subscriptions_log;
    [| reflexivity | reflexivity | reflexivity].
  apply Hids. intros d. cbn [andb].
  destruct (JS.truthy (FoodSubscription.payhereRecurringToken s));
    now destruct d.
Qed.

Lemma reactivate_extends (now : Z) (req : RenewalRequest) (st : State) :
  extends st (fst (reactivate_food_subscription_renewal now req st)).
Proof.
  unfold reactivate_food_subscription_renewal.
  match goal with
  | |- extends st (fst (if ?g then _ else _)) =>
      destruct g; [apply extends_refl |]
  end.
  destruct (findOne _ (subscriptions st)) as [s |]; [| apply extends_refl].
  destruct (FoodSubscription.endDate s <=? now); [apply extends_refl |].
  cbn [fst]. eapply extends_subscriptions_log;
    [apply save_subscription_ids | reflexivity | reflexivity | reflexivity].
Qed.

(** X3: no operation removes or rewrites a log entry, removes a subscription
    or an order, or creates an order: after a notification, a cancellation
    or a reactivation of auto-renewal, and after any sequence of
    notifications, the log is the former log followed by the entries
    written, the subscriptions are the former ones (by id, in order)
    followed by those created, and the orders are the former ones. *)
Theorem operations_keep_what_is_stored `{Host}
    (cfg : Config) (now : Z) (n : Notification) (req : RenewalRequest)
    (events : list (Z * Notification)) (st : State) :
  extends st (fst (payhere_notify cfg now n st))
  /\ extends st (fst (cancel_food_subscription_renewal now req st))
  /\ extends st (fst (reactivate_food_subscription_renewal now req st))
  /\ extends st (deliver cfg events st).
Proof.
  split; [apply payhere_notify_extends |].
  split; [apply cancel_extends |].
  split; [apply reactivate_extends | apply deliver_extends].
Qed.


(** ** What a subscription keeps *)

Lemma same_subscription_refl (s : FoodSubscription.t) : same_subscription s s.
Proof. repeat split. exists []. now rewrite app_nil_r. Qed.

Lemma same_subscription_trans (a b c : FoodSubscription.t) :
  same_subscription a b -> same_subscription b c -> same_subscription a c.
Proof.
  unfold same_subscription.
  intros (A1 & A2 & A3 & A4 & A5 & A6 & A7 & A8 & A9 & A10 & A11 & A12 & h1 & A13)
         (B1 & B2 & B3 & B4 & B5 & B6 & B7 & B8 & B9 & B10 & B11 & B12 & h2 & B13).
  repeat split; try congruence.
  exists (h1 ++ h2). now rewrite B13, A13, app_assoc.
Qed.

Ltac same_by_computation :=
  match goal with
  | s : FoodSubscription.t |- _ => destruct s as []
  end;
  cbn -[JS.parseFloat_opt String.append JS.template Z.add Z.leb
        JSDate.setMonth JSDate.getMonth];
  repeat match goal with
         | |- context [if ?b then _ else _] => destruct b
         | |- context [match ?x with Some _ => _ | None => _ end] => destruct x
         end;
  cbn -[JS.parseFloat_opt String.append JS.template Z.add Z.leb
        JSDate.setMonth JSDate.getMonth];
  repeat split;
  first [ exists []; now rewrite app_nil_r | eexists; reflexivity ].

Lemma set_updatedAt_same (now : Z) (s : FoodSubscription.t) :
  same_subscription s (FoodSubscription.set_updatedAt now s).
Proof. unfold same_subscription. same_by_computation. Qed.

Lemma recurring_success_same `{Host} (now : Z) (n : Notification)
    (s s' : FoodSubscription.t) :
  recurring_success now n s = Some s' -> same_subscription s s'.
Proof.
  unfold recurring_success.
  destruct (date_or _ _); [| discriminate].
  destruct (cast_number _); [| discriminate].
  intros [= <-]. unfold same_subscription. same_by_computation.
Qed.

Lemma recurring_failure_same (now : Z) (n : Notification)
    (s s' : FoodSubscription.t) :
  recurring_failure now n s = Some s' -> same_subscription s s'.
Proof.
  unfold recurring_failure.
  destruct (cast_number _); [| discriminate].
  intros [= <-]. unfold same_subscription. same_by_computation.
Qed.

Lemma failed_payment_same (now : Z) (n : Notification)
    (s : FoodSubscription.t) : same_subscription s (failed_payment now n s).
Proof. unfold same_subscription, failed_payment. same_by_computation. Qed.

Lemma Forall2_map_self {A : Type} (R : A -> A -> Prop) (f : A -> A)
    (l : list A) :
  (forall d, In d l -> R d (f d)) -> Forall2 R l (map f l).
Proof.
  induction l as [| x l IH]; intros Hf; cbn [map]; constructor.
  - apply Hf. now left.
  - apply IH. intros d Hd. apply Hf. now right.
Qed.

Lemma save_subscription_keeps (now : Z) (s s' : FoodSubscription.t)
    (c : list FoodSubscription.t) :
  NoDup (map FoodSubscription._id c) -> In s c -> same_subscription s s' ->
  Forall2 same_subscription c (save_subscription now s' c).
Proof.
  intros Hnd Hin Hsame. unfold save_subscription. apply Forall2_map_self.
  intros d Hd.
  destruct (N.eqb_spec (FoodSubscription._id d) (FoodSubscription._id s'))
    as [E | _]; [| apply same_subscription_refl].
  assert (d = s).
  { apply (NoDup_map_In_eq FoodSubscription._id c); auto.
    rewrite E. apply Hsame. }
  subst d. eapply same_subscription_trans; [exact Hsame |].
  apply set_updatedAt_same.
Qed.

Lemma updateOne_keeps (u : FoodSubscription.t -> FoodSubscription.t)
    (id : N) (c : list FoodSubscription.t) :
  (forall d, same_subscription d (u d)) ->
  Forall2 same_subscription c (fst (updateOne id u c)).
Proof.
  intros Hu. induction c as [| d c IH]; cbn [updateOne]; [constructor |].
  destruct (FoodSubscription._id d =? id)%N.
  - cbn [fst]. constructor; [apply Hu |].
    clear. induction c; constructor; auto using same_subscription_refl.
  - destruct (updateOne id u c) as [rest k]. cbn [fst] in *.
    constructor; [apply same_subscription_refl | exact IH].
Qed.

Lemma Forall2_same_ids (c c' : list FoodSubscription.t) :
  Forall2 same_subscription c c' ->
  map FoodSubscription._id c' = map FoodSubscription._id c.
Proof.
  induction 1 as [| a b c c' Hab _ IH]; cbn [map]; [reflexivity |].
  f_equal; [apply Hab | exact IH].
Qed.

(** an operation that rewrites the subscriptions in place *)
Lemma rewritten_in_place (st st' : State) :
  Forall2 same_subscription (subscriptions st) (subscriptions st') ->
  nextId st' = nextId st ->
  distinct_ids st ->
  distinct_ids st' /\ keeps_subscriptions st st'.
Proof.
  intros Hsame Hnext [Hnd Hlt]. split.
  - split.
    + now rewrite (Forall2_same_ids _ _ Hsame).
    + intros s Hs. rewrite Hnext.
      apply (in_map FoodSubscription._id) in Hs.
      rewrite (Forall2_same_ids _ _ Hsame) in Hs.
      apply in_map_iff in Hs. destruct Hs as (d & <- & Hd). now apply Hlt.
  - exists (subscriptions st'), []. now rewrite app_nil_r.
Qed.

Lemma unchanged_keeps (st : State) :
  distinct_ids st -> distinct_ids st /\ keeps_subscriptions st st.
Proof.
  intros Hd. apply rewritten_in_place; auto.
  clear. induction (subscriptions st); constructor;
    auto using same_subscription_refl.
Qed.

Lemma handleCartPaymentNotification_keeps (now : Z) (n : Notification)
    (st : State) :
  let st' := handleCartPaymentNotification now n st in
  distinct_ids st -> distinct_ids st' /\ keeps_subscriptions st st'.
Proof.
  intros st' Hd. subst st'. unfold handleCartPaymentNotification.
  destruct (findOne _ (orders st)) as [order |]; [| now apply unchanged_keeps].
  destruct (opt_eqb (status_code n) (Some "2"));
    (apply rewritten_in_place; [| reflexivity | exact Hd]);
    cbn [subscriptions with_orders];
    clear; induction (subscriptions st); constructor;
      auto using same_subscription_refl.
Qed.

Lemma handleRecurringFoodPayment_keeps `{Host} (now : Z) (n : Notification)
    (st : State) :
  let st' := handleRecurringFoodPayment now n st in
  distinct_ids st -> distinct_ids st' /\ keeps_subscriptions st st'.
Proof.
  intros st' Hd. subst st'. unfold handleRecurringFoodPayment.
  destruct (find_recurring n (subscriptions st)) as [s |] eqn:Hfind;
    [| now apply unchanged_keeps].
  unfold find_recurring in Hfind. apply findOne_latest_Some in Hfind.
  destruct Hfind as (Hin & _).
  destruct (opt_eqb (status_code n) (Some "2"));
    [destruct (recurring_success now n s) as [s' |] eqn:Hs'
    | destruct (recurring_failure now n s) as [s' |] eqn:Hs'];
    try now apply unchanged_keeps.
  all: apply rewritten_in_place; [| reflexivity | exact Hd];
    cbn [subscriptions with_subscriptions create_log];
    apply (save_subscription_keeps now s); try apply Hd; auto.
  - now apply recurring_success_same in Hs'.
  - now apply recurring_failure_same in Hs'.
Qed.

Lemma handleFailedFoodPayment_keeps (now : Z) (n : Notification)
    (st : State) :
  let st' := handleFailedFoodPayment now n st in
  distinct_ids st -> distinct_ids st' /\ keeps_subscriptions st st'.
Proof.
  intros st' Hd. subst st'. unfold handleFailedFoodPayment.
  destruct (findOne _ (subscriptions st)) as [s |] eqn:Hfind;
    [| now apply unchanged_keeps].
  apply find_some in Hfind. destruct Hfind as [Hin _].
  apply rewritten_in_place; [| reflexivity | exact Hd].
  cbn [subscriptions with_subscriptions create_log].
  apply (save_subscription_keeps now s); try apply Hd; auto.
  apply failed_payment_same.
Qed.

Lemma handleInitialFoodPaymentWithRecurring_keeps `{Host} (now : Z)
    (n : Notification) (st : State) :
  let st' := handleInitialFoodPaymentWithRecurring now n st in
  distinct_ids st -> distinct_ids st' /\ keeps_subscriptions st st'.
Proof.
  intros st' Hd. subst st'. unfold handleInitialFoodPaymentWithRecurring.
  destruct (findOne _ (subscriptions st)) as [existing |] eqn:Hfind.
  - destruct (_ && _); [| now apply unchanged_keeps].
    destruct (date_or _ _) as [nextBillingDate |];
      [| now apply unchanged_keeps].
    apply find_some in Hfind. destruct Hfind as [Hin _].
    apply rewritten_in_place; [| reflexivity | exact Hd].
    cbn [subscriptions with_subscriptions].
    apply (save_subscription_keeps now existing); try apply Hd; auto.
    clear. unfold same_subscription. same_by_computation.
  - cbv zeta.
    repeat match goal with
           | |- distinct_ids (match ?a with _ => _ end) /\ _ => destruct a
           end; try now apply unchanged_keeps.
    destruct Hd as [Hnd Hlt].
    match goal with
    | |- distinct_ids ?x /\ _ => set (st' := x)
    end.
    assert (Hsubs : exists s, subscriptions st' = subscriptions st ++ [s]
                              /\ FoodSubscription._id s = nextId st)
      by (eexists; split; reflexivity).
    assert (Hnext : nextId st' = N.succ (nextId st)) by reflexivity.
    clearbody st'. destruct Hsubs as (s & Hsubs & Hid).
    split; [split |].
    + rewrite Hsubs, map_app. cbn [map].
      apply NoDup_app; [exact Hnd | repeat constructor; intros [] |].
      intros id Hin [<- | []]. apply in_map_iff in Hin.
      destruct Hin as (d & E & Hin). specialize (Hlt d Hin). lia.
    + intros d Hd. rewrite Hsubs in Hd. rewrite Hnext.
      apply in_app_or in Hd.
      destruct Hd as [Hd | [<- | []]]; [specialize (Hlt d Hd) |]; lia.
    + exists (subscriptions st), [s]. split; [exact Hsubs |].
      clear. induction (subscriptions st); constructor;
        auto using same_subscription_refl.
Qed.

Lemma Forall2_same_trans (a b c : list FoodSubscription.t) :
  Forall2 same_subscription a b -> Forall2 same_subscription b c ->
  Forall2 same_subscription a c.
Proof.
  intros Hab. revert c. induction Hab as [| x y a b Hxy _ IH]; intros c Hbc.
  - inversion Hbc. constructor.
  - inversion Hbc as [| ? z ? c' Hyz Hbc']; subst.
    constructor; [eapply same_subscription_trans; eassumption | auto].
Qed.

Lemma keeps_subscriptions_trans (a b c : State) :
  keeps_subscriptions a b -> keeps_subscriptions b c ->
  keeps_subscriptions a c.
Proof.
  intros (k1 & c1 & Hb & H1) (k2 & c2 & Hc & H2).
  rewrite Hb in H2. apply Forall2_app_inv_l in H2.
  destruct H2 as (k2a & k2b & Hk1 & _ & ->).
  exists k2a, (k2b ++ c2). split; [now rewrite Hc, app_assoc |].
  eapply Forall2_same_trans; eassumption.
Qed.

Lemma payhere_notify_keeps `{Host} (cfg : Config) (now : Z)
    (n : Notification) (st : State) :
  let st' := fst (payhere_notify cfg now n st) in
  distinct_ids st -> distinct_ids st' /\ keeps_subscriptions st st'.
Proof.
  intros st' Hd. subst st'. unfold payhere_notify.
  match goal with
  | |- distinct_ids (fst (if ?g then _ else _)) /\ _ =>
      destruct g; [now apply unchanged_keeps |]
  end.
  destruct (merchantId cfg) as [configured |]; [| now apply unchanged_keeps].
  match goal with
  | |- distinct_ids (fst (if ?g then _ else _)) /\ _ =>
      destruct g; [now apply unchanged_keeps |]
  end.
  destruct (merchantSecret cfg) as [secret |]; [| now apply unchanged_keeps].
  destruct (verifyPayHereHash n secret) as [[] |];
    try now apply unchanged_keeps.
  cbn [fst].
  repeat match goal with
         | |- distinct_ids (if ?g then _ else _) /\ _ => destruct g
         end.
  all: first [ now apply handleCartPaymentNotification_keeps
             | now apply handleInitialFoodPaymentWithRecurring_keeps
             | now apply handleRecurringFoodPayment_keeps
             | now apply handleFailedFoodPayment_keeps ].
Qed.

Lemma deliver_keeps `{Host} (cfg : Config)
    (events : list (Z * Notification)) :
  forall st, distinct_ids st ->
             distinct_ids (deliver cfg events st)
             /\ keeps_subscriptions st (deliver cfg events st).
Proof.
  unfold deliver.
  induction events as [| e events IH]; intros st Hd; cbn [fold_left].
  - now apply unchanged_keeps.
  - destruct (payhere_notify_keeps cfg (fst e) (snd e) st Hd) as [Hd1 Hk1].
    destruct (IH _ Hd1) as [Hd2 Hk2].
    split; [exact Hd2 | eapply keeps_subscriptions_trans; eassumption].
Qed.

Lemma cancel_keeps `{Host} (now : Z) (req : RenewalRequest) (st : State) :
  let st' := fst (cancel_food_subscription_renewal now req st) in
  distinct_ids st -> distinct_ids st' /\ keeps_subscriptions st st'.
Proof.
  intros st' Hd. subst st'. unfold cancel_food_subscription_renewal.
  match goal with
  | |- distinct_ids (fst (if ?g then _ else _)) /\ _ =>
      destruct g; [now apply unchanged_keeps |]
  end.
  destruct (findOne _ (subscriptions st)) as [s |];
    [| now apply unchanged_keeps].
  destruct (negb (FoodSubscription.autoRenew s));
    [now apply unchanged_keeps |].
  match goal with
  | |- context [updateOne ?id ?u ?c] =>
      pose proof (updateOne_keeps u id c) as Hkeeps;
      destruct (updateOne id u c) as [updated k]
  end.
  destruct (0 <? k); [| now apply unchanged_keeps].
  cbn [fst] in *. apply rewritten_in_place; [| reflexivity | exact Hd].
  cbn [subscriptions with_subscriptions create_log].
  apply Hkeeps. intros d. cbn [andb]. clear.
  unfold same_subscription.
  destruct (JS.truthy (FoodSubscription.payhereRecurringToken s));
    destruct d as []; cbn; repeat split; exists []; now rewrite app_nil_r.
Qed.

Lemma reactivate_keeps (now : Z) (req : RenewalRequest) (st : State) :
  let st' := fst (reactivate_food_subscription_renewal now req st) in
  distinct_ids st -> distinct_ids st' /\ keeps_subscriptions st st'.
Proof.
  intros st' Hd. subst st'. unfold reactivate_food_subscription_renewal.
  match goal with
  | |- distinct_ids (fst (if ?g then _ else _)) /\ _ =>
      destruct g; [now apply unchanged_keeps |]
  end.
  destruct (findOne _ (subscriptions st)) as [s |] eqn:Hfind;
    [| now apply unchanged_keeps].
  destruct (FoodSubscription.endDate s <=? now);
    [now apply unchanged_keeps |].
  apply find_some in Hfind. destruct Hfind as [Hin _].
  cbn [fst]. apply rewritten_in_place; [| reflexivity | exact Hd].
  cbn [subscriptions with_subscriptions create_log].
  apply (save_subscription_keeps now s); try apply Hd; auto.
  clear. unfold same_subscription. same_by_computation.
Qed.

(** X4: while the ids of the subscriptions are distinct, which every operation
    maintains, no operation changes the customer, the plan, the amount,
    the currency, the gateway order id, maxRenewalAttempts, the start date
    or the creation date of a subscription, and none removes or rewrites
    an entry of its renewal history: the history after is the history
    before followed by the entries added.  This holds of a notification,
    of a cancellation and a reactivation of auto-renewal, and of any
    sequence of notifications. *)
Theorem subscriptions_keep_identity_and_history `{Host}
    (cfg : Config) (now : Z) (n : Notification) (req : RenewalRequest)
    (events : list (Z * Notification)) (st : State) :
  distinct_ids st ->
  (distinct_ids (fst (payhere_notify cfg now n st))
   /\ keeps_subscriptions st (fst (payhere_notify cfg now n st)))
  /\ (distinct_ids (fst (cancel_food_subscription_renewal now req st))
      /\ keeps_subscriptions st
           (fst (cancel_food_subscription_renewal now req st)))
  /\ (distinct_ids (fst (reactivate_food_subscription_renewal now req st))
      /\ keeps_subscriptions st
           (fst (reactivate_food_subscription_renewal now req st)))
  /\ (distinct_ids (deliver cfg events st)
      /\ keeps_subscriptions st (deliver cfg events st)).
Proof.
  intros Hd.
  split; [now apply payhere_notify_keeps |].
  split; [now apply cancel_keeps |].
  split; [now apply reactivate_keeps | now apply deliver_keeps].
Qed.

Lemma subscriptions_keep_identity_and_history_witness :
  let s := sample_subscription 1 "nimal@example.com" "FOOD_RECURRING_1"
             (Some "TOKEN_A") Status.active true
             1700000000000 1702592000000 in
  let st := {| orders := []; subscriptions := [s]; logs := []; nextId := 2 |} in
  let n := notification "FOOD_RECURRING_1" "-2"
             (notification_digest
                (notification "FOOD_RECURRING_1" "-2" "" None None None None
                   None None None) "secret")
             (Some "320027150501") None None (Some "nimal@example.com")
             (Some "TOKEN_A") (Some "TOKEN_A") (Some "SUBSCRIPTION_PAYMENT") in
  distinct_ids st
  /\ keeps_subscriptions st
       (fst (payhere_notify sample_config 1702592000000 n st))
  /\ map FoodSubscription.renewalAttempts
       (subscriptions (fst (payhere_notify sample_config 1702592000000 n st)))
     = [1].
Proof.
  intros s st n.
  assert (Hd : distinct_ids st).
  { split; [cbn; repeat constructor; intros [] |].
    intros d [<- | []]. reflexivity. }
  split; [exact Hd |].
  split; [| vm_compute; reflexivity].
  exact (proj2 (proj1 (subscriptions_keep_identity_and_history sample_config
                         1702592000000 n
                         {| req_subscriptionId := None; req_userEmail := None;
                            req_reason := None |} [] st Hd))).
Defined.


(** ** What the handlers of subscriptions touch *)

Lemma save_subscription_others (now : Z) (s' d : FoodSubscription.t)
    (c : list FoodSubscription.t) :
  FoodSubscription._id d <> FoodSubscription._id s' ->
  In d c -> In d (save_subscription now s' c).
Proof.
  intros Hne Hin. unfold save_subscription. apply in_map_iff. exists d.
  split; [| exact Hin]. apply N.eqb_neq in Hne. now rewrite Hne.
Qed.

(** X5: a recurring payment changes no other subscription than the one its
    lookup selects; in particular a subscription whose auto-renewal is
    off is left as it is by every recurring notification.  (The ids of
    the subscriptions are distinct.) *)
Theorem recurring_payment_touches_selected_only `{Host}
    (now : Z) (n : Notification) (st : State) (d : FoodSubscription.t) :
  NoDup (map FoodSubscription._id (subscriptions st)) ->
  In d (subscriptions st) ->
  find_recurring n (subscriptions st) <> Some d
  \/ FoodSubscription.autoRenew d = false ->
  In d (subscriptions (handleRecurringFoodPayment now n st)).
Proof.
  intros Hnd Hin Hother. unfold handleRecurringFoodPayment.
  destruct (find_recurring n (subscriptions st)) as [s |] eqn:Hfind;
    [| exact Hin].
  unfold find_recurring in Hfind. apply findOne_latest_Some in Hfind.
  destruct Hfind as (Hs & Hq & _).
  assert (Hne : FoodSubscription._id d <> FoodSubscription._id s).
  { intros E. assert (d = s) by
      (apply (NoDup_map_In_eq FoodSubscription._id (subscriptions st)); auto).
    subst d. destruct Hother as [Hneq | Hoff]; [now apply Hneq |].
    unfold recurring_query in Hq. rewrite Hoff, andb_false_r in Hq.
    discriminate. }
  destruct (opt_eqb (status_code n) (Some "2"));
    [destruct (recurring_success now n s) as [s' |] eqn:Hs'
    | destruct (recurring_failure now n s) as [s' |] eqn:Hs'];
    try exact Hin.
  all: cbn [subscriptions with_subscriptions create_log];
    apply save_subscription_others; auto.
  - rewrite (proj1 (recurring_success_same now n s s' Hs')). exact Hne.
  - rewrite (proj1 (recurring_failure_same now n s s' Hs')). exact Hne.
Qed.

Lemma recurring_payment_touches_selected_only_witness :
  let active := sample_subscription 1 "nimal@example.com" "FOOD_RECURRING_1"
                  (Some "TOKEN_A") Status.active true
                  1700000000000 1702592000000 in
  let stopped := sample_subscription 2 "nimal@example.com" "FOOD_RECURRING_2"
                   None Status.active false 1702000000000 1704678400000 in
  let n := notification "FOOD_RECURRING_1" "2" "" (Some "320027150501")
             None None (Some "nimal@example.com") (Some "TOKEN_A")
             (Some "TOKEN_A") (Some "SUBSCRIPTION_PAYMENT") in
  let st := with_subscriptions [active; stopped] empty_state in
  NoDup (map FoodSubscription._id (subscriptions st))
  /\ In stopped (subscriptions st)
  /\ FoodSubscription.autoRenew stopped = false
  /\ In stopped (subscriptions (handleRecurringFoodPayment 1703000000000 n st)).
Proof.
  intros active stopped n st.
  assert (Hnd : NoDup (map FoodSubscription._id (subscriptions st))).
  { cbn. repeat constructor; cbn; intuition discriminate. }
  assert (Hin : In stopped (subscriptions st)) by (right; left; reflexivity).
  split; [exact Hnd |]. split; [exact Hin |]. split; [reflexivity |].
  apply recurring_payment_touches_selected_only; auto.
Defined.

Lemma opt_eqb_refl (v : option string) : opt_eqb v v = true.
Proof. destruct v; cbn; [apply String.eqb_refl | reflexivity]. Qed.

Lemma find_app_None {A : Type} (q : A -> bool) (l l' : list A) :
  find q l = None -> find q (l ++ l') = find q l'.
Proof.
  induction l as [| x l IH]; cbn [find app]; [reflexivity |].
  destruct (q x); [discriminate | exact IH].
Qed.

(** the subscription that the first payment of an order creates, when
    its amount is a number and its next occurrence date is absent or
    read *)
Lemma initial_payment_new_subscription `{Host}
    (now : Z) (n : Notification) (st : State) :
  findOne (fun s => opt_eqb (FoodSubscription.payhereOrderId s) (order_id n))
          (subscriptions st) = None ->
  numeric (payhere_amount n) = true ->
  readable (next_occurrence_date n) = true ->
  exists s entry,
    handleInitialFoodPaymentWithRecurring now n st
    = {| orders := orders st; subscriptions := subscriptions st ++ [s];
         logs := logs st ++ [entry]; nextId := N.succ (nextId st) |}
    /\ FoodSubscription._id s = nextId st
    /\ FoodSubscription.payhereOrderId s = order_id n
    /\ FoodSubscription.planId s
       = match custom_1 n with
         | Some c => match JS.remove_first "plan_" c with
                     | EmptyString => "food_premium"
                     | p => p
                     end
         | None => "food_premium"
         end
    /\ FoodSubscription.amount s = JS.parseFloat_opt (payhere_amount n)
    /\ FoodSubscription.status s = Status.active
    /\ FoodSubscription.renewalAttempts s = 0
    /\ FoodSubscription.maxRenewalAttempts s = 3
    /\ FoodSubscription.startDate s = now
    /\ FoodSubscription.endDate s
       = JSDate.setMonth now (JSDate.getMonth now + 1)
    /\ FoodSubscription.autoRenew s
       = opt_eqb (custom_2 n) (Some "food_monthly_recurring")
         && JS.truthy (recurring_token n)
    /\ FoodSubscription.payhereRecurringToken s = recurring_token n
    /\ FoodSubscription.nextBillingDate s
       = (if opt_eqb (custom_2 n) (Some "food_monthly_recurring")
             && JS.truthy (recurring_token n)
          then date_or (next_occurrence_date n)
                 (JSDate.setMonth now (JSDate.getMonth now + 1))
          else None)
    /\ (exists r, FoodSubscription.renewalHistory s = [r]
                  /\ renewal_status r = RenewalStatus.success
                  /\ attempt r = 1)
    /\ action entry = Action.created
    /\ subscriptionId entry = FoodSubscription._id s.
Proof.
  intros Hnone Hnum Hdate. unfold handleInitialFoodPaymentWithRecurring.
  rewrite Hnone. cbv zeta.
  destruct (date_or_readable _ (JSDate.setMonth now (JSDate.getMonth now + 1))
              Hdate) as [d Hd].
  rewrite Hd, (cast_number_numeric _ Hnum). cbn [option_map].
  destruct (opt_eqb (custom_2 n) (Some "food_monthly_recurring")
            && JS.truthy (recurring_token n)).
  all: eexists; eexists; (split; [reflexivity |]);
    cbn [FoodSubscription._id FoodSubscription.payhereOrderId
         FoodSubscription.planId FoodSubscription.amount
         FoodSubscription.status
         FoodSubscription.renewalAttempts FoodSubscription.maxRenewalAttempts
         FoodSubscription.startDate FoodSubscription.endDate
         FoodSubscription.autoRenew FoodSubscription.payhereRecurringToken
         FoodSubscription.nextBillingDate FoodSubscription.renewalHistory
         action subscriptionId];
    repeat split; eexists; repeat split.
Qed.

(** X6: the first payment of an order that no subscription has yet, when
    its amount is a number and its next occurrence date is absent or one
    that the host reads, creates exactly one subscription and one
    [created] log entry.  The subscription is active with no failed
    attempt out of 3, ends one month after the notification is processed,
    has one history entry (a success, attempt 1), has auto-renewal on
    exactly when it has a next billing date, and only with a recurring
    token.  When the same notification is delivered again, no second
    subscription and no second log entry are created. *)
Theorem initial_payment_creates_once `{Host}
    (now later : Z) (n : Notification) (st : State) :
  findOne (fun s => opt_eqb (FoodSubscription.payhereOrderId s) (order_id n))
          (subscriptions st) = None ->
  numeric (payhere_amount n) = true ->
  readable (next_occurrence_date n) = true ->
  let st1 := handleInitialFoodPaymentWithRecurring now n st in
  let st2 := handleInitialFoodPaymentWithRecurring later n st1 in
  (exists s entry,
      subscriptions st1 = subscriptions st ++ [s]
      /\ logs st1 = logs st ++ [entry]
      /\ orders st1 = orders st
      /\ FoodSubscription.payhereOrderId s = order_id n
      /\ FoodSubscription.status s = Status.active
      /\ FoodSubscription.renewalAttempts s = 0
      /\ FoodSubscription.maxRenewalAttempts s = 3
      /\ FoodSubscription.startDate s = now
      /\ FoodSubscription.endDate s = one_month_after now
      /\ (FoodSubscription.autoRenew s = true
          <-> FoodSubscription.nextBillingDate s <> None)
      /\ (FoodSubscription.autoRenew s = true ->
          JS.truthy (FoodSubscription.payhereRecurringToken s) = true
          /\ custom_2 n = Some "food_monthly_recurring")
      /\ (exists r, FoodSubscription.renewalHistory s = [r]
                    /\ renewal_status r = RenewalStatus.success
                    /\ attempt r = 1)
      /\ action entry = Action.created
      /\ subscriptionId entry = FoodSubscription._id s)
  /\ List.length (subscriptions st2) = List.length (subscriptions st1)
  /\ logs st2 = logs st1.
Proof.
  intros Hnone Hnum Hdate st1 st2.
  destruct (initial_payment_new_subscription now n st Hnone Hnum Hdate)
    as (s & entry & Hst1 & _ & Hoid & _ & _ & Hstatus & Hatt & Hmax & Hstart
        & Hend & Hauto & Htok & Hnext & Hhist & Haction & Hsub).
  fold st1 in Hst1. rewrite setMonth_next_month in Hend.
  split.
  - exists s, entry. rewrite Hst1. cbn [subscriptions logs orders].
    do 3 (split; [reflexivity |]).
    do 6 (split; [assumption |]).
    split; [| split; [| split; [exact Hhist | now split]]].
    + rewrite Hauto, Hnext.
      destruct (date_or_readable _
                  (JSDate.setMonth now (JSDate.getMonth now + 1)) Hdate)
        as [d ->].
      destruct (_ && _); split; congruence.
    + rewrite Hauto, Htok. intros Hon. apply andb_true_iff in Hon.
      destruct Hon as [Hc Ht]. split; [exact Ht |].
      destruct (custom_2 n) as [c |]; [| discriminate].
      cbn [opt_eqb] in Hc. apply String.eqb_eq in Hc. now subst c.
  - assert (Hfound :
      findOne (fun s => opt_eqb (FoodSubscription.payhereOrderId s) (order_id n))
              (subscriptions st1) = Some s).
    { rewrite Hst1. cbn [subscriptions].
      unfold findOne in *. rewrite (find_app_None _ _ _ Hnone).
      cbn [find]. now rewrite Hoid, opt_eqb_refl. }
    subst st2. unfold handleInitialFoodPaymentWithRecurring.
    rewrite Hfound.
    destruct (opt_eqb (custom_2 n) (Some "food_monthly_recurring")
              && JS.truthy (recurring_token n)); [| now split].
    match goal with
    | |- context [match ?d with Some _ => _ | None => st1 end] =>
        destruct d; [| now split]
    end.
    cbn [subscriptions logs with_subscriptions]. split; [| reflexivity].
    unfold save_subscription. apply length_map.
Qed.

Lemma initial_payment_creates_once_witness :
  let n := notification "FOOD_RECURRING_1" "2" "" (Some "320027150501")
             (Some "plan_2") (Some "food_monthly_recurring")
             (Some "nimal@example.com") (Some "TOKEN_A") None None in
  let st1 := handleInitialFoodPaymentWithRecurring 1700000000000 n
               empty_state in
  let st2 := handleInitialFoodPaymentWithRecurring 1700000100000 n st1 in
  findOne (fun s => opt_eqb (FoodSubscription.payhereOrderId s) (order_id n))
          (subscriptions empty_state) = None
  /\ numeric (payhere_amount n) = true
  /\ readable (next_occurrence_date n) = true
  /\ map FoodSubscription.autoRenew (subscriptions st1) = [true]
  /\ List.length (subscriptions st2) = List.length (subscriptions st1)
  /\ logs st2 = logs st1.
Proof.
  intros n st1 st2.
  do 3 (split; [reflexivity |]).
  split; [vm_compute; reflexivity |].
  exact (proj2 (initial_payment_creates_once 1700000000000 1700000100000 n
                  empty_state eq_refl eq_refl eq_refl)).
Defined.

(** The first payment of an order whose amount is not a number, or whose
    next occurrence date is not a date, creates nothing. *)
Example initial_payment_rejected :
  let n := notification "FOOD_RECURRING_1" "2" "" (Some "320027150501")
             (Some "plan_2") (Some "food_monthly_recurring")
             (Some "nimal@example.com") (Some "TOKEN_A") None None in
  handleInitialFoodPaymentWithRecurring 1700000000000
    (set_payhere_amount (Some "LKR 2500") n) empty_state = empty_state
  /\ handleInitialFoodPaymentWithRecurring 1700000000000
       (set_next_occurrence_date (Some "next month") n) empty_state
     = empty_state.
Proof. split; vm_compute; reflexivity. Qed.


(** ** Switching auto-renewal off and on *)

Lemma findOne_unique (q : FoodSubscription.t -> bool)
    (c : list FoodSubscription.t) (s : FoodSubscription.t) :
  NoDup (map FoodSubscription._id c) -> In s c -> q s = true ->
  (forall d, In d c -> q d = true ->
             FoodSubscription._id d = FoodSubscription._id s) ->
  findOne q c = Some s.
Proof.
  intros Hnd Hin Hq Hid. unfold findOne.
  destruct (find q c) as [d |] eqn:Hfind.
  - apply find_some in Hfind. destruct Hfind as [Hd Hqd].
    f_equal. apply (NoDup_map_In_eq FoodSubscription._id c); auto.
  - now rewrite (find_none _ _ Hfind s Hin) in Hq.
Qed.

Lemma updateOne_unique (u : FoodSubscription.t -> FoodSubscription.t)
    (c : list FoodSubscription.t) (s : FoodSubscription.t) :
  NoDup (map FoodSubscription._id c) -> In s c ->
  updateOne (FoodSubscription._id s) u c
  = (map (fun d => if (FoodSubscription._id d =? FoodSubscription._id s)%N
                   then u s else d) c, 1).
Proof.
  induction c as [| x c IH]; cbn [map In updateOne]; intros Hnd Hin;
    [contradiction |].
  inversion Hnd as [| ? ? Hnotin Hnd']; subst.
  destruct (N.eqb_spec (FoodSubscription._id x) (FoodSubscription._id s))
    as [E | Hne].
  - assert (x = s).
    { destruct Hin as [-> | Hin]; [reflexivity |].
      destruct Hnotin. rewrite E. now apply in_map. }
    subst x. f_equal. f_equal.
    clear IH Hin Hnd Hnd' E. induction c as [| d c IHc]; [reflexivity |].
    cbn [map].
    destruct (N.eqb_spec (FoodSubscription._id d) (FoodSubscription._id s))
      as [E' | _].
    + destruct Hnotin. left. exact E'.
    + f_equal. apply IHc. intros Hc. apply Hnotin. now right.
  - destruct Hin as [-> | Hin]; [now destruct Hne |].
    now rewrite (IH Hnd' Hin).
Qed.

Lemma save_subscription_unique (now : Z) (s s' : FoodSubscription.t)
    (c : list FoodSubscription.t) :
  FoodSubscription._id s' = FoodSubscription._id s ->
  save_subscription now s' c
  = map (fun d => if (FoodSubscription._id d =? FoodSubscription._id s)%N
                  then FoodSubscription.set_updatedAt now s' else d) c.
Proof. intros E. unfold save_subscription. now rewrite E. Qed.

Lemma In_replaced (s s' : FoodSubscription.t) (c : list FoodSubscription.t) :
  In s c ->
  In s' (map (fun d => if (FoodSubscription._id d =? FoodSubscription._id s)%N
                       then s' else d) c).
Proof.
  intros Hin. apply in_map_iff. exists s. now rewrite N.eqb_refl.
Qed.

Lemma replaced_ids (s s' : FoodSubscription.t) (c : list FoodSubscription.t) :
  FoodSubscription._id s' = FoodSubscription._id s ->
  map FoodSubscription._id
      (map (fun d => if (FoodSubscription._id d =? FoodSubscription._id s)%N
                     then s' else d) c)
  = map FoodSubscription._id c.
Proof.
  intros E. rewrite map_map. apply map_ext. intros d.
  destruct (N.eqb_spec (FoodSubscription._id d) (FoodSubscription._id s));
    congruence.
Qed.

(** the request that designates a subscription by its id *)
Lemma identified_by_id (id : N) (mail reason : option string)
    (d : FoodSubscription.t) :
  identified_by {| req_subscriptionId := Some id; req_userEmail := mail;
                   req_reason := reason |} d
  = (FoodSubscription._id d =? id)%N.
Proof. reflexivity. Qed.

(** what a cancellation by id does to an active subscription that has
    auto-renewal on *)
Lemma cancel_by_id `{Host}
    (now : Z) (mail reason : option string) (st : State)
    (s : FoodSubscription.t) :
  NoDup (map FoodSubscription._id (subscriptions st)) ->
  In s (subscriptions st) ->
  FoodSubscription.status s = Status.active ->
  FoodSubscription.autoRenew s = true ->
  let req := {| req_subscriptionId := Some (FoodSubscription._id s);
                req_userEmail := mail; req_reason := reason |} in
  let r := cancel_food_subscription_renewal now req st in
  r_success (snd r) = true
  /\ r_autoRenew (snd r) = Some false
  /\ (exists s' entry,
         subscriptions (fst r)
         = map (fun d => if (FoodSubscription._id d
                             =? FoodSubscription._id s)%N
                         then s' else d) (subscriptions st)
         /\ same_subscription s s'
         /\ FoodSubscription.autoRenew s' = false
         /\ JS.truthy (FoodSubscription.payhereRecurringToken s') = false
         /\ FoodSubscription.status s' = Status.active
         /\ FoodSubscription.endDate s' = FoodSubscription.endDate s
         /\ FoodSubscription.nextBillingDate s'
            = FoodSubscription.nextBillingDate s
         /\ FoodSubscription.renewalAttempts s'
            = FoodSubscription.renewalAttempts s
         /\ FoodSubscription.autoRenewalCancelledDate s' = Some now
         /\ FoodSubscription.autoRenewalCancelledReason s'
            = Some (if JS.truthy reason then JS.template reason
                    else "User requested cancellation")
         /\ logs (fst r) = logs st ++ [entry]
         /\ action entry = Action.auto_renewal_cancelled
         /\ subscriptionId entry = FoodSubscription._id s
         /\ d_reason (details entry)
            = FoodSubscription.autoRenewalCancelledReason s')
  /\ orders (fst r) = orders st.
Proof.
  intros Hnd Hin Hactive Hauto req r.
  assert (Hfind :
    findOne (fun d => identified_by req d
                      && Status.eqb (FoodSubscription.status d) Status.active
                      && Bool.eqb (FoodSubscription.autoRenew d) true)
            (subscriptions st) = Some s).
  { apply findOne_unique; auto.
    - subst req. rewrite identified_by_id, N.eqb_refl, Hactive, Hauto.
      reflexivity.
    - intros d _ Hq. apply andb_true_iff in Hq. destruct Hq as [Hq _].
      apply andb_true_iff in Hq. destruct Hq as [Hq _].
      subst req. rewrite identified_by_id in Hq. now apply N.eqb_eq. }
  assert (Hr : r = cancel_food_subscription_renewal now req st) by reflexivity.
  clearbody r. revert Hr. unfold cancel_food_subscription_renewal at 1.
  cbn [req_subscriptionId req andb]. rewrite Hfind, Hauto. cbn [negb].
  cbv zeta.
  match goal with
  | |- context [updateOne _ ?f _] => set (u := f)
  end.
  rewrite (updateOne_unique u _ s Hnd Hin).
  change (0 <? 1) with true. cbv iota. intros ->.
  assert (Hu : same_subscription s (u s)
               /\ FoodSubscription.autoRenew (u s) = false
               /\ JS.truthy (FoodSubscription.payhereRecurringToken (u s)) = false
               /\ FoodSubscription.status (u s) = FoodSubscription.status s
               /\ FoodSubscription.endDate (u s) = FoodSubscription.endDate s
               /\ FoodSubscription.nextBillingDate (u s)
                  = FoodSubscription.nextBillingDate s
               /\ FoodSubscription.renewalAttempts (u s)
                  = FoodSubscription.renewalAttempts s
               /\ FoodSubscription.autoRenewalCancelledDate (u s) = Some now
               /\ FoodSubscription.autoRenewalCancelledReason (u s)
                  = Some (if JS.truthy reason then JS.template reason
                          else "User requested cancellation")).
  { subst u req. clear. unfold same_subscription. destruct s as [].
    cbn -[JS.truthy JS.template].
    destruct (JS.truthy payhereRecurringToken) eqn:Ht;
      cbn -[JS.truthy JS.template];
      repeat split; try (exists []; now rewrite app_nil_r); exact Ht. }
  destruct Hu as (Hsame & Hoff & Htok & Hst & Hend & Hnext & Hatt & Hdate & Hreason).
  clearbody u.
  cbn [fst snd r_success r_autoRenew json subscriptions logs orders
       with_subscriptions create_log].
  split; [reflexivity |]. split; [reflexivity |]. split; [| reflexivity].
  exists (u s). eexists.
  split; [reflexivity |]. split; [exact Hsame |]. split; [exact Hoff |].
  split; [exact Htok |]. split; [congruence |]. split; [exact Hend |].
  split; [exact Hnext |]. split; [exact Hatt |]. split; [exact Hdate |].
  split; [exact Hreason |]. split; [reflexivity |].
  split; [reflexivity |]. split; [reflexivity |].
  cbn [details d_reason]. now rewrite Hreason.
Qed.

(** A request that designates only subscriptions with auto-renewal on
    finds none to reactivate, and nothing is written. *)
Lemma reactivate_enabled_not_found
    (now : Z) (req : RenewalRequest) (st : State) :
  (forall s, In s (subscriptions st) -> identified_by req s = true ->
             FoodSubscription.autoRenew s = true) ->
  fst (reactivate_food_subscription_renewal now req st) = st
  /\ r_success (snd (reactivate_food_subscription_renewal now req st)) = false.
Proof.
  intros Hon. unfold reactivate_food_subscription_renewal.
  match goal with
  | |- fst (if ?g then _ else _) = _ /\ _ => destruct g; [now split |]
  end.
  destruct (findOne _ (subscriptions st)) as [s |] eqn:Hfind; [| now split].
  apply find_some in Hfind. destruct Hfind as [Hin Hq].
  apply andb_true_iff in Hq. destruct Hq as [Hq Hauto].
  apply andb_true_iff in Hq. destruct Hq as [Hid _].
  apply Bool.eqb_prop in Hauto. rewrite (Hon s Hin Hid) in Hauto.
  discriminate.
Qed.

(** what a reactivation by id does to a subscription that can be
    reactivated *)
Lemma reactivate_by_id
    (now : Z) (mail reason : option string) (st : State)
    (s : FoodSubscription.t) :
  NoDup (map FoodSubscription._id (subscriptions st)) ->
  In s (subscriptions st) ->
  FoodSubscription.status s = Status.active
  \/ FoodSubscription.status s = Status.pending_renewal ->
  FoodSubscription.autoRenew s = false ->
  now < FoodSubscription.endDate s ->
  let req := {| req_subscriptionId := Some (FoodSubscription._id s);
                req_userEmail := mail; req_reason := reason |} in
  let r := reactivate_food_subscription_renewal now req st in
  r_success (snd r) = true
  /\ r_message (snd r)
     = "Auto-renewal reactivated successfully. Your subscription will automatically renew."
  /\ r_autoRenew (snd r) = None
  /\ (exists s' entry,
         subscriptions (fst r)
         = map (fun d => if (FoodSubscription._id d
                             =? FoodSubscription._id s)%N
                         then s' else d) (subscriptions st)
         /\ same_subscription s s'
         /\ FoodSubscription.autoRenew s' = true
         /\ FoodSubscription.status s' = Status.active
         /\ FoodSubscription.renewalAttempts s' = 0
         /\ FoodSubscription.paymentFailure s' = false
         /\ FoodSubscription.nextBillingDate s'
            = Some (match FoodSubscription.nextBillingDate s with
                    | Some d => d
                    | None => FoodSubscription.endDate s
                    end)
         /\ FoodSubscription.payhereRecurringToken s'
            = FoodSubscription.payhereRecurringToken s
         /\ FoodSubscription.endDate s' = FoodSubscription.endDate s
         /\ logs (fst r) = logs st ++ [entry]
         /\ action entry = Action.reactivated
         /\ subscriptionId entry = FoodSubscription._id s)
  /\ orders (fst r) = orders st.
Proof.
  intros Hnd Hin Hstatus Hoff Hlive req r.
  assert (Hfind :
    findOne (fun d => identified_by req d
                      && (Status.eqb (FoodSubscription.status d) Status.active
                          || Status.eqb (FoodSubscription.status d)
                                        Status.pending_renewal)
                      && Bool.eqb (FoodSubscription.autoRenew d) false)
            (subscriptions st) = Some s).
  { apply findOne_unique; auto.
    - subst req. rewrite identified_by_id, N.eqb_refl, Hoff.
      destruct Hstatus as [-> | ->]; reflexivity.
    - intros d _ Hq. apply andb_true_iff in Hq. destruct Hq as [Hq _].
      apply andb_true_iff in Hq. destruct Hq as [Hq _].
      subst req. rewrite identified_by_id in Hq. now apply N.eqb_eq. }
  subst r. unfold reactivate_food_subscription_renewal.
  cbn [req_subscriptionId req andb]. rewrite Hfind.
  apply Z.leb_gt in Hlive. rewrite Hlive. cbv zeta.
  match goal with
  | |- context [save_subscription now ?x _] => set (s' := x)
  end.
  set (s'' := FoodSubscription.set_updatedAt now s').
  assert (Hs' : FoodSubscription._id s' = FoodSubscription._id s
                /\ same_subscription s s''
                /\ FoodSubscription.autoRenew s'' = true
                /\ FoodSubscription.status s'' = Status.active
                /\ FoodSubscription.renewalAttempts s'' = 0
                /\ FoodSubscription.paymentFailure s'' = false
                /\ FoodSubscription.nextBillingDate s''
                   = Some (match FoodSubscription.nextBillingDate s with
                           | Some d => d
                           | None => FoodSubscription.endDate s
                           end)
                /\ FoodSubscription.payhereRecurringToken s''
                   = FoodSubscription.payhereRecurringToken s
                /\ FoodSubscription.endDate s'' = FoodSubscription.endDate s).
  { subst s'' s'. clear. unfold same_subscription. destruct s as []. cbn.
    destruct nextBillingDate; cbn; repeat split;
      exists []; now rewrite app_nil_r. }
  destruct Hs' as (Hid & Hsame & Hon & Hst & Hatt & Hfail & Hnext & Htok & Hend).
  cbn [fst snd r_success r_message r_autoRenew json subscriptions logs orders
       with_subscriptions create_log].
  split; [reflexivity |]. split; [reflexivity |]. split; [reflexivity |].
  split; [| reflexivity].
  exists s''. eexists.
  split; [subst s''; apply save_subscription_unique; exact Hid |].
  clearbody s''.
  do 8 (split; [assumption |]).
  split; [reflexivity |]. split; [reflexivity |]. exact Hid.
Qed.

(** X7: cancelling the auto-renewal of an active subscription that has it on,
    designated by its id: the reply is a success; the subscription has
    auto-renewal off, no recurring token any more, the date and the reason
    of the cancellation (the reason given, or "User requested
    cancellation"), and is otherwise as before: still active, with the
    same end date and counter; the other subscriptions are untouched; one
    [auto_renewal_cancelled] entry is added to the log.  The same request
    made again is answered that no subscription was found, and writes
    nothing. *)
Theorem cancel_turns_auto_renewal_off `{Host}
    (now later : Z) (mail reason : option string) (st : State)
    (s : FoodSubscription.t) :
  NoDup (map FoodSubscription._id (subscriptions st)) ->
  In s (subscriptions st) ->
  FoodSubscription.status s = Status.active ->
  FoodSubscription.autoRenew s = true ->
  let req := {| req_subscriptionId := Some (FoodSubscription._id s);
                req_userEmail := mail; req_reason := reason |} in
  let r := cancel_food_subscription_renewal now req st in
  r_success (snd r) = true
  /\ r_autoRenew (snd r) = Some false
  /\ (exists s' entry,
         subscriptions (fst r)
         = map (fun d => if (FoodSubscription._id d
                             =? FoodSubscription._id s)%N
                         then s' else d) (subscriptions st)
         /\ same_subscription s s'
         /\ FoodSubscription.autoRenew s' = false
         /\ JS.truthy (FoodSubscription.payhereRecurringToken s') = false
         /\ FoodSubscription.status s' = Status.active
         /\ FoodSubscription.endDate s' = FoodSubscription.endDate s
         /\ FoodSubscription.nextBillingDate s'
            = FoodSubscription.nextBillingDate s
         /\ FoodSubscription.renewalAttempts s'
            = FoodSubscription.renewalAttempts s
         /\ FoodSubscription.autoRenewalCancelledDate s' = Some now
         /\ FoodSubscription.autoRenewalCancelledReason s'
            = Some (if JS.truthy reason then JS.template reason
                    else "User requested cancellation")
         /\ logs (fst r) = logs st ++ [entry]
         /\ action entry = Action.auto_renewal_cancelled
         /\ subscriptionId entry = FoodSubscription._id s
         /\ d_reason (details entry)
            = FoodSubscription.autoRenewalCancelledReason s')
  /\ orders (fst r) = orders st
  /\ fst (cancel_food_subscription_renewal later req (fst r)) = fst r
  /\ r_success (snd (cancel_food_subscription_renewal later req (fst r)))
     = false.
Proof.
  intros Hnd Hin Hactive Hauto req r.
  destruct (cancel_by_id now mail reason st s Hnd Hin Hactive Hauto)
    as (Hok & Har & (s' & entry & Hsubs & Hsame & Hoff & Hrest) & Hord).
  fold req in Hok, Har, Hsubs, Hord. fold r in Hok, Har, Hsubs, Hord.
  split; [exact Hok |]. split; [exact Har |].
  split.
  { exists s', entry. split; [exact Hsubs |]. split; [exact Hsame |].
    split; [exact Hoff | exact Hrest]. }
  split; [exact Hord |].
  apply cancel_disabled_not_found. rewrite Hsubs.
  intros d Hd Hid. subst req. rewrite identified_by_id in Hid.
  apply N.eqb_eq in Hid. apply in_map_iff in Hd. destruct Hd as (x & Hx & _).
  destruct (N.eqb_spec (FoodSubscription._id x) (FoodSubscription._id s))
    as [E | Hne]; subst d; [exact Hoff | contradiction].
Qed.

(** X8: reactivating the auto-renewal of a subscription that is active or
    pending renewal, has auto-renewal off and has not reached its end
    date, designated by its id: the reply is a success with its message,
    and has no [autoRenew] member of its own; the stored subscription
    is active with auto-renewal on, no failed attempt and no failure flag,
    and has a next billing date (the one it had, or else its end date);
    its recurring token and its end date are as before; the other
    subscriptions are untouched; one [reactivated] entry is added to the
    log.  The same request made again finds no subscription to
    reactivate, and writes nothing. *)
Theorem reactivate_turns_auto_renewal_on
    (now later : Z) (mail reason : option string) (st : State)
    (s : FoodSubscription.t) :
  NoDup (map FoodSubscription._id (subscriptions st)) ->
  In s (subscriptions st) ->
  FoodSubscription.status s = Status.active
  \/ FoodSubscription.status s = Status.pending_renewal ->
  FoodSubscription.autoRenew s = false ->
  now < FoodSubscription.endDate s ->
  let req := {| req_subscriptionId := Some (FoodSubscription._id s);
                req_userEmail := mail; req_reason := reason |} in
  let r := reactivate_food_subscription_renewal now req st in
  r_success (snd r) = true
  /\ r_message (snd r)
     = "Auto-renewal reactivated successfully. Your subscription will automatically renew."
  /\ r_autoRenew (snd r) = None
  /\ (exists s' entry,
         subscriptions (fst r)
         = map (fun d => if (FoodSubscription._id d
                             =? FoodSubscription._id s)%N
                         then s' else d) (subscriptions st)
         /\ same_subscription s s'
         /\ FoodSubscription.autoRenew s' = true
         /\ FoodSubscription.status s' = Status.active
         /\ FoodSubscription.renewalAttempts s' = 0
         /\ FoodSubscription.paymentFailure s' = false
         /\ FoodSubscription.nextBillingDate s'
            = Some (match FoodSubscription.nextBillingDate s with
                    | Some d => d
                    | None => FoodSubscription.endDate s
                    end)
         /\ FoodSubscription.payhereRecurringToken s'
            = FoodSubscription.payhereRecurringToken s
         /\ FoodSubscription.endDate s' = FoodSubscription.endDate s
         /\ logs (fst r) = logs st ++ [entry]
         /\ action entry = Action.reactivated
         /\ subscriptionId entry = FoodSubscription._id s)
  /\ orders (fst r) = orders st
  /\ fst (reactivate_food_subscription_renewal later req (fst r)) = fst r
  /\ r_success (snd (reactivate_food_subscription_renewal later req (fst r)))
     = false.
Proof.
  intros Hnd Hin Hstatus Hoff Hlive req r.
  destruct (reactivate_by_id now mail reason st s Hnd Hin Hstatus Hoff Hlive)
    as (Hok & Hmsg & Har & (s' & entry & Hsubs & Hsame & Hon & Hrest) & Hord).
  fold req in Hok, Hmsg, Har, Hsubs, Hord.
  fold r in Hok, Hmsg, Har, Hsubs, Hord.
  split; [exact Hok |]. split; [exact Hmsg |]. split; [exact Har |].
  split.
  { exists s', entry. split; [exact Hsubs |]. split; [exact Hsame |].
    split; [exact Hon | exact Hrest]. }
  split; [exact Hord |].
  apply reactivate_enabled_not_found. rewrite Hsubs.
  intros d Hd Hid. subst req. rewrite identified_by_id in Hid.
  apply N.eqb_eq in Hid. apply in_map_iff in Hd. destruct Hd as (x & Hx & _).
  destruct (N.eqb_spec (FoodSubscription._id x) (FoodSubscription._id s))
    as [E | Hne]; subst d; [exact Hon | contradiction].
Qed.

(** X9: auto-renewal switched off and then on again: the subscription has
    auto-renewal on, but the recurring token that the cancellation
    removed is not restored. *)
Theorem reactivation_does_not_restore_token `{Host}
    (t1 t2 : Z) (mail reason : option string) (st : State)
    (s : FoodSubscription.t) :
  NoDup (map FoodSubscription._id (subscriptions st)) ->
  In s (subscriptions st) ->
  FoodSubscription.status s = Status.active ->
  FoodSubscription.autoRenew s = true ->
  t2 < FoodSubscription.endDate s ->
  let req := {| req_subscriptionId := Some (FoodSubscription._id s);
                req_userEmail := mail; req_reason := reason |} in
  let st1 := fst (cancel_food_subscription_renewal t1 req st) in
  let r2 := reactivate_food_subscription_renewal t2 req st1 in
  r_success (snd r2) = true
  /\ exists s2,
       In s2 (subscriptions (fst r2))
       /\ same_subscription s s2
       /\ FoodSubscription.autoRenew s2 = true
       /\ FoodSubscription.status s2 = Status.active
       /\ JS.truthy (FoodSubscription.payhereRecurringToken s2) = false.
Proof.
  intros Hnd Hin Hactive Hauto Hlive req st1 r2.
  destruct (cancel_by_id t1 mail reason st s
              Hnd Hin Hactive Hauto)
    as (_ & _ & (s1 & entry & Hsubs & Hsame1 & Hoff & Htok & Hst1 & Hend1 & _)
        & _).
  fold req in Hsubs. fold st1 in Hsubs.
  assert (Hid : FoodSubscription._id s1 = FoodSubscription._id s)
    by apply Hsame1.
  assert (Hnd1 : NoDup (map FoodSubscription._id (subscriptions st1)))
    by (rewrite Hsubs, replaced_ids; auto).
  assert (Hin1 : In s1 (subscriptions st1))
    by (rewrite Hsubs; now apply In_replaced).
  assert (Hlive1 : t2 < FoodSubscription.endDate s1) by (rewrite Hend1; lia).
  destruct (reactivate_by_id t2 mail reason st1 s1
              Hnd1 Hin1 (or_introl Hst1) Hoff Hlive1)
    as (Hok & _ & _ & (s2 & entry2 & Hsubs2 & Hsame2 & Hon & Hst2 & _ & _
                       & _ & Htok2 & _) & _).
  rewrite Hid in Hok, Hsubs2. fold req in Hok, Hsubs2. fold r2 in Hok, Hsubs2.
  split; [exact Hok |]. exists s2.
  split; [rewrite Hsubs2; rewrite <- Hid; now apply In_replaced |].
  split; [eapply same_subscription_trans; eassumption |].
  split; [exact Hon |]. split; [exact Hst2 |]. now rewrite Htok2.
Qed.

Lemma reactivation_does_not_restore_token_witness :
  let s := sample_subscription 1 "nimal@example.com" "FOOD_RECURRING_1"
             (Some "TOKEN_A") Status.active true
             1700000000000 1702592000000 in
  let st := with_subscriptions [s] empty_state in
  let req := {| req_subscriptionId := Some 1%N; req_userEmail := None;
                req_reason := Some "moving abroad" |} in
  let st1 := fst (cancel_food_subscription_renewal 1700500000000 req st) in
  let r2 := reactivate_food_subscription_renewal 1701000000000 req st1 in
  1701000000000 < FoodSubscription.endDate s
  /\ r_success (snd r2) = true
  /\ map (fun d => (FoodSubscription.autoRenew d,
                    FoodSubscription.payhereRecurringToken d))
         (subscriptions (fst r2)) = [(true, None)].
Proof.
  intros s st req st1 r2.
  assert (Hnd : NoDup (map FoodSubscription._id (subscriptions st)))
    by (cbn; repeat constructor; intros []).
  assert (Hin : In s (subscriptions st)) by (left; reflexivity).
  assert (Hlive : 1701000000000 < FoodSubscription.endDate s) by reflexivity.
  split; [exact Hlive |].
  split; [| vm_compute; reflexivity].
  exact (proj1 (reactivation_does_not_restore_token
                  1700500000000 1701000000000 None (Some "moving abroad")
                  st s Hnd Hin eq_refl eq_refl Hlive)).
Defined.

Lemma cancel_turns_auto_renewal_off_witness :
  let s := sample_subscription 1 "nimal@example.com" "FOOD_RECURRING_1"
             (Some "TOKEN_A") Status.active true
             1700000000000 1702592000000 in
  let st := with_subscriptions [s] empty_state in
  let req := {| req_subscriptionId := Some 1%N; req_userEmail := None;
                req_reason := None |} in
  let r := cancel_food_subscription_renewal 1700500000000 req st in
  NoDup (map FoodSubscription._id (subscriptions st))
  /\ In s (subscriptions st)
  /\ r_success (snd r) = true
  /\ r_message (snd r)
     = "Auto-renewal cancelled successfully. Your food subscription will continue until 12/15/2023."
  /\ fst (cancel_food_subscription_renewal 1700600000000 req (fst r)) = fst r.
Proof.
  intros s st req r.
  assert (Hnd : NoDup (map FoodSubscription._id (subscriptions st)))
    by (cbn; repeat constructor; intros []).
  assert (Hin : In s (subscriptions st)) by (left; reflexivity).
  destruct (cancel_turns_auto_renewal_off 1700500000000 1700600000000
              None None st s Hnd Hin eq_refl eq_refl)
    as (Hok & _ & _ & _ & Hagain & _).
  split; [exact Hnd |]. split; [exact Hin |]. split; [exact Hok |].
  split; [vm_compute; reflexivity | exact Hagain].
Defined.

Lemma reactivate_turns_auto_renewal_on_witness :
  let s := sample_subscription 1 "nimal@example.com" "FOOD_RECURRING_1"
             None Status.active false 1700000000000 1702592000000 in
  let st := with_subscriptions [s] empty_state in
  let r := reactivate_food_subscription_renewal 1700500000000
             {| req_subscriptionId := Some 1%N; req_userEmail := None;
                req_reason := None |} st in
  NoDup (map FoodSubscription._id (subscriptions st))
  /\ In s (subscriptions st)
  /\ 1700500000000 < FoodSubscription.endDate s
  /\ r_success (snd r) = true
  /\ map FoodSubscription.nextBillingDate (subscriptions (fst r))
     = [Some 1702592000000].
Proof.
  intros s st r.
  assert (Hnd : NoDup (map FoodSubscription._id (subscriptions st)))
    by (cbn; repeat constructor; intros []).
  assert (Hin : In s (subscriptions st)) by (left; reflexivity).
  assert (Hlive : 1700500000000 < FoodSubscription.endDate s) by reflexivity.
  split; [exact Hnd |]. split; [exact Hin |]. split; [exact Hlive |].
  split; [| vm_compute; reflexivity].
  exact (proj1 (reactivate_turns_auto_renewal_on 1700500000000 1700600000000
                  None None st s Hnd Hin (or_introl eq_refl) eq_refl Hlive)).
Defined.

(** ** Where a notification is routed *)

Lemma handleCartPaymentNotification_subscriptions (now : Z)
    (n : Notification) (st : State) :
  subscriptions (handleCartPaymentNotification now n st) = subscriptions st
  /\ logs (handleCartPaymentNotification now n st) = logs st.
Proof.
  unfold handleCartPaymentNotification.
  destruct (findOne _ (orders st)) as [order |]; [| now split].
  destruct (opt_eqb (status_code n) (Some "2")); now split.
Qed.

Lemma handleInitialFoodPaymentWithRecurring_orders `{Host} (now : Z)
    (n : Notification) (st : State) :
  orders (handleInitialFoodPaymentWithRecurring now n st) = orders st.
Proof.
  unfold handleInitialFoodPaymentWithRecurring.
  destruct (findOne _ (subscriptions st)) as [existing |].
  - destruct (_ && _); [| reflexivity]. now destruct (date_or _ _).
  - cbv zeta.
    repeat match goal with
           | |- orders (match ?a with _ => _ end) = _ => destruct a
           end; reflexivity.
Qed.

Lemma handleRecurringFoodPayment_orders `{Host} (now : Z)
    (n : Notification) (st : State) :
  orders (handleRecurringFoodPayment now n st) = orders st.
Proof.
  unfold handleRecurringFoodPayment.
  destruct (find_recurring n (subscriptions st)) as [s |]; [| reflexivity].
  destruct (opt_eqb (status_code n) (Some "2"));
    [now destruct (recurring_success now n s)
    | now destruct (recurring_failure now n s)].
Qed.

Lemma handleFailedFoodPayment_orders (now : Z) (n : Notification)
    (st : State) :
  orders (handleFailedFoodPayment now n st) = orders st.
Proof.
  unfold handleFailedFoodPayment.
  now destruct (findOne _ (subscriptions st)) as [s |].
Qed.

(** X10: a notification changes the orders or the subscriptions and their log,
    never both.  It leaves the subscriptions and the log alone when it is
    not marked as food (neither [custom_2] nor the prefix of the order
    id), and when it is a success marked as cart: for a success the cart
    marks come first.  It leaves the orders alone when it is marked as
    food and is a failure, or is not marked as cart: for a failure the
    cart marks are not looked at. *)
Theorem notification_changes_one_collection `{Host}
    (cfg : Config) (now : Z) (n : Notification) (st : State) :
  let st' := fst (payhere_notify cfg now n st) in
  let success := opt_eqb (status_code n) (Some "2") in
  let cart := opt_eqb (custom_1 n) (Some "cart_order")
              || JS.startsWith (JS.template (order_id n)) "CART_" in
  let food := opt_eqb (custom_2 n) (Some "food_monthly_recurring")
              || JS.startsWith (JS.template (order_id n)) "FOOD_" in
  (orders st' = orders st
   \/ (subscriptions st' = subscriptions st /\ logs st' = logs st))
  /\ (if negb food || (success && cart)
      then subscriptions st' = subscriptions st /\ logs st' = logs st
      else orders st' = orders st).
Proof.
  intros st' success cart food. subst st'.
  unfold payhere_notify.
  match goal with
  | |- context [fst (if ?g then _ else _)] => destruct g
  end.
  { cbn [fst]. split; [now left |]. now destruct (negb food || _). }
  destruct (merchantId cfg) as [configured |].
  2: { cbn [fst]. split; [now left |]. now destruct (negb food || _). }
  match goal with
  | |- context [fst (if ?g then _ else _)] => destruct g
  end.
  { cbn [fst]. split; [now left |]. now destruct (negb food || _). }
  destruct (merchantSecret cfg) as [secret |].
  2: { cbn [fst]. split; [now left |]. now destruct (negb food || _). }
  destruct (verifyPayHereHash n secret) as [[] |].
  2, 3: cbn [fst]; split; [now left |]; now destruct (negb food || _).
  cbn [fst]. fold success cart food.
  pose proof (handleCartPaymentNotification_subscriptions now n st) as Hc.
  pose proof (handleInitialFoodPaymentWithRecurring_orders now n st) as Hi.
  pose proof (handleRecurringFoodPayment_orders now n st) as Hr.
  pose proof (handleFailedFoodPayment_orders now n st) as Hf.
  destruct success, cart, food; cbn [negb orb andb];
    try destruct (_ && JS.truthy _); split; auto.
Qed.

(** X11: a notification of a failure whose order id is that of no subscription
    and of no order changes nothing, whatever its recurring token, its
    subscription id and its e-mail: the endpoint never hands a failure to
    the handler of recurring payments. *)
Theorem failed_notification_needs_known_order `{Host}
    (cfg : Config) (now : Z) (n : Notification) (st : State) :
  status_code n <> Some "2" ->
  findOne (fun s => opt_eqb (FoodSubscription.payhereOrderId s) (order_id n))
          (subscriptions st) = None ->
  findOne (fun o => opt_eqb (CartOrder.payhereOrderId o) (order_id n))
          (orders st) = None ->
  fst (payhere_notify cfg now n st) = st.
Proof.
  intros Hstatus Hsub Hord.
  unfold payhere_notify.
  match goal with
  | |- fst (if ?g then _ else _) = _ => destruct g; [reflexivity |]
  end.
  destruct (merchantId cfg) as [configured |]; [| reflexivity].
  match goal with
  | |- fst (if ?g then _ else _) = _ => destruct g; [reflexivity |]
  end.
  destruct (merchantSecret cfg) as [secret |]; [| reflexivity].
  destruct (verifyPayHereHash n secret) as [[] |]; try reflexivity.
  cbn [fst]. rewrite (opt_eqb_Some_false _ _ Hstatus).
  unfold handleFailedFoodPayment, handleCartPaymentNotification.
  rewrite Hsub, Hord. now destruct (_ || _).
Qed.

Lemma failed_notification_needs_known_order_witness :
  let s := sample_subscription 1 "nimal@example.com" "FOOD_RECURRING_1"
             (Some "TOKEN_A") Status.active true
             1700000000000 1702592000000 in
  let st := {| orders := []; subscriptions := [s]; logs := []; nextId := 2 |} in
  let unsigned := notification "FOOD_RECURRING_1_R2" "-2" "" None None None
                    None None None None in
  let n := notification "FOOD_RECURRING_1_R2" "-2"
             (notification_digest unsigned "secret")
             (Some "320027150502") None (Some "food_monthly_recurring")
             (Some "nimal@example.com") (Some "TOKEN_A") (Some "TOKEN_A")
             (Some "SUBSCRIPTION_PAYMENT") in
  snd (payhere_notify sample_config 1702592000000 n st)
  = {| http := 200; body := "OK" |}
  /\ fst (payhere_notify sample_config 1702592000000 n st) = st
  /\ map FoodSubscription.renewalAttempts
       (subscriptions (handleRecurringFoodPayment 1702592000000 n st)) = [1].
Proof.
  intros s st unsigned n.
  split; [vm_compute; reflexivity |].
  split; [| vm_compute; reflexivity].
  apply (failed_notification_needs_known_order sample_config 1702592000000
           n st).
  - discriminate.
  - reflexivity.
  - reflexivity.
Defined.

(** ** The handler of failed payments *)

(** X12: a failed payment on an order that has a subscription: the attempt is
    counted, the failure is flagged and dated, and one failed entry that
    carries the new count is added to the history and one to the log.
    The subscription becomes [payment_failed], or, once the count reaches
    the maximum, [cancelled] with auto-renewal off; it is never left
    active.  Its end date, next billing date and recurring token stay,
    and below the maximum so does its auto-renewal.  The other
    subscriptions and the orders are untouched. *)
Theorem failed_payment_marks_subscription
    (now : Z) (n : Notification) (st : State) (s : FoodSubscription.t) :
  findOne (fun d => opt_eqb (FoodSubscription.payhereOrderId d) (order_id n))
          (subscriptions st) = Some s ->
  let st' := handleFailedFoodPayment now n st in
  let exhausted := FoodSubscription.maxRenewalAttempts s
                   <=? FoodSubscription.renewalAttempts s + 1 in
  exists s' r entry,
    subscriptions st'
    = map (fun d => if (FoodSubscription._id d =? FoodSubscription._id s)%N
                    then s' else d) (subscriptions st)
    /\ FoodSubscription.renewalAttempts s'
       = FoodSubscription.renewalAttempts s + 1
    /\ FoodSubscription.paymentFailure s' = true
    /\ FoodSubscription.lastPaymentFailureDate s' = Some now
    /\ FoodSubscription.status s'
       = (if exhausted then Status.cancelled else Status.payment_failed)
    /\ FoodSubscription.autoRenew s'
       = (if exhausted then false else FoodSubscription.autoRenew s)
    /\ FoodSubscription.endDate s' = FoodSubscription.endDate s
    /\ FoodSubscription.nextBillingDate s'
       = FoodSubscription.nextBillingDate s
    /\ FoodSubscription.payhereRecurringToken s'
       = FoodSubscription.payhereRecurringToken s
    /\ FoodSubscription.renewalHistory s'
       = FoodSubscription.renewalHistory s ++ [r]
    /\ renewal_status r = RenewalStatus.failed
    /\ attempt r = FoodSubscription.renewalAttempts s + 1
    /\ logs st' = logs st ++ [entry]
    /\ action entry = Action.failed
    /\ subscriptionId entry = FoodSubscription._id s
    /\ orders st' = orders st.
Proof.
  intros Hfound st' exhausted. subst st' exhausted.
  unfold handleFailedFoodPayment. rewrite Hfound.
  set (s1 := failed_payment now n s).
  assert (Hs1 :
    FoodSubscription._id s1 = FoodSubscription._id s
    /\ FoodSubscription.renewalAttempts s1
       = FoodSubscription.renewalAttempts s + 1
    /\ FoodSubscription.paymentFailure s1 = true
    /\ FoodSubscription.lastPaymentFailureDate s1 = Some now
    /\ FoodSubscription.status s1
       = (if FoodSubscription.maxRenewalAttempts s
             <=? FoodSubscription.renewalAttempts s + 1
          then Status.cancelled else Status.payment_failed)
    /\ FoodSubscription.autoRenew s1
       = (if FoodSubscription.maxRenewalAttempts s
             <=? FoodSubscription.renewalAttempts s + 1
          then false else FoodSubscription.autoRenew s)
    /\ FoodSubscription.endDate s1 = FoodSubscription.endDate s
    /\ FoodSubscription.nextBillingDate s1
       = FoodSubscription.nextBillingDate s
    /\ FoodSubscription.payhereRecurringToken s1
       = FoodSubscription.payhereRecurringToken s
    /\ exists r, FoodSubscription.renewalHistory s1
                 = FoodSubscription.renewalHistory s ++ [r]
                 /\ renewal_status r = RenewalStatus.failed
                 /\ attempt r = FoodSubscription.renewalAttempts s + 1).
  { subst s1. destruct s as []. unfold failed_payment, push_renewal.
    cbn -[Z.add Z.leb String.append JS.template].
    destruct (_ <=? _); cbn -[Z.add String.append JS.template];
      repeat split; eexists; repeat split. }
  destruct Hs1 as (Hid & Hatt & Hflag & Hdate & Hstatus & Hauto & Hend
                   & Hnext & Htok & r & Hhist & Hr & Hattempt).
  set (s2 := FoodSubscription.set_updatedAt now s1).
  assert (Hs2 :
    FoodSubscription.renewalAttempts s2 = FoodSubscription.renewalAttempts s1
    /\ FoodSubscription.paymentFailure s2 = FoodSubscription.paymentFailure s1
    /\ FoodSubscription.lastPaymentFailureDate s2
       = FoodSubscription.lastPaymentFailureDate s1
    /\ FoodSubscription.status s2 = FoodSubscription.status s1
    /\ FoodSubscription.autoRenew s2 = FoodSubscription.autoRenew s1
    /\ FoodSubscription.endDate s2 = FoodSubscription.endDate s1
    /\ FoodSubscription.nextBillingDate s2
       = FoodSubscription.nextBillingDate s1
    /\ FoodSubscription.payhereRecurringToken s2
       = FoodSubscription.payhereRecurringToken s1
    /\ FoodSubscription.renewalHistory s2
       = FoodSubscription.renewalHistory s1).
  { subst s2. destruct s1 as []. cbn. repeat split. }
  destruct Hs2 as (E1 & E2 & E3 & E4 & E5 & E6 & E7 & E8 & E9).
  exists s2, r. eexists.
  cbn [subscriptions logs orders create_log with_subscriptions].
  split.
  { subst s2. rewrite <- Hid. unfold save_subscription. reflexivity. }
  clearbody s2 s1.
  rewrite E1, E2, E3, E4, E5, E6, E7, E8, E9.
  do 9 (split; [assumption |]).
  do 2 (split; [assumption |]).
  split; [reflexivity |]. split; [reflexivity |].
  split; [exact Hid | reflexivity].
Qed.

Lemma failed_payment_marks_subscription_witness :
  let s := sample_subscription 1 "nimal@example.com" "FOOD_RECURRING_1"
             (Some "TOKEN_A") Status.active true
             1700000000000 1702592000000 in
  let st := {| orders := []; subscriptions := [s]; logs := []; nextId := 2 |} in
  let n := notification "FOOD_RECURRING_1" "-2" "" None None None None None
             None None in
  findOne (fun d => opt_eqb (FoodSubscription.payhereOrderId d)
                            (order_id n)) (subscriptions st) = Some s
  /\ map (fun d => (FoodSubscription.status d, FoodSubscription.autoRenew d,
                    FoodSubscription.renewalAttempts d))
         (subscriptions (handleFailedFoodPayment 1700000500000 n st))
     = [(Status.payment_failed, true, 1)]
  /\ exists s' r entry,
       logs (handleFailedFoodPayment 1700000500000 n st) = [entry]
       /\ FoodSubscription.renewalHistory s' = [r]
       /\ attempt r = 1.
Proof.
  intros s st n.
  assert (Hfound :
    findOne (fun d => opt_eqb (FoodSubscription.payhereOrderId d)
                              (order_id n)) (subscriptions st) = Some s)
    by reflexivity.
  split; [exact Hfound |].
  split; [vm_compute; reflexivity |].
  destruct (failed_payment_marks_subscription 1700000500000 n st s Hfound)
    as (s' & r & entry & _ & _ & _ & _ & _ & _ & _ & _ & _ & Hhist & _
        & Hattempt & Hlogs & _).
  exists s', r, entry. split; [exact Hlogs |].
  split; [exact Hhist | exact Hattempt].
Defined.

(** ** Telephone numbers *)

Example cleanPhone_values :
  cleanPhone (Some "+94 77 123 4567") = "0771234567"
  /\ cleanPhone (Some "077-123-4567") = "0771234567"
  /\ cleanPhone (Some "771234567") = "0771234567"
  /\ cleanPhone (Some "  ") = "0771234567"
  /\ cleanPhone (Some "n/a") = "0"
  /\ cleanPhone (Some "0094771234567") = "0094771234567"
  /\ cleanPhone None = "0771234567".
Proof. repeat split; vm_compute; reflexivity. Qed.

Lemma remove_non_digits_digits (s : string) :
  all_chars JS.is_digit (remove_non_digits s) = true.
Proof.
  induction s as [| c s IH]; cbn [remove_non_digits all_chars]; [reflexivity |].
  destruct (JS.is_digit c) eqn:Hc; cbn [all_chars]; [| exact IH].
  now rewrite Hc, IH.
Qed.

Lemma remove_non_digits_id (s : string) :
  all_chars JS.is_digit s = true -> remove_non_digits s = s.
Proof.
  induction s as [| c s IH]; cbn [remove_non_digits all_chars]; [reflexivity |].
  intros Hd. apply andb_true_iff in Hd. destruct Hd as [Hc Hs].
  now rewrite Hc, IH.
Qed.

Lemma all_chars_drop (p : ascii -> bool) (n : nat) (s : string) :
  all_chars p s = true -> all_chars p (JS.drop n s) = true.
Proof.
  revert s. induction n as [| n IH]; intros [| c s]; cbn [JS.drop all_chars];
    auto.
  intros Hd. apply andb_true_iff in Hd. now apply IH.
Qed.

Lemma rev_string_spec (s acc : string) :
  JS.rev_string acc s
  = string_of_list_ascii (rev (list_ascii_of_string s)) +++ acc.
Proof.
  revert acc. induction s as [| c s IH]; intros acc; cbn [JS.rev_string];
    [reflexivity |].
  rewrite IH. cbn [list_ascii_of_string rev].
  generalize (rev (list_ascii_of_string s)) as l.
  induction l as [| a l IHl]; cbn; [reflexivity | now rewrite IHl].
Qed.

Lemma rev_string_involutive (s : string) :
  JS.rev_string "" (JS.rev_string "" s) = s.
Proof.
  rewrite !rev_string_spec.
  assert (Hnil : forall t, t +++ "" = t).
  { induction t as [| c t IHt]; cbn; [reflexivity | now rewrite IHt]. }
  rewrite !Hnil, list_ascii_of_string_of_list_ascii, rev_involutive.
  apply string_of_list_ascii_of_string.
Qed.

Ltac digit_cases c H :=
  destruct c as [[] [] [] [] [] [] [] []];
  try (vm_compute in H; discriminate H); clear H.

Lemma white_space_len_digit (c : ascii) (r : string) :
  JS.is_digit c = true -> JS.white_space_len (String c r) = 0%nat.
Proof. intros H. digit_cases c H; reflexivity. Qed.

Lemma white_space_len_rev_digit (c : ascii) (r : string) :
  JS.is_digit c = true -> JS.white_space_len_rev (String c r) = 0%nat.
Proof.
  intros H. digit_cases c H.
  all: unfold JS.white_space_len_rev; cbn [list_ascii_of_string map];
    generalize (map JS.code (list_ascii_of_string r)) as l; intros l;
    vm_compute;
    repeat match goal with
           | |- match ?x with _ => _ end = _ => destruct x; try reflexivity
           end.
Qed.

Lemma skip_stops (len : string -> nat) (fuel : nat) (s : string) :
  len s = 0%nat -> JS.skip len fuel s = s.
Proof. intros Hz. destruct fuel; cbn [JS.skip]; [reflexivity | now rewrite Hz]. Qed.

Lemma all_chars_rev (p : ascii -> bool) (s : string) :
  all_chars p s = true -> all_chars p (JS.rev_string "" s) = true.
Proof.
  assert (Hgen : forall t acc, all_chars p t = true -> all_chars p acc = true ->
                               all_chars p (JS.rev_string acc t) = true).
  { induction t as [| c t IH]; intros acc Ht Hacc; cbn [JS.rev_string];
      [exact Hacc |].
    cbn [all_chars] in Ht. apply andb_true_iff in Ht. destruct Ht as [Hc Ht].
    apply IH; [exact Ht |]. cbn [all_chars]. now rewrite Hc, Hacc. }
  intros Hs. now apply Hgen.
Qed.

(** [trim] leaves a string of digits as it is *)
Lemma trim_digits (s : string) :
  all_chars JS.is_digit s = true -> JS.trim s = s.
Proof.
  intros Hd. unfold JS.trim, JS.trimStart, JS.trimEnd.
  assert (Hstart : JS.skip JS.white_space_len (String.length s) s = s).
  { destruct s as [| c s]; [reflexivity |].
    apply skip_stops. apply white_space_len_digit.
    cbn [all_chars] in Hd. now apply andb_true_iff in Hd. }
  rewrite Hstart.
  assert (Hend : JS.skip JS.white_space_len_rev (String.length s)
                         (JS.rev_string "" s) = JS.rev_string "" s).
  { pose proof (all_chars_rev _ _ Hd) as Hr.
    destruct (JS.rev_string "" s) as [| c r]; [now destruct (String.length s) |].
    apply skip_stops. apply white_space_len_rev_digit.
    cbn [all_chars] in Hr. now apply andb_true_iff in Hr. }
  rewrite Hend. apply rev_string_involutive.
Qed.

Lemma cleanPhone_form (phone : option string) :
  all_chars JS.is_digit (cleanPhone phone) = true
  /\ JS.startsWith (cleanPhone phone) "0" = true.
Proof.
  unfold cleanPhone.
  match goal with
  | |- context [remove_non_digits ?x] =>
      pose proof (remove_non_digits_digits x) as Hd;
      generalize dependent (remove_non_digits x)
  end.
  intros d Hd.
  destruct (JS.startsWith d "94") eqn:H94.
  - split; [| now destruct (JS.drop 2 d)].
    change (all_chars JS.is_digit (String "0" (JS.drop 2 d)) = true).
    cbn [all_chars]. now rewrite all_chars_drop.
  - destruct (JS.startsWith d "0") eqn:H0; cbn [negb].
    + now split.
    + split; [| now destruct d].
      change (all_chars JS.is_digit (String "0" d) = true).
      cbn [all_chars]. now rewrite Hd.
Qed.

(** X13: the telephone number that is sent and stored is never empty, holds
    digits only and starts with 0; a number that is already of this form
    is kept as it is, so that normalising twice is normalising once. *)
Theorem cleanPhone_normal_form (phone : option string) :
  let p := cleanPhone phone in
  all_chars JS.is_digit p = true
  /\ JS.startsWith p "0" = true
  /\ cleanPhone (Some p) = p.
Proof.
  intros p. destruct (cleanPhone_form phone) as [Hd H0]. fold p in Hd, H0.
  split; [exact Hd |]. split; [exact H0 |].
  clearbody p. unfold cleanPhone. rewrite (trim_digits _ Hd).
  destruct p as [| c p]; [vm_compute in H0; discriminate H0 |].
  rewrite (remove_non_digits_id _ Hd).
  unfold JS.startsWith in *. cbn [String.prefix] in *.
  destruct (Ascii.ascii_dec c "0") as [-> | Hne].
  - cbn. now destruct p.
  - destruct (Ascii.ascii_dec "0" c) as [<- |]; [now elim Hne |].
    discriminate H0.
Qed.

(** ** The pattern of an e-mail address *)

Section RegExpFacts.
Import RegExp.

Lemma denotes_Seq_inv (r1 r2 : t) (us : list unit) :
  denotes (Seq r1 r2) us ->
  exists us1 us2, us = us1 ++ us2 /\ denotes r1 us1 /\ denotes r2 us2.
Proof. intros Hd. inversion Hd; subst. eauto. Qed.

Lemma nullable_denotes (r : t) : nullable r = true <-> denotes r [].
Proof.
  induction r as [| | c | c | | r1 IH1 r2 IH2 | r1 IH1 r2 IH2 | r IH];
    cbn [nullable]; split; intros Hn;
    try discriminate; try (now constructor); try (now inversion Hn).
  - apply andb_true_iff in Hn. destruct Hn as [H1 H2].
    change (@nil unit) with (@nil unit ++ []).
    constructor; [now apply IH1 | now apply IH2].
  - apply denotes_Seq_inv in Hn. destruct Hn as (us1 & us2 & Heq & H1 & H2).
    symmetry in Heq. apply app_eq_nil in Heq. destruct Heq as [-> ->].
    apply andb_true_iff. split; [now apply IH1 | now apply IH2].
  - apply orb_true_iff in Hn.
    destruct Hn as [Hn | Hn];
      [apply denotes_Alt_l; now apply IH1 | apply denotes_Alt_r; now apply IH2].
  - apply orb_true_iff.
    inversion Hn; subst; [left; now apply IH1 | right; now apply IH2].
Qed.

Lemma denotes_Seq_cons (r1 r2 : t) (u : unit) (us : list unit) :
  denotes (Seq r1 r2) (u :: us)
  <-> (denotes r1 [] /\ denotes r2 (u :: us))
      \/ exists us1 us2, us = us1 ++ us2 /\ denotes r1 (u :: us1)
                         /\ denotes r2 us2.
Proof.
  split.
  - intros Hd.
    apply denotes_Seq_inv in Hd. destruct Hd as (us1 & us2 & Heq & H1 & H2).
    destruct us1 as [| u1 us1].
    + left. cbn in Heq. subst us2. now split.
    + right. cbn in Heq. injection Heq as Hu Hus. subst u1 us.
      now exists us1, us2.
  - intros [[H1 H2] | (us1 & us2 & -> & H1 & H2)].
    + change (u :: us) with ([] ++ u :: us). now constructor.
    + change (u :: us1 ++ us2) with ((u :: us1) ++ us2). now constructor.
Qed.

Lemma denotes_Star_cons_inv (r : t) (u : unit) (us : list unit) :
  denotes (Star r) (u :: us)
  <-> exists us1 us2, us = us1 ++ us2 /\ denotes r (u :: us1)
                      /\ denotes (Star r) us2.
Proof.
  split.
  - intros Hd. remember (Star r) as sr eqn:Hsr.
    remember (u :: us) as l eqn:Hl.
    induction Hd as [| | | | | | | | r' us1 us2 H1 _ H2 IH2];
      try discriminate.
    injection Hsr as ->.
    destruct us1 as [| u1 us1].
    + cbn in Hl. now apply IH2.
    + cbn in Hl. injection Hl as Hu Hus. subst u1 us. now exists us1, us2.
  - intros (us1 & us2 & -> & H1 & H2).
    change (u :: us1 ++ us2) with ((u :: us1) ++ us2). now constructor.
Qed.

Lemma derive_denotes (u : unit) (r : t) :
  forall us, denotes (derive u r) us <-> denotes r (u :: us).
Proof.
  induction r as [| | c | c | | r1 IH1 r2 IH2 | r1 IH1 r2 IH2 | r IH];
    intros us; cbn [derive].
  - split; intros Hd; inversion Hd.
  - split; intros Hd; inversion Hd.
  - destruct u as [| b]; cbn [reads].
    + split; intros Hd; inversion Hd.
    + destruct (Ascii.eqb b c) eqn:Hb.
      * apply Ascii.eqb_eq in Hb. subst b.
        split; intros Hd; inversion Hd; subst; constructor.
      * apply Ascii.eqb_neq in Hb.
        split; intros Hd; inversion Hd; subst. now elim Hb.
  - destruct u as [| b]; cbn [reads].
    + split; intros Hd; inversion Hd.
    + destruct (Ascii.eqb b c) eqn:Hb; cbn [negb].
      * apply Ascii.eqb_eq in Hb. subst b.
        split; intros Hd; inversion Hd; subst. congruence.
      * apply Ascii.eqb_neq in Hb.
        split; intros Hd; inversion Hd; subst; now constructor.
  - destruct u as [| b]; cbn [reads].
    + split; intros Hd; inversion Hd.
    + destruct (JS.is_digit b) eqn:Hb.
      * split; intros Hd; inversion Hd; subst; now constructor.
      * split; intros Hd; inversion Hd; subst. congruence.
  - rewrite denotes_Seq_cons.
    destruct (nullable r1) eqn:Hn.
    + split.
      * intros Hd. inversion Hd as [| | | | | ? ? ? Hl | ? ? ? Hl | |]; subst.
        -- right.
           apply denotes_Seq_inv in Hl.
           destruct Hl as (us1 & us2 & -> & H1 & H2).
           exists us1, us2. split; [reflexivity |].
           split; [now apply IH1 | exact H2].
        -- left. split; [now apply nullable_denotes | now apply IH2].
      * intros [[H1 H2] | (us1 & us2 & -> & H1 & H2)].
        -- apply denotes_Alt_r. now apply IH2.
        -- apply denotes_Alt_l. constructor; [now apply IH1 | exact H2].
    + split.
      * intros Hd. apply denotes_Seq_inv in Hd.
        destruct Hd as (us1 & us2 & -> & H1 & H2).
        right. exists us1, us2. split; [reflexivity |].
        split; [now apply IH1 | exact H2].
      * intros [[H1 H2] | (us1 & us2 & -> & H1 & H2)].
        -- apply nullable_denotes in H1. congruence.
        -- constructor; [now apply IH1 | exact H2].
  - split; intros Hd; inversion Hd; subst;
      first [ apply denotes_Alt_l; now apply IH1
            | apply denotes_Alt_r; now apply IH2 ].
  - rewrite denotes_Star_cons_inv. split.
    + intros Hd. apply denotes_Seq_inv in Hd.
      destruct Hd as (us1 & us2 & -> & H1 & H2).
      exists us1, us2. split; [reflexivity |].
      split; [now apply IH | exact H2].
    + intros (us1 & us2 & -> & H1 & H2).
      constructor; [now apply IH | exact H2].
Qed.

(** the matcher decides the language of the pattern *)
Lemma matches_denotes (us : list unit) :
  forall r, matches r us = true <-> denotes r us.
Proof.
  unfold matches.
  induction us as [| u us IH]; intros r; cbn [fold_left].
  - apply nullable_denotes.
  - rewrite IH. apply derive_denotes.
Qed.

Lemma denotes_Star_class (c : ascii) (us : list unit) :
  denotes (Star (NotSpaceNor c)) us
  <-> Forall (fun u => exists b, u = Byte b /\ b <> c) us.
Proof.
  split.
  - intros Hd. remember (Star (NotSpaceNor c)) as sr eqn:Hsr.
    induction Hd as [| | | | | | | | r' us1 us2 H1 _ H2 IH2];
      try discriminate; [constructor |].
    injection Hsr as ->. apply Forall_app. split; [| now apply IH2].
    inversion H1; subst. constructor; [| constructor]. now eexists.
  - induction 1 as [| u us (b & -> & Hb) _ IH]; [constructor |].
    change (Byte b :: us) with ([Byte b] ++ us).
    constructor; [now constructor | exact IH].
Qed.

Lemma denotes_Plus_class (c : ascii) (us : list unit) :
  denotes (Plus (NotSpaceNor c)) us
  <-> us <> [] /\ Forall (fun u => exists b, u = Byte b /\ b <> c) us.
Proof.
  unfold Plus. split.
  - intros Hd. apply denotes_Seq_inv in Hd.
    destruct Hd as (us1 & us2 & -> & H1 & H2).
    inversion H1; subst. cbn [app]. split; [discriminate |].
    constructor; [now eexists | now apply denotes_Star_class].
  - intros [Hne Hall]. destruct us as [| u us]; [now elim Hne |].
    inversion Hall as [| ? ? (b & -> & Hb) Hrest]; subst.
    change (Byte b :: us) with ([Byte b] ++ us).
    constructor; [now constructor | now apply denotes_Star_class].
Qed.

End RegExpFacts.

(** X14: the pattern accepts exactly the addresses made of a local part, [@],
    a domain, a dot and an ending, the three of them not empty and free
    of white space and of [@].  So an accepted address has one [@] and
    no white space, and a dot after the [@] that neither follows it at
    once nor ends the address; nothing more is asked of it. *)
Theorem emailRegex_accepts (s : string) :
  RegExp.test emailRegex s = true
  <-> exists a b c,
        RegExp.units (String.length s) s
        = a ++ RegExp.Byte "@" :: b ++ RegExp.Byte "." :: c
        /\ a <> [] /\ b <> [] /\ c <> []
        /\ Forall plain a /\ Forall plain b /\ Forall plain c.
Proof.
  unfold RegExp.test. rewrite matches_denotes. unfold emailRegex.
  generalize (RegExp.units (String.length s) s) as us. intros us.
  split.
  - intros Hd.
    apply denotes_Seq_inv in Hd. destruct Hd as (a & r1 & -> & Ha & H1).
    apply denotes_Seq_inv in H1. destruct H1 as (at_ & r2 & -> & Hat & H2).
    apply denotes_Seq_inv in H2. destruct H2 as (b & r3 & -> & Hb & H3).
    apply denotes_Seq_inv in H3. destruct H3 as (dot & c & -> & Hdot & Hc).
    inversion Hat; subst. inversion Hdot; subst.
    apply denotes_Plus_class in Ha, Hb, Hc.
    destruct Ha as [Ha1 Ha2], Hb as [Hb1 Hb2], Hc as [Hc1 Hc2].
    exists a, b, c. cbn [app]. now repeat split.
  - intros (a & b & c & -> & Ha & Hb & Hc & Pa & Pb & Pc).
    constructor; [apply denotes_Plus_class; now split |].
    change (RegExp.Byte "@" :: b ++ RegExp.Byte "." :: c)
      with ([RegExp.Byte "@"] ++ b ++ [RegExp.Byte "."] ++ c).
    constructor; [constructor |].
    constructor; [apply denotes_Plus_class; now split |].
    constructor; [constructor |].
    apply denotes_Plus_class; now split.
Qed.

Example emailRegex_values :
  map (RegExp.test emailRegex)
      ["nimal@example.com"; "a@b.c"; "a@b..c"; "a.b@c.d.e";
       "a@b"; "a@b."; "a@.b"; "a@@b.c"; "a b@c.d"; "@b.c"; "a@b.c "; ""]
  = [true; true; true; true;
     false; false; false; false; false; false; false; false].
Proof. vm_compute. reflexivity. Qed.

(** ** The payment of a food subscription, from the request to the
    subscription *)

Lemma or_else_nonempty (s otherwise : string) :
  otherwise <> "" -> or_else s otherwise <> "".
Proof. intros Hne. now destruct s. Qed.

Lemma prefix_append (p s : string) : JS.startsWith (p +++ s) p = true.
Proof.
  unfold JS.startsWith.
  induction p as [| c p IH]; cbn [String.append String.prefix];
    [now destruct s |].
  now destruct (Ascii.ascii_dec c c).
Qed.


(** what a request must be for the payment to be created *)
Lemma food_payment_Created (cfg : Config) (site : Site) (now random : Z)
    (req : FoodPaymentRequest) (oid : string) (pd : PaymentData)
    (amt : JS.number) (cur : string) (rec : option bool) (msg : string) :
  create_food_subscription_payment cfg site now random req
  = Created oid pd amt cur rec msg ->
  let currency := match fp_currency req with Some c => c | None => "LKR" end in
  exists cd,
    fp_customerData req = Some cd
    /\ JS.truthy (merchantId cfg) = true
    /\ JS.truthy (merchantSecret cfg) = true
    /\ strict_equal
         (match fp_amount req with
          | Some amount => JS.parseFloat_value amount
          | None => JS.NaN
          end) (JS.number_of_Z 2500) = true
    /\ JS.truthy (fc_name cd) = true
    /\ JS.truthy (fc_email cd) = true
    /\ JS.truthy (fc_address cd) = true
    /\ RegExp.test emailRegex (JS.trim (JS.template (fc_email cd))) = true
    /\ oid = "FOOD_RECURRING_" +++ JS.string_of_Z now +++ "_"
             +++ JS.string_of_Z random
    /\ pd_order_id pd = oid
    /\ pd_merchant_id pd = JS.template (merchantId cfg)
    /\ pd_amount pd = JS.toFixed2 (JS.number_of_Z 2500)
    /\ pd_currency pd = JS.toUpperCase currency
    /\ pd_custom_1 pd = "plan_" +++ JS.template (fp_planId req)
    /\ pd_custom_2 pd = "food_monthly_recurring"
    /\ pd_hash pd
       = generateRecurringPayHereHash (JS.template (merchantId cfg)) oid
           (JS.VNumber (JS.number_of_Z 2500)) currency
           (JS.template (merchantSecret cfg))
    /\ pd_phone pd = cleanPhone (fc_phoneNumber cd)
    /\ pd_first_name pd <> ""
    /\ pd_last_name pd <> ""
    /\ amt = JS.number_of_Z 2500
    /\ cur = JS.toUpperCase currency.
Proof.
  intros Hc currency. subst currency.
  unfold create_food_subscription_payment in Hc.
  destruct (JS.truthy (merchantId cfg)); [| discriminate Hc].
  destruct (JS.truthy (merchantSecret cfg)); [| discriminate Hc].
  cbn [negb orb] in Hc.
  destruct (strict_equal _ (JS.number_of_Z 2500)); [| discriminate Hc].
  cbn [negb] in Hc.
  destruct (fp_customerData req) as [cd |]; [| discriminate Hc].
  destruct (JS.truthy (fc_name cd)) eqn:Hn; [| discriminate Hc].
  destruct (JS.truthy (fc_email cd)) eqn:He; [| discriminate Hc].
  destruct (JS.truthy (fc_address cd)) eqn:Ha; [| discriminate Hc].
  cbn [negb orb] in Hc.
  destruct (RegExp.test emailRegex _) eqn:Hre; [| discriminate Hc].
  cbn [negb] in Hc.
  cbv zeta in Hc.
  pose proof (f_equal (fun r => match r with
                                | Created o _ _ _ _ _ => o
                                | Refused _ _ => oid
                                end) Hc) as Hoid.
  pose proof (f_equal (fun r => match r with
                                | Created _ p _ _ _ _ => p
                                | Refused _ _ => pd
                                end) Hc) as Hpd.
  pose proof (f_equal (fun r => match r with
                                | Created _ _ a _ _ _ => a
                                | Refused _ _ => amt
                                end) Hc) as Hamt.
  pose proof (f_equal (fun r => match r with
                                | Created _ _ _ c _ _ => c
                                | Refused _ _ => cur
                                end) Hc) as Hcur.
  cbv beta iota in Hoid, Hpd, Hamt, Hcur. clear Hc.
  subst oid pd amt cur.
  exists cd.
  cbn [pd_order_id pd_merchant_id pd_amount pd_currency pd_custom_1
       pd_custom_2 pd_hash pd_phone pd_first_name pd_last_name].
  do 4 (split; [reflexivity |]).
  do 4 (split; [assumption |]).
  do 9 (split; [reflexivity |]).
  split; [now apply or_else_nonempty |].
  split; [now apply or_else_nonempty |].
  now split.
Qed.

Lemma validatePayHereConfig_spec (cfg : Config) :
  validatePayHereConfig cfg
  = JS.truthy (merchantId cfg) && JS.truthy (merchantSecret cfg).
Proof.
  unfold validatePayHereConfig.
  now destruct (JS.truthy (merchantId cfg)), (JS.truthy (merchantSecret cfg)).
Qed.

(** X15: the endpoint of the food subscription creates a payment exactly when
    the configuration is one that [validatePayHereConfig] accepts (it has
    a merchant id and a secret), the amount parses to 2500,
    the customer has a name, an e-mail address and an address, and the
    trimmed e-mail address matches the pattern.  The payment created is
    of 2500.00 whatever the way the amount was written, its order id
    starts with FOOD_RECURRING_, its telephone number holds digits only
    and starts with 0, and its first and last names are not empty.  A
    refusal is a 500 for the configuration and a 400 otherwise. *)
Theorem food_payment_created_iff_valid
    (cfg : Config) (site : Site) (now random : Z) (req : FoodPaymentRequest) :
  let configured := validatePayHereConfig cfg in
  let valid :=
    strict_equal (match fp_amount req with
                  | Some amount => JS.parseFloat_value amount
                  | None => JS.NaN
                  end) (JS.number_of_Z 2500)
    && match fp_customerData req with
       | Some cd =>
           JS.truthy (fc_name cd) && JS.truthy (fc_email cd)
           && JS.truthy (fc_address cd)
           && RegExp.test emailRegex (JS.trim (JS.template (fc_email cd)))
       | None => false
       end in
  match create_food_subscription_payment cfg site now random req with
  | Created oid pd amt cur rec msg =>
      configured && valid = true
      /\ pd_order_id pd = oid
      /\ JS.startsWith oid "FOOD_RECURRING_" = true
      /\ pd_amount pd = "2500.00"
      /\ amt = JS.number_of_Z 2500
      /\ pd_currency pd = cur
      /\ all_chars JS.is_digit (pd_phone pd) = true
      /\ JS.startsWith (pd_phone pd) "0" = true
      /\ pd_first_name pd <> ""
      /\ pd_last_name pd <> ""
  | Refused code _ =>
      configured && valid = false
      /\ code = (if configured then 400 else 500)
  end.
Proof.
  intros configured valid.
  destruct (create_food_subscription_payment cfg site now random req)
    as [code err | oid pd amt cur rec msg] eqn:Hc.
  - subst configured valid. rewrite validatePayHereConfig_spec. revert Hc.
    unfold create_food_subscription_payment.
    destruct (JS.truthy (merchantId cfg)), (JS.truthy (merchantSecret cfg));
      cbn [negb orb andb]; try (intros Hc; injection Hc as <- <-; now split).
    destruct (strict_equal _ (JS.number_of_Z 2500)); cbn [negb andb];
      [| intros Hc; injection Hc as <- <-; now split].
    destruct (fp_customerData req) as [cd |];
      [| intros Hc; injection Hc as <- <-; now split].
    destruct (JS.truthy (fc_name cd)), (JS.truthy (fc_email cd)),
      (JS.truthy (fc_address cd)); cbn [negb orb andb];
      try (intros Hc; injection Hc as <- <-; now split).
    destruct (RegExp.test emailRegex _); cbn [negb];
      [discriminate | intros Hc; injection Hc as <- <-; now split].
  - destruct (food_payment_Created _ _ _ _ _ _ _ _ _ _ _ Hc)
      as (cd & Hcd & Hm & Hs & Ha & Hn & He & Had & Hre & Hoid & Hpo & _
          & Hamt & Hcur & _ & _ & _ & Hph & Hf & Hl & Hamt' & Hcur').
    subst configured valid.
    rewrite validatePayHereConfig_spec, Hm, Hs, Ha, Hcd, Hn, He, Had, Hre.
    split; [reflexivity |]. split; [exact Hpo |].
    split; [rewrite Hoid; apply prefix_append |].
    split; [rewrite Hamt; vm_compute; reflexivity |].
    split; [exact Hamt' |]. split; [now rewrite Hcur, Hcur' |].
    rewrite Hph.
    split; [apply cleanPhone_form |]. split; [apply cleanPhone_form |].
    now split.
Qed.






(** ** [trim] *)

Lemma list_ascii_of_string_app (a b : string) :
  list_ascii_of_string (a +++ b)
  = list_ascii_of_string a ++ list_ascii_of_string b.
Proof.
  induction a as [| c a IH]; cbn [String.append list_ascii_of_string app];
    [reflexivity | now rewrite IH].
Qed.

(** a white-space character at the head of a string is one at the head
    of every string that starts with it *)
Lemma white_space_len_prefix (a b : string) :
  JS.white_space_len (a +++ b) = 0%nat -> JS.white_space_len a = 0%nat.
Proof.
  unfold JS.white_space_len. rewrite list_ascii_of_string_app, map_app.
  generalize (map JS.code (list_ascii_of_string a)) as l.
  generalize (map JS.code (list_ascii_of_string b)) as l'.
  intros l' l H.
  repeat match goal with
         | |- 0%nat = 0%nat => reflexivity
         | E : ?x = 0%nat |- ?x = 0%nat => exact E
         | E : Datatypes.S _ = 0%nat |- _ => discriminate E
         | |- context [match ?x with _ => _ end] =>
             is_var x; destruct x; cbn [app] in H |- *
         | |- context [if ?c then _ else _] => destruct c
         end.
Qed.

Lemma length_drop (n : nat) (s : string) :
  (String.length (JS.drop n s) <= String.length s)%nat.
Proof.
  revert s. induction n as [| n IH]; intros [| c s];
    cbn [JS.drop String.length]; try lia.
  specialize (IH s). lia.
Qed.

(** with fuel for the whole string, [skip] stops where [len] finds
    nothing more *)
Lemma skip_done (len : string -> nat) (fuel : nat) (s : string) :
  len "" = 0%nat -> (String.length s <= fuel)%nat ->
  len (JS.skip len fuel s) = 0%nat.
Proof.
  intros Hnil. revert s.
  induction fuel as [| fuel IH]; intros s Hlen; cbn [JS.skip].
  - destruct s; [exact Hnil | cbn [String.length] in Hlen; lia].
  - destruct (len s) as [| k] eqn:Hk; [exact Hk |].
    apply IH. destruct s as [| c s]; [congruence |].
    cbn [JS.drop String.length] in *. pose proof (length_drop k s). lia.
Qed.

Lemma skip_suffix (len : string -> nat) (fuel : nat) (s : string) :
  exists p, s = p +++ JS.skip len fuel s.
Proof.
  assert (Hdrop : forall n t, exists p, t = p +++ JS.drop n t).
  { induction n as [| n IHn]; intros [| c t]; cbn [JS.drop];
      try (now exists "").
    destruct (IHn t) as [p Hp]. exists (String c p). cbn. now rewrite <- Hp. }
  revert s. induction fuel as [| fuel IH]; intros s; cbn [JS.skip];
    [now exists "" |].
  destruct (len s) as [| k]; [now exists "" |].
  destruct (Hdrop (Datatypes.S k) s) as [p Hp].
  destruct (IH (JS.drop (Datatypes.S k) s)) as [q Hq].
  exists (p +++ q).
  assert (Hassoc : forall x y z, (x +++ y) +++ z = x +++ y +++ z).
  { induction x as [| c x IHx]; intros y z; cbn; [reflexivity | now rewrite IHx]. }
  now rewrite Hassoc, <- Hq, <- Hp.
Qed.

Lemma rev_string_app (a b : string) :
  JS.rev_string "" (a +++ b) = JS.rev_string "" b +++ JS.rev_string "" a.
Proof.
  rewrite !rev_string_spec, list_ascii_of_string_app, rev_app_distr.
  assert (Hnil : forall t, t +++ "" = t).
  { induction t as [| c t IHt]; cbn; [reflexivity | now rewrite IHt]. }
  rewrite !Hnil.
  generalize (rev (list_ascii_of_string b)) as x.
  generalize (rev (list_ascii_of_string a)) as y.
  intros y x. induction x as [| c x IHx]; cbn; [reflexivity | now rewrite IHx].
Qed.

Lemma length_rev_string (s : string) :
  String.length (JS.rev_string "" s) = String.length s.
Proof.
  assert (Hgen : forall t acc, String.length (JS.rev_string acc t)
                               = (String.length t + String.length acc)%nat).
  { induction t as [| c t IH]; intros acc; cbn [JS.rev_string String.length];
      [reflexivity |].
    rewrite IH. cbn [String.length]. lia. }
  rewrite Hgen. cbn [String.length]. lia.
Qed.

(** trimming twice is trimming once *)
Lemma trim_idempotent (s : string) : JS.trim (JS.trim s) = JS.trim s.
Proof.
  unfold JS.trim.
  set (A := JS.trimStart s).
  assert (HA : JS.white_space_len A = 0%nat).
  { subst A. unfold JS.trimStart. apply skip_done; [reflexivity | lia]. }
  set (R := JS.skip JS.white_space_len_rev (String.length A)
                    (JS.rev_string "" A)).
  assert (HR : JS.white_space_len_rev R = 0%nat).
  { subst R. apply skip_done; [reflexivity |]. rewrite length_rev_string. lia. }
  assert (HB : JS.trimEnd A = JS.rev_string "" R) by reflexivity.
  rewrite HB.
  assert (Hstart : JS.trimStart (JS.rev_string "" R) = JS.rev_string "" R).
  { unfold JS.trimStart. apply skip_stops.
    destruct (skip_suffix JS.white_space_len_rev (String.length A)
                          (JS.rev_string "" A)) as [p Hp].
    fold R in Hp.
    apply (f_equal (JS.rev_string "")) in Hp.
    rewrite rev_string_involutive, rev_string_app in Hp.
    apply (white_space_len_prefix _ (JS.rev_string "" p)).
    now rewrite <- Hp. }
  rewrite Hstart. unfold JS.trimEnd.
  rewrite rev_string_involutive, skip_stops; [reflexivity | exact HR].
Qed.

(** ** The signature of the payment data *)

Lemma string_of_uint_digits (u : Decimal.uint) :
  all_chars JS.is_digit (DecimalString.NilEmpty.string_of_uint u) = true.
Proof. induction u; cbn; auto. Qed.

Lemma string_of_Z_digits (z : Z) :
  all_chars JS.is_digit (JS.string_of_Z z) = true /\ JS.string_of_Z z <> "".
Proof.
  unfold JS.string_of_Z, DecimalString.NilZero.string_of_uint.
  destruct (N.to_uint (Z.to_N z)) as [| u | u | u | u | u | u | u | u | u | u];
    (split; [| discriminate]); try reflexivity;
    apply (string_of_uint_digits (_ u)).
Qed.

Lemma trim_fixed (s : string) :
  JS.white_space_len s = 0%nat ->
  JS.white_space_len_rev (JS.rev_string "" s) = 0%nat ->
  JS.trim s = s.
Proof.
  intros Hs Hr. unfold JS.trim, JS.trimStart, JS.trimEnd.
  now rewrite (skip_stops _ _ _ Hs), (skip_stops _ _ _ Hr),
    rev_string_involutive.
Qed.

Lemma trim_order_id (prefix : string) (c : ascii) (now random : Z) :
  (forall r, JS.white_space_len (String c r) = 0%nat) ->
  let orderId := String c prefix +++ JS.string_of_Z now +++ "_"
                 +++ JS.string_of_Z random in
  JS.trim orderId = orderId.
Proof.
  intros Hc orderId. apply trim_fixed; [apply Hc |].
  subst orderId.
  change (String c prefix +++ JS.string_of_Z now +++ "_"
          +++ JS.string_of_Z random)
    with ((String c prefix) +++ (JS.string_of_Z now +++ ("_"
          +++ JS.string_of_Z random))).
  rewrite !rev_string_app.
  destruct (string_of_Z_digits random) as [Hd Hne].
  apply all_chars_rev in Hd.
  destruct (JS.rev_string "" (JS.string_of_Z random)) as [| d r] eqn:E.
  - apply (f_equal (JS.rev_string "")) in E.
    rewrite rev_string_involutive in E. now elim Hne.
  - cbn [String.append]. apply white_space_len_rev_digit.
    cbn [all_chars] in Hd. now apply andb_true_iff in Hd.
Qed.

(** X17: the signature that the endpoint of the food subscription sends is the
    one that the gateway computes from the data sent with it: the digest
    of the merchant id, the order id, the amount and the currency of the
    payment data, followed by the digest of the secret.  This holds for
    the configuration as it is loaded (the merchant id and the secret
    are trimmed then), when the currency sent has no white space around
    it. *)
Theorem food_payment_hash_is_gateway_digest
    (env : Env) (site : Site) (now random : Z) (req : FoodPaymentRequest)
    (oid : string) (pd : PaymentData) (amt : JS.number) (cur : string)
    (rec : option bool) (msg secret : string) :
  create_food_subscription_payment (payhereConfig_of env) site now random req
  = Created oid pd amt cur rec msg ->
  merchantSecret (payhereConfig_of env) = Some secret ->
  JS.trim (pd_currency pd) = pd_currency pd ->
  pd_hash pd
  = hash (pd_merchant_id pd +++ pd_order_id pd +++ pd_amount pd
          +++ pd_currency pd +++ hash secret).
Proof.
  intros Hc Hsecret Hcur.
  destruct (food_payment_Created _ _ _ _ _ _ _ _ _ _ _ Hc)
    as (cd & _ & Hm & _ & _ & _ & _ & _ & _ & Eoid & Epo & Epm & Epa & Epc
        & _ & _ & Eh & _).
  rewrite Eh, Epm, Epo, Epa, Epc. rewrite Epc in Hcur.
  unfold generateRecurringPayHereHash, hash.
  rewrite Hcur, Hsecret. cbn [JS.template].
  assert (Hmid : JS.trim (JS.template (merchantId (payhereConfig_of env)))
                 = JS.template (merchantId (payhereConfig_of env))).
  { cbn [payhereConfig_of merchantId] in *.
    destruct (PAYHERE_MERCHANT_ID env) as [m |]; [| discriminate Hm].
    cbn [option_map JS.template]. apply trim_idempotent. }
  assert (Hsec : JS.trim secret = secret).
  { cbn [payhereConfig_of merchantSecret] in Hsecret.
    destruct (PAYHERE_MERCHANT_SECRET env) as [x |]; [| discriminate Hsecret].
    cbn [option_map] in Hsecret. injection Hsecret as <-.
    apply trim_idempotent. }
  assert (Hoid : JS.trim oid = oid).
  { rewrite Eoid. apply (trim_order_id "OOD_RECURRING_" "F"). reflexivity. }
  rewrite Hmid, Hsec, Hoid.
  assert (Hamount :
    JS.toFixed2 (JS.parseFloat_value (JS.VNumber (JS.number_of_Z 2500)))
    = JS.toFixed2 (JS.number_of_Z 2500)) by (vm_compute; reflexivity).
  now rewrite Hamount.
Qed.

Lemma food_payment_hash_is_gateway_digest_witness :
  match create_food_subscription_payment (payhereConfig_of sample_env)
          (site_of sample_env) 1700000000000 42 sample_food_request with
  | Created oid pd _ _ _ _ =>
      oid = "FOOD_RECURRING_1700000000000_42"
      /\ pd_merchant_id pd = "1211149"
      /\ pd_currency pd = "LKR"
      /\ pd_email pd = "nimal@example.com"
      /\ pd_phone pd = "0771234567"
      /\ pd_hash pd
         = hash (pd_merchant_id pd +++ pd_order_id pd +++ pd_amount pd
                 +++ pd_currency pd +++ hash "secret")
  | Refused _ _ => False
  end.
Proof.
  destruct (create_food_subscription_payment (payhereConfig_of sample_env)
              (site_of sample_env) 1700000000000 42 sample_food_request)
    as [code err | oid pd amt cur rec msg] eqn:Hc;
    [vm_compute in Hc; discriminate Hc |].
  pose proof (food_payment_hash_is_gateway_digest sample_env
                (site_of sample_env) 1700000000000 42 sample_food_request
                oid pd amt cur rec msg "secret" Hc eq_refl) as Hhash.
  vm_compute in Hc.
  injection Hc as Hoid Hpd _ _ _ _. subst oid pd.
  do 5 (split; [reflexivity |]).
  apply Hhash. vm_compute. reflexivity.
Defined.

(** ** The status endpoints *)

Lemma find_save_subscription (now : Z) (q : FoodSubscription.t -> bool)
    (s s' : FoodSubscription.t) (c : list FoodSubscription.t) :
  find q c = Some s ->
  FoodSubscription._id s' = FoodSubscription._id s ->
  q (FoodSubscription.set_updatedAt now s') = true ->
  find q (save_subscription now s' c)
  = Some (FoodSubscription.set_updatedAt now s').
Proof.
  intros Hfind Hid Hq. unfold save_subscription.
  induction c as [| d c IH]; cbn [find map] in *; [discriminate |].
  destruct (q d) eqn:Hqd.
  - injection Hfind as ->. now rewrite Hid, N.eqb_refl, Hq.
  - destruct (FoodSubscription._id d =? FoodSubscription._id s')%N.
    + now rewrite Hq.
    + rewrite Hqd. auto.
Qed.

(** X18: the status endpoint of the cart answers [completed] for an order
    that exists, whatever became of its payment: it does so for an order
    that awaits its payment, and after the notification of a failed
    payment it still does, showing the payment as failed and the order as
    cancelled. *)
Theorem cart_status_completed_after_failed_payment
    (now : Z) (n : Notification) (st : State) (oid : string)
    (o : CartOrder.t) :
  order_id n = Some oid ->
  status_code n <> Some "2" ->
  findOne (fun d => opt_eqb (CartOrder.payhereOrderId d) (Some oid))
          (orders st) = Some o ->
  reply_status (cart_order_status oid st) = "completed"
  /\ exists v,
       cart_order_status oid (handleCartPaymentNotification now n st)
       = Completed v
       /\ ov_id v = CartOrder._id o
       /\ ov_paymentStatus v = PaymentStatus.failed
       /\ ov_orderStatus v = OrderStatus.cancelled.
Proof.
  intros Hoid Hstatus Hfound.
  split; [unfold cart_order_status; now rewrite Hfound |].
  unfold handleCartPaymentNotification. rewrite Hoid, Hfound.
  rewrite (opt_eqb_Some_false _ _ Hstatus).
  unfold cart_order_status. cbn [orders with_orders].
  unfold findOne in *.
  assert (Hq : opt_eqb (CartOrder.payhereOrderId o) (Some oid) = true).
  { apply find_some in Hfound. apply Hfound. }
  erewrite find_save_order; [| exact Hfound | now destruct o | now destruct o].
  eexists. split; [reflexivity |]. now destruct o.
Qed.

Lemma cart_status_completed_after_failed_payment_witness :
  let st := with_orders [sample_order 1 "CART_1" 1700000000000] empty_state in
  let n := notification "CART_1" "-2" "" None (Some "cart_order") None None
             None None None in
  order_id n = Some "CART_1"
  /\ status_code n <> Some "2"
  /\ reply_status (cart_order_status "CART_1" st) = "completed"
  /\ reply_status
       (cart_order_status "CART_1"
          (handleCartPaymentNotification 1700000100000 n st)) = "completed".
Proof.
  intros st n.
  assert (Hstatus : status_code n <> Some "2") by discriminate.
  destruct (cart_status_completed_after_failed_payment 1700000100000 n st
              "CART_1" (sample_order 1 "CART_1" 1700000000000)
              eq_refl Hstatus eq_refl) as (Hbefore & v & Hv & _).
  split; [reflexivity |]. split; [exact Hstatus |].
  split; [exact Hbefore |]. now rewrite Hv.
Defined.

(** X19: the status endpoint of the food subscriptions answers [completed]
    for an order that has a subscription, also after the notification of
    a failed payment: the subscription it shows is then
    [payment_failed], or [cancelled] once the failed attempts reach the
    maximum. *)
Theorem food_status_completed_after_failed_payment
    (now : Z) (n : Notification) (st : State) (oid : string)
    (s : FoodSubscription.t) :
  order_id n = Some oid ->
  findOne (fun d => opt_eqb (FoodSubscription.payhereOrderId d) (Some oid))
          (subscriptions st) = Some s ->
  exists v,
    food_subscription_status oid (handleFailedFoodPayment now n st)
    = Completed v
    /\ sv_id v = FoodSubscription._id s
    /\ sv_status v
       = Some (if FoodSubscription.maxRenewalAttempts s
                  <=? FoodSubscription.renewalAttempts s + 1
               then Status.cancelled else Status.payment_failed)
    /\ sv_endDate v = Some (FoodSubscription.endDate s).
Proof.
  intros Hoid Hfound.
  unfold handleFailedFoodPayment. rewrite Hoid, Hfound.
  unfold food_subscription_status.
  cbn [subscriptions with_subscriptions create_log].
  unfold findOne in *.
  assert (Hq : opt_eqb (FoodSubscription.payhereOrderId s) (Some oid) = true).
  { apply find_some in Hfound. apply Hfound. }
  assert (Hf : FoodSubscription._id (failed_payment now n s)
               = FoodSubscription._id s
               /\ FoodSubscription.payhereOrderId
                    (FoodSubscription.set_updatedAt now
                       (failed_payment now n s))
                  = FoodSubscription.payhereOrderId s
               /\ FoodSubscription._id
                    (FoodSubscription.set_updatedAt now
                       (failed_payment now n s))
                  = FoodSubscription._id s
               /\ FoodSubscription.status
                    (FoodSubscription.set_updatedAt now
                       (failed_payment now n s))
                  = (if FoodSubscription.maxRenewalAttempts s
                        <=? FoodSubscription.renewalAttempts s + 1
                     then Status.cancelled else Status.payment_failed)
               /\ FoodSubscription.endDate
                    (FoodSubscription.set_updatedAt now
                       (failed_payment now n s))
                  = FoodSubscription.endDate s).
  { destruct s as []. unfold failed_payment, push_renewal.
    cbn -[Z.add Z.leb String.append JS.template].
    destruct (_ <=? _); cbn -[Z.add String.append JS.template];
      repeat split. }
  destruct Hf as (Hid & Hoid' & Hid' & Hst & Hend).
  erewrite find_save_subscription;
    [| exact Hfound | exact Hid | now rewrite Hoid'].
  eexists. split; [reflexivity |].
  cbn [sv_id sv_status sv_endDate]. now rewrite Hid', Hst, Hend.
Qed.

Lemma food_status_completed_after_failed_payment_witness :
  let s := sample_subscription 1 "nimal@example.com" "FOOD_RECURRING_1"
             None Status.active false 1700000000000 1702592000000 in
  let st := with_subscriptions [s] empty_state in
  let n := notification "FOOD_RECURRING_1" "-2" "" None None None None None
             None None in
  order_id n = Some "FOOD_RECURRING_1"
  /\ exists v,
       food_subscription_status "FOOD_RECURRING_1"
         (handleFailedFoodPayment 1700000100000 n st) = Completed v
       /\ sv_status v = Some Status.payment_failed.
Proof.
  intros s st n. split; [reflexivity |].
  destruct (food_status_completed_after_failed_payment 1700000100000 n st
              "FOOD_RECURRING_1" s eq_refl eq_refl)
    as (v & Hv & _ & Hst & _).
  exists v. split; [exact Hv | exact Hst].
Defined.

(** ** The check of a subscription *)

(** the subscriptions that a check request designates *)
Lemma findOne_latest_unique (created : FoodSubscription.t -> Z)
    (q : FoodSubscription.t -> bool) (c : list FoodSubscription.t)
    (s : FoodSubscription.t) :
  NoDup (map FoodSubscription._id c) ->
  In s c ->
  (forall d, q d = (FoodSubscription._id d =? FoodSubscription._id s)%N) ->
  findOne_latest created q c = Some s.
Proof.
  intros Hnd Hin Hq.
  destruct (findOne_latest created q c) as [s' |] eqn:Hfind.
  - apply findOne_latest_Some in Hfind. destruct Hfind as (Hin' & Hq' & _).
    rewrite Hq in Hq'. apply N.eqb_eq in Hq'.
    f_equal. now apply (NoDup_map_In_eq FoodSubscription._id c).
  - pose proof (findOne_latest_None created q c Hfind s Hin) as Hno.
    rewrite Hq, N.eqb_refl in Hno. discriminate.
Qed.


Example check_ignores_older_active_subscription :
  let older := sample_subscription 1 "nimal@example.com" "FOOD_RECURRING_1"
                 (Some "TOKEN_A") Status.active true
                 1700000000000 1702592000000 in
  let newer := FoodSubscription.set_status Status.cancelled
                 (sample_subscription 2 "nimal@example.com" "FOOD_RECURRING_2"
                    None Status.active false 1700500000000 1703092000000) in
  let st := with_subscriptions [older; newer] empty_state in
  match check_food_subscription 1701000000000
          {| ck_email := Some "Nimal@Example.com "; ck_subscriptionId := None |}
          st with
  | Checked true false (Some v) => sv_id v = 2%N
  | _ => False
  end.
Proof. vm_compute. reflexivity. Qed.

(** X21: after the auto-renewal of an active subscription is cancelled, the
    check of this subscription still reports it as active, with
    auto-renewal off, at every time before its end date: the
    cancellation stops the renewal, not the subscription. *)
Theorem cancelled_renewal_stays_active_until_end `{Host}
    (now later : Z) (mail reason : option string) (st : State)
    (s : FoodSubscription.t) :
  NoDup (map FoodSubscription._id (subscriptions st)) ->
  In s (subscriptions st) ->
  FoodSubscription.status s = Status.active ->
  FoodSubscription.autoRenew s = true ->
  later < FoodSubscription.endDate s ->
  let st' := fst (cancel_food_subscription_renewal now
                    {| req_subscriptionId := Some (FoodSubscription._id s);
                       req_userEmail := mail; req_reason := reason |} st) in
  exists v,
    check_food_subscription later
      {| ck_email := None;
         ck_subscriptionId := Some (FoodSubscription._id s) |} st'
    = Checked true true (Some v)
    /\ sv_id v = FoodSubscription._id s
    /\ sv_autoRenew v = false
    /\ sv_endDate v = Some (FoodSubscription.endDate s).
Proof.
  intros Hnd Hin Hactive Hauto Hlive st'.
  destruct (cancel_by_id now mail reason st s Hnd Hin Hactive Hauto)
    as (_ & _ & (s1 & entry & Hsubs & Hsame & Hoff & _ & Hst1 & Hend1 & _) & _).
  fold st' in Hsubs.
  assert (Hid : FoodSubscription._id s1 = FoodSubscription._id s)
    by apply Hsame.
  unfold check_food_subscription. cbv zeta.
  cbn [ck_email ck_subscriptionId JS.truthy negb andb orb].
  rewrite (findOne_latest_unique _ _ _ s1).
  - eexists. split.
    + rewrite Hst1, Hend1. cbn [Status.eqb andb].
      apply Z.ltb_lt in Hlive. now rewrite Hlive.
    + cbn [sv_id sv_autoRenew sv_endDate]. now rewrite ?Hid, ?Hoff, ?Hend1.
  - rewrite Hsubs, replaced_ids; auto.
  - rewrite Hsubs. now apply In_replaced.
  - intros d. cbv beta. rewrite Hid. reflexivity.
Qed.

Lemma cancelled_renewal_stays_active_until_end_witness :
  let s := sample_subscription 1 "nimal@example.com" "FOOD_RECURRING_1"
             (Some "TOKEN_A") Status.active true
             1700000000000 1702592000000 in
  let st := with_subscriptions [s] empty_state in
  let st' := fst (cancel_food_subscription_renewal 1700500000000
                    {| req_subscriptionId := Some 1%N; req_userEmail := None;
                       req_reason := None |} st) in
  NoDup (map FoodSubscription._id (subscriptions st))
  /\ In s (subscriptions st)
  /\ 1702000000000 < FoodSubscription.endDate s
  /\ exists v,
       check_food_subscription 1702000000000
         {| ck_email := None; ck_subscriptionId := Some 1%N |} st'
       = Checked true true (Some v)
       /\ sv_autoRenew v = false.
Proof.
  intros s st st'.
  assert (Hnd : NoDup (map FoodSubscription._id (subscriptions st)))
    by (cbn; repeat constructor; intros []).
  assert (Hin : In s (subscriptions st)) by (left; reflexivity).
  assert (Hlive : 1702000000000 < FoodSubscription.endDate s) by reflexivity.
  split; [exact Hnd |]. split; [exact Hin |]. split; [exact Hlive |].
  destruct (cancelled_renewal_stays_active_until_end 1700500000000
              1702000000000 None None st s Hnd Hin eq_refl eq_refl Hlive)
    as (v & Hv & _ & Hoff & _).
  exists v. split; [exact Hv | exact Hoff].
Defined.

(** ** The record of a subscription *)

(** X22: a subscription is recorded once per gateway order id.  When the
    endpoint answers a request for an order id that no subscription has
    with a success, it has created one subscription, active, with the
    order id of the request, ending one month later, with auto-renewal as
    requested (on when the request does not say) and a next billing date
    (the end date) exactly when auto-renewal is on, and one [created] log
    entry.  The same request made again is answered with the id of this
    subscription and changes nothing; and the notification of the first
    payment of this order creates no second subscription and no log
    entry. *)
Theorem subscription_recorded_once `{Host}
    (now later : Z) (req : RecordRequest) (n : Notification) (st : State) :
  findOne (fun s => opt_eqb (FoodSubscription.payhereOrderId s)
                            (rr_payhereOrderId req))
          (subscriptions st) = None ->
  let r1 := create_food_subscription_record now req st in
  rc_success (snd r1) = true ->
  order_id n = rr_payhereOrderId req ->
  let r2 := create_food_subscription_record later req (fst r1) in
  let st3 := handleInitialFoodPaymentWithRecurring later n (fst r1) in
  exists s entry,
    subscriptions (fst r1) = subscriptions st ++ [s]
    /\ logs (fst r1) = logs st ++ [entry]
    /\ action entry = Action.created
    /\ rc_subscriptionId (snd r1) = Some (FoodSubscription._id s)
    /\ FoodSubscription.payhereOrderId s = rr_payhereOrderId req
    /\ FoodSubscription.status s = Status.active
    /\ FoodSubscription.endDate s
       = JSDate.setMonth now (JSDate.getMonth now + 1)
    /\ FoodSubscription.autoRenew s
       = match rr_enableAutoRenew req with Some b => b | None => true end
    /\ FoodSubscription.nextBillingDate s
       = (if FoodSubscription.autoRenew s
          then Some (FoodSubscription.endDate s) else None)
    /\ fst r2 = fst r1
    /\ rc_success (snd r2) = true
    /\ rc_subscriptionId (snd r2) = Some (FoodSubscription._id s)
    /\ List.length (subscriptions st3) = List.length (subscriptions (fst r1))
    /\ logs st3 = logs (fst r1).
Proof.
  intros Hnone r1 Hok Hoid r2 st3.
  assert (H1 : exists s entry,
    fst r1 = {| orders := orders st; subscriptions := subscriptions st ++ [s];
                logs := logs st ++ [entry]; nextId := N.succ (nextId st) |}
    /\ negb (JS.truthy (rr_userEmail req))
       || negb (JS.truthy (rr_customerName req))
       || negb (JS.truthy (rr_address req)) = false
    /\ action entry = Action.created
    /\ rc_subscriptionId (snd r1) = Some (FoodSubscription._id s)
    /\ FoodSubscription.payhereOrderId s = rr_payhereOrderId req
    /\ FoodSubscription.status s = Status.active
    /\ FoodSubscription.endDate s
       = JSDate.setMonth now (JSDate.getMonth now + 1)
    /\ FoodSubscription.autoRenew s
       = match rr_enableAutoRenew req with Some b => b | None => true end
    /\ FoodSubscription.nextBillingDate s
       = (if FoodSubscription.autoRenew s
          then Some (FoodSubscription.endDate s) else None)).
  { subst r1 r2 st3. revert Hok. unfold create_food_subscription_record.
    rewrite Hnone.
    destruct (negb (JS.truthy (rr_userEmail req)) || _ || _) eqn:Hreq;
      [discriminate |].
    destruct (valid_subscription _); cbn [negb]; [| discriminate].
    intros _. eexists. eexists. split; [reflexivity |].
    cbn [snd rc_subscriptionId action FoodSubscription._id
         FoodSubscription.payhereOrderId FoodSubscription.status
         FoodSubscription.endDate FoodSubscription.autoRenew
         FoodSubscription.nextBillingDate].
    do 7 (split; [reflexivity |]). reflexivity. }
  destruct H1 as (s & entry & Hst1 & Hreq & Haction & Hsid & Hsoid & Hstatus
                  & Hend & Hauto & Hnext).
  assert (Hfound :
    findOne (fun d => opt_eqb (FoodSubscription.payhereOrderId d)
                              (rr_payhereOrderId req))
            (subscriptions (fst r1)) = Some s).
  { rewrite Hst1. cbn [subscriptions]. unfold findOne in *.
    rewrite (find_app_None _ _ _ Hnone). cbn [find].
    now rewrite Hsoid, opt_eqb_refl. }
  exists s, entry.
  split; [now rewrite Hst1 |]. split; [now rewrite Hst1 |].
  do 7 (split; [assumption |]).
  subst r2 st3.
  unfold create_food_subscription_record,
    handleInitialFoodPaymentWithRecurring.
  rewrite Hoid, Hfound, Hreq. cbn [fst snd rc_success rc_subscriptionId].
  do 3 (split; [reflexivity |]).
  destruct (_ && _); [| now split].
  match goal with
  | |- context [match ?d with Some _ => _ | None => fst r1 end] =>
      destruct d; [| now split]
  end.
  cbn [subscriptions logs with_subscriptions].
  split; [| reflexivity]. unfold save_subscription. apply length_map.
Qed.

Lemma subscription_recorded_once_witness :
  let n := notification "FOOD_RECURRING_1" "2" "" (Some "320027150501")
             (Some "plan_2") (Some "food_monthly_recurring")
             (Some "nimal@example.com") (Some "TOKEN_A") None None in
  let r1 := create_food_subscription_record 1700000000000
              sample_record_request empty_state in
  let st3 := handleInitialFoodPaymentWithRecurring 1700000100000 n (fst r1) in
  rc_success (snd r1) = true
  /\ order_id n = rr_payhereOrderId sample_record_request
  /\ map FoodSubscription.userEmail (subscriptions (fst r1))
     = ["nimal@example.com"]
  /\ List.length (subscriptions st3) = 1%nat
  /\ map FoodSubscription.payhereRecurringToken (subscriptions st3)
     = [Some "TOKEN_A"].
Proof.
  intros n r1 st3.
  assert (Hok : rc_success (snd r1) = true) by (vm_compute; reflexivity).
  split; [exact Hok |]. split; [reflexivity |].
  split; [vm_compute; reflexivity |].
  split; [| vm_compute; reflexivity].
  destruct (subscription_recorded_once 1700000000000 1700000100000
              sample_record_request n empty_state eq_refl Hok eq_refl)
    as (s & entry & Hsubs & _ & _ & _ & _ & _ & _ & _ & _ & _ & _ & _ & Hlen
        & _).
  fold r1 in Hsubs, Hlen. fold st3 in Hlen. now rewrite Hlen, Hsubs.
Defined.

Example record_rejects_blank_address :
  create_food_subscription_record 1700000000000
    {| rr_userEmail := Some "nimal@example.com";
       rr_customerName := Some "Nimal Perera"; rr_phoneNumber := None;
       rr_address := Some " "; rr_amount := None; rr_currency := None;
       rr_paymentMethod := None;
       rr_payhereOrderId := Some "FOOD_RECURRING_1";
       rr_payhereRecurringToken := None; rr_enableAutoRenew := None |}
    empty_state
  = (empty_state,
     {| rc_http := 500; rc_success := false; rc_subscriptionId := None;
        rc_message := "Failed to create subscription record";
        rc_subscription := None |}).
Proof. vm_compute. reflexivity. Qed.

(** ** The list of the subscriptions of a user *)

Section FindSorted.
Context {A : Type} (created : A -> Z).

Lemma insert_latest_perm (d : A) (l : list A) :
  Permutation (insert_latest created d l) (d :: l).
Proof.
  induction l as [| x l IH]; cbn [insert_latest]; [reflexivity |].
  destruct (created d <? created x); [| reflexivity].
  rewrite IH. apply perm_swap.
Qed.

Lemma insert_latest_sorted (d : A) (l : list A) :
  StronglySorted (fun a b => created b <= created a) l ->
  StronglySorted (fun a b => created b <= created a)
                 (insert_latest created d l).
Proof.
  induction 1 as [| x l Hl IH Hx]; cbn [insert_latest].
  - repeat constructor.
  - destruct (created d <? created x) eqn:E.
    + apply Z.ltb_lt in E. constructor; [exact IH |].
      eapply Permutation_Forall; [symmetry; apply insert_latest_perm |].
      constructor; [lia | exact Hx].
    + apply Z.ltb_ge in E. constructor; [now constructor |].
      constructor; [exact E |].
      eapply Forall_impl; [| exact Hx]. cbv beta. intros; lia.
Qed.

Lemma find_latest_spec (q : A -> bool) (c : list A) :
  Permutation (find_latest created q c) (filter q c)
  /\ StronglySorted (fun a b => created b <= created a)
                    (find_latest created q c).
Proof.
  unfold find_latest. induction (filter q c) as [| x l [IHp IHs]];
    cbn [fold_right]; [split; constructor |].
  split; [rewrite insert_latest_perm; now constructor
         | now apply insert_latest_sorted].
Qed.

End FindSorted.

Lemma slice_last_suffix {A : Type} (n : nat) (l : list A) :
  (List.length (slice_last n l) = Nat.min n (List.length l))%nat
  /\ exists older, l = older ++ slice_last n l.
Proof.
  unfold slice_last. split.
  - rewrite length_skipn. lia.
  - exists (firstn (List.length l - n) l). symmetry. apply firstn_skipn.
Qed.

(** X23: the list of the subscriptions of a user shows each subscription of
    the address (lower-cased and trimmed) once, those created last
    first, and of the history of each its last entries only, five at
    most. *)
Theorem user_subscriptions_are_listed_latest_first
    (email : string) (st : State) :
  exists docs,
    Permutation docs
      (filter (fun s => String.eqb (FoodSubscription.userEmail s)
                                   (JS.trim (JS.toLowerCase email)))
              (subscriptions st))
    /\ StronglySorted (fun a b => FoodSubscription.createdAt b
                                  <= FoodSubscription.createdAt a) docs
    /\ Forall2 (fun v d =>
                  sv_id v = FoodSubscription._id d
                  /\ exists older shown,
                       FoodSubscription.renewalHistory d = older ++ shown
                       /\ sv_renewalHistory v = Some shown
                       /\ List.length shown
                          = Nat.min 5 (List.length
                                         (FoodSubscription.renewalHistory d)))
               (user_food_subscriptions email st) docs.
Proof.
  unfold user_food_subscriptions.
  match goal with
  | |- context [find_latest ?k ?q ?c] =>
      destruct (find_latest_spec k q c) as [Hp Hs];
      exists (find_latest k q c)
  end.
  split; [exact Hp |]. split; [exact Hs |].
  clear Hp Hs.
  match goal with
  | |- Forall2 _ (map _ ?l) _ => generalize l as docs
  end.
  induction docs as [| d docs IH]; cbn [map]; constructor; [| exact IH].
  cbn [sv_id sv_renewalHistory]. split; [reflexivity |].
  destruct (slice_last_suffix 5 (FoodSubscription.renewalHistory d))
    as [Hlen [older Hold]].
  exists older. eexists. split; [exact Hold |]. split; [reflexivity |].
  exact Hlen.
Qed.

(** ** The origins that may call the server *)

Section Units.
Import RegExp.

Lemma units_bytes (s : string) (fuel : nat) :
  (String.length s <= fuel)%nat ->
  Forall starts_no_space (list_ascii_of_string s) ->
  units fuel s = map Byte (list_ascii_of_string s).
Proof.
  revert fuel. induction s as [| c s IH]; intros fuel Hlen Hall.
  - now destruct fuel.
  - destruct fuel as [| fuel]; [cbn [String.length] in Hlen; lia |].
    cbn [list_ascii_of_string] in Hall.
    inversion Hall as [| ? ? Hc Hs]; subst.
    cbn [units list_ascii_of_string map]. rewrite (Hc s).
    rewrite IH; [reflexivity | cbn [String.length] in Hlen; lia | exact Hs].
Qed.

Lemma bytes_units (s : string) (fuel : nat) (l : list ascii) :
  (String.length s <= fuel)%nat ->
  units fuel s = map Byte l -> s = string_of_list_ascii l.
Proof.
  revert fuel l. induction s as [| c s IH]; intros fuel l Hlen Hu.
  - destruct fuel; cbn [units] in Hu; destruct l; try discriminate;
      reflexivity.
  - destruct fuel as [| fuel]; [cbn [String.length] in Hlen; lia |].
    cbn [units] in Hu.
    destruct (JS.white_space_len (String c s)) as [| k].
    + destruct l as [| b l]; [discriminate |].
      cbn [map] in Hu. injection Hu as Hb Hrest. subst b.
      cbn [string_of_list_ascii]. f_equal.
      apply (IH fuel); [cbn [String.length] in Hlen; lia | exact Hrest].
    + destruct l; discriminate.
Qed.

Lemma denotes_literal (s : string) (us : list unit) :
  denotes (literal s) us <-> us = map Byte (list_ascii_of_string s).
Proof.
  revert us. induction s as [| c s IH]; intros us;
    cbn [literal list_ascii_of_string map].
  - split; intros Hd; [now inversion Hd | subst; constructor].
  - split.
    + intros Hd. apply denotes_Seq_inv in Hd.
      destruct Hd as (us1 & us2 & -> & H1 & H2).
      inversion H1; subst. apply IH in H2. now subst.
    + intros ->. change (Byte c :: map Byte (list_ascii_of_string s))
        with ([Byte c] ++ map Byte (list_ascii_of_string s)).
      constructor; [constructor | now apply IH].
Qed.

Lemma denotes_Star_Digit (us : list unit) :
  denotes (Star Digit) us
  <-> exists ds, us = map Byte ds /\ forallb JS.is_digit ds = true.
Proof.
  split.
  - intros Hd. remember (Star Digit) as sr eqn:Hsr.
    induction Hd as [| | | | | | | | r' us1 us2 H1 _ H2 IH2];
      try discriminate; [now exists [] |].
    injection Hsr as ->. destruct (IH2 eq_refl) as (ds & -> & Hds).
    inversion H1 as [| | | ? Hb | | | | |]; subst.
    exists (b :: ds). cbn [map forallb app]. now rewrite Hb, Hds.
  - intros (ds & -> & Hds). induction ds as [| b ds IH]; [constructor |].
    cbn [forallb] in Hds. apply andb_true_iff in Hds. destruct Hds as [Hb Hds].
    change (map Byte (b :: ds)) with ([Byte b] ++ map Byte ds).
    constructor; [now constructor | now apply IH].
Qed.

End Units.

Lemma digit_starts_no_space (c : ascii) :
  JS.is_digit c = true -> starts_no_space c.
Proof. intros Hc r. now apply white_space_len_digit. Qed.

Lemma forallb_all_chars (p : ascii -> bool) (s : string) :
  forallb p (list_ascii_of_string s) = all_chars p s.
Proof.
  induction s as [| c s IH]; cbn [list_ascii_of_string forallb all_chars];
    [reflexivity | now rewrite IH].
Qed.

(** X24: the server accepts a request that has no origin, and otherwise
    exactly the origins [http://localhost:] followed by a port of one or
    more digits: the four origins that it lists are of this form, and
    add nothing. *)
Theorem origin_allowed_iff_localhost_port (origin : option string) :
  origin_allowed origin = true
  <-> JS.truthy origin = false
      \/ exists port,
           origin = Some ("http://localhost:" +++ port)
           /\ port <> "" /\ all_chars JS.is_digit port = true.
Proof.
  assert (Hprefix : Forall starts_no_space
                      (list_ascii_of_string "http://localhost:")).
  { repeat constructor; intros r; reflexivity. }
  assert (Htest : forall o,
    RegExp.test localhostRegex o = true
    <-> exists port, o = "http://localhost:" +++ port /\ port <> ""
                     /\ all_chars JS.is_digit port = true).
  { intros o. unfold RegExp.test. rewrite matches_denotes.
    unfold localhostRegex, RegExp.Plus. split.
    - intros Hd. apply denotes_Seq_inv in Hd.
      destruct Hd as (us1 & us2 & Hus & H1 & H2).
      apply denotes_literal in H1. subst us1.
      apply denotes_Seq_inv in H2. destruct H2 as (d1 & d2 & -> & Hd1 & Hd2).
      inversion Hd1 as [| | | b Hb | | | | |]; subst.
      apply denotes_Star_Digit in Hd2. destruct Hd2 as (ds & -> & Hds).
      change ([RegExp.Byte b] ++ map RegExp.Byte ds)
        with (map RegExp.Byte (b :: ds)) in Hus.
      rewrite <- map_app in Hus.
      apply bytes_units in Hus; [| lia].
      exists (string_of_list_ascii (b :: ds)).
      split; [| split; [discriminate |]].
      + rewrite Hus. reflexivity.
      + rewrite <- forallb_all_chars, list_ascii_of_string_of_list_ascii.
        cbn [forallb]. now rewrite Hb, Hds.
    - intros (port & -> & Hne & Hdigits).
      rewrite units_bytes; [| lia |].
      + rewrite list_ascii_of_string_app, map_app.
        constructor; [now apply denotes_literal |].
        destruct port as [| b port]; [now elim Hne |].
        cbn [all_chars] in Hdigits. apply andb_true_iff in Hdigits.
        destruct Hdigits as [Hb Hds].
        cbn [list_ascii_of_string map].
        change (RegExp.Byte b :: map RegExp.Byte (list_ascii_of_string port))
          with ([RegExp.Byte b]
                ++ map RegExp.Byte (list_ascii_of_string port)).
        constructor; [now constructor |].
        apply denotes_Star_Digit. eexists. split; [reflexivity |].
        now rewrite forallb_all_chars.
      + rewrite list_ascii_of_string_app. apply Forall_app.
        split; [exact Hprefix |].
        rewrite <- forallb_all_chars in Hdigits.
        rewrite forallb_forall in Hdigits. apply Forall_forall.
        intros c Hc. apply digit_starts_no_space. now apply Hdigits. }
  unfold origin_allowed.
  destruct origin as [[| c o] |]; cbn [JS.truthy negb JS.template];
    try (split; [now left | reflexivity]).
  destruct (RegExp.test localhostRegex (String c o)) eqn:Hre.
  - rewrite orb_true_r. split; [| reflexivity]. intros _. right.
    apply Htest in Hre. destruct Hre as (port & -> & Hport).
    now exists port.
  - rewrite orb_false_r. split.
    + intros Hin.
      destruct (existsb _ allowedOrigins) eqn:Hex; [| discriminate].
      apply existsb_exists in Hex. destruct Hex as (a & Ha & Heq).
      apply String.eqb_eq in Heq. right. rewrite Heq.
      cbn [allowedOrigins In] in Ha.
      destruct Ha as [<- | [<- | [<- | [<- | []]]]];
        [exists "5173" | exists "5176" | exists "3000" | exists "5555"];
        (split; [reflexivity | split; [discriminate | reflexivity]]).
    + intros [Hno | (port & Ho & Hport)]; [discriminate |].
      assert (E : String c o = "http://localhost:" +++ port) by congruence.
      rewrite E in Hre.
      assert (Hyes : RegExp.test localhostRegex ("http://localhost:" +++ port)
                     = true) by (apply Htest; now exists port).
      congruence.
Qed.

Example origin_allowed_values :
  map origin_allowed
      [None; Some "http://localhost:5173"; Some "http://localhost:8080";
       Some "https://localhost:5173"; Some "http://localhost:";
       Some "http://localhost:80/"; Some "http://127.0.0.1:5173";
       Some "http://localhost:5173.evil.example"]
  = [true; true; true; false; false; false; false; false].
Proof. vm_compute. reflexivity. Qed.
